(** * avito_agent: dialogue orchestration and hybrid retrieval

  A shallow embedding of the decision logic of the sales assistant
  (slot manager, negotiation engine, product repository, hybrid
  retriever, graph routing functions and the reflection node), with
  the properties its specification states about them.

  Conventions.
  - A Python [dict] with string keys is a [gmap string _]; a key that
    is absent is [None] on lookup, as with [dict.get].
  - JSON-like values of type [Any] are [pyval]s; [truthy] is Python's
    truth test.
  - Python [float]s are exact rationals ([Q]) wherever a property
    only depends on the order and the field laws.  The keyword
    scorer compares a computed score with a decimal literal that the
    computation can reach, so it is modelled in binary64, with the
    operations of the standard library's IEEE 754 specification
    ([spec_float]).
  - Python [int]s are [Z]. *)

From Stdlib Require Import ZArith QArith Lqa String Ascii List Bool Lia Permutation
  Sorted.
From Stdlib Require Import Floats DecimalString.
From stdpp Require Import gmap strings list fin_maps.

Set Warnings "-register-all,-inexact-float".
Local Open Scope string_scope.
Local Open Scope Z_scope.

(** * Part I: the embedding *)

(** ** Exceptions *)

Module Exc.

Inductive pyexc :=
| ValueError | TypeError | OverflowError | ZeroDivisionError
| AttributeError | KeyError | IndexError.

(** A call that returns a value or raises. *)
Inductive outcome (A : Type) : Type :=
| Ret (a : A)
| Raise (e : pyexc).
Arguments Ret {A} a.
Arguments Raise {A} e.

Definition bind {A B} (m : outcome A) (k : A -> outcome B) : outcome B :=
  match m with
  | Ret a => k a
  | Raise e => Raise e
  end.

#[global] Instance outcome_ret : MRet outcome := fun A a => Ret a.
#[global] Instance outcome_bind : MBind outcome := fun A B k m => bind m k.

End Exc.
Import Exc.

(** ** Python values *)

Module Py.

Inductive pyval : Type :=
| PNone
| PBool (b : bool)
| PInt (z : Z)
| PFloat (q : Q)
| PStr (s : string)
| PList (l : list pyval)
| PDict (d : gmap string pyval).

(** [bool(v)] *)
Definition truthy (v : pyval) : bool :=
  match v with
  | PNone => false
  | PBool b => b
  | PInt z => negb (Z.eqb z 0)
  | PFloat q => negb (Qeq_bool q 0)
  | PStr s => negb (String.eqb s "")
  | PList l => negb (Nat.eqb (length l) 0)
  | PDict d => negb (Nat.eqb (size d) 0)
  end.

(** [d.get(k, dflt)] *)
Definition dict_get {A} (d : gmap string A) (k : string) (dflt : A) : A :=
  default dflt (d !! k).

(** [k in d and d[k]]: the value under [k] when it is present and truthy. *)
Definition supplied (d : gmap string pyval) (k : string) : option pyval :=
  match d !! k with
  | Some v => if truthy v then Some v else None
  | None => None
  end.

(** Comparisons of Python floats, on the rational model. *)
Definition Qgeb (a b : Q) : bool := Qle_bool b a.
Definition Qltb (a b : Q) : bool := negb (Qle_bool b a).
Definition Qgtb (a b : Q) : bool := negb (Qle_bool a b).

(** [max(a, b)]: the first argument unless the second is greater. *)
Definition py_max (a b : Q) : Q := if Qgtb b a then b else a.

(** [l[:k]] for an [int] [k]; a negative [k] counts from the end. *)
Definition slice_to {A} (k : Z) (l : list A) : list A :=
  if Z.ltb k 0 then firstn (Z.to_nat (Z.of_nat (length l) + k)) l
  else firstn (Z.to_nat k) l.

(** The number a value stands for in arithmetic and comparisons:
    [bool] is a subtype of [int]. *)
Definition num_of (v : pyval) : option Q :=
  match v with
  | PBool b => Some (if b then 1 else 0)%Q
  | PInt z => Some (inject_Z z)
  | PFloat q => Some q
  | _ => None
  end.

(** [v < c] and [v >= c] against a number [c]. *)
Definition py_lt_num (v : pyval) (c : Q) : outcome bool :=
  match num_of v with
  | Some q => Ret (Qltb q c)
  | None => Raise TypeError
  end.

Definition py_ge_num (v : pyval) (c : Q) : outcome bool :=
  match num_of v with
  | Some q => Ret (Qgeb q c)
  | None => Raise TypeError
  end.

(** [v + k] for an [int] [k]. *)
Definition py_add_int (v : pyval) (k : Z) : outcome pyval :=
  match v with
  | PBool b => Ret (PInt ((if b then 1 else 0) + k))
  | PInt z => Ret (PInt (z + k))
  | PFloat q => Ret (PFloat (q + inject_Z k))
  | _ => Raise TypeError
  end.

(** [obj.get(k, dflt)]: only a [dict] has the method. *)
Definition py_get (obj : pyval) (k : string) (dflt : pyval) : outcome pyval :=
  match obj with
  | PDict d => Ret (dict_get d k dflt)
  | _ => Raise AttributeError
  end.

(** [len(v)]; the length of a string is counted in bytes here. *)
Definition py_len (v : pyval) : outcome Z :=
  match v with
  | PStr s => Ret (Z.of_nat (String.length s))
  | PList l => Ret (Z.of_nat (length l))
  | PDict d => Ret (Z.of_nat (size d))
  | _ => Raise TypeError
  end.

(** [v[:n]] is only evaluated for its exceptions. *)
Definition py_slice_check (v : pyval) : outcome unit :=
  match v with
  | PStr _ => Ret tt
  | PList _ => Ret tt
  | _ => Raise TypeError
  end.

(** [f"{v:.1f}"] and [v / 10.0], evaluated for their exceptions. *)
Definition py_float_check (v : pyval) : outcome unit :=
  match v with
  | PBool _ => Ret tt
  | PInt z =>
      if Z.ltb (Z.abs z) (2 ^ 1024 - 2 ^ 970) then Ret tt
      else Raise OverflowError
  | PFloat _ => Ret tt
  | PStr _ => Raise ValueError
  | _ => Raise TypeError
  end.

(** [seq[i]] *)
Definition py_index (seq i : pyval) : outcome pyval :=
  match seq with
  | PList l =>
      match i with
      | PInt _ | PBool _ =>
          let z := match i with PInt z => z | PBool true => 1 | _ => 0 end in
          let n := Z.of_nat (length l) in
          let z' := if Z.ltb z 0 then z + n else z in
          if Z.ltb z' 0 || Z.leb n z' then Raise IndexError
          else match nth_error l (Z.to_nat z') with
               | Some v => Ret v
               | None => Raise IndexError
               end
      | _ => Raise TypeError
      end
  | PStr s =>
      match i with
      | PInt _ | PBool _ =>
          let z := match i with PInt z => z | PBool true => 1 | _ => 0 end in
          let n := Z.of_nat (String.length s) in
          let z' := if Z.ltb z 0 then z + n else z in
          if Z.ltb z' 0 || Z.leb n z' then Raise IndexError
          else Ret (PStr (String.substring (Z.to_nat z') 1 s))
      | _ => Raise TypeError
      end
  | PDict d =>
      match i with
      | PStr k => match d !! k with Some v => Ret v | None => Raise KeyError end
      | PList _ | PDict _ => Raise TypeError
      | _ => Raise KeyError
      end
  | _ => Raise TypeError
  end.

(** [v in l] for a list [l] of strings. *)
Definition py_in_strs (v : pyval) (l : list string) : bool :=
  match v with
  | PStr s => existsb (String.eqb s) l
  | _ => false
  end.

(** A value that can be a dictionary key. *)
Definition hashable (v : pyval) : bool :=
  match v with
  | PList _ => false
  | PDict _ => false
  | _ => true
  end.

(** [', '.join(v[:2])], evaluated for its exceptions: the slice must
    exist and its elements must be strings. *)
Definition py_join_check (v : pyval) : outcome unit :=
  match v with
  | PStr _ => Ret tt
  | PList l =>
      if forallb (fun x => match x with PStr _ => true | _ => false end)
                 (firstn 2 l)
      then Ret tt else Raise TypeError
  | _ => Raise TypeError
  end.

(** [a + [x]] *)
Definition py_append (a x : pyval) : outcome pyval :=
  match a with
  | PList l => Ret (PList (l ++ [x]))
  | _ => Raise TypeError
  end.

End Py.
Import Py.

(** ** product/models.py *)

Module Models.

Record ProductDimensions := {
  dim_length : Q;
  dim_width : Q;
  dim_height : Q
}.

Record Product := {
  id : string;
  title : string;
  category : string;
  price : Q;
  min_price : Q;
  stock : Z;
  weight : Q;
  dimensions : ProductDimensions;
  description : string;
  characteristics : list (string * string);
  warranty : string;
  quality_notes : string;
  bargaining_allowed : bool;
  max_discount_percent : Q;
  meeting_locations : list string
}.

(** [self.stock = s] *)
Definition set_stock (p : Product) (s : Z) : Product :=
  {| id := id p; title := title p; category := category p;
     price := price p; min_price := min_price p; stock := s;
     weight := weight p; dimensions := dimensions p;
     description := description p; characteristics := characteristics p;
     warranty := warranty p; quality_notes := quality_notes p;
     bargaining_allowed := bargaining_allowed p;
     max_discount_percent := max_discount_percent p;
     meeting_locations := meeting_locations p |}.

Definition is_available (p : Product) : bool := Z.ltb 0 (stock p).

Definition can_bargain (p : Product) : bool :=
  bargaining_allowed p && Qgtb (max_discount_percent p) 0.

Definition calculate_min_acceptable_price (p : Product) : Q :=
  let discount_amount := (price p * (max_discount_percent p / 100))%Q in
  let calculated_min := (price p - discount_amount)%Q in
  py_max calculated_min (min_price p).

Definition is_price_acceptable (p : Product) (offered_price : Q) : bool :=
  Qgeb offered_price (calculate_min_acceptable_price p).

(** With the default strategy ["meet_halfway"]. *)
Definition calculate_counter_offer (p : Product) (offered_price : Q) : option Q :=
  if is_price_acceptable p offered_price then None
  else
    let min_acceptable := calculate_min_acceptable_price p in
    let counter := ((offered_price + price p) / 2)%Q in
    Some (py_max counter min_acceptable).

(** [reserve] mutates [self.stock]; the product after the call is
    returned next to the result. *)
Definition reserve (p : Product) (quantity : Z) : bool * Product :=
  if Z.leb quantity (stock p) then (true, set_stock p (stock p - quantity))
  else (false, p).

End Models.
Import Models.

(** ** product/repository.py *)

Module Repository.

(** [self.products]: product id to product object.  The objects are
    shared with the dictionary, so a reservation is an update of the
    entry. *)
Abbreviation ProductRepository := (gmap string Product).

Definition get_product (repo : ProductRepository) (product_id : string)
  : option Product := repo !! product_id.

Definition reserve_product (repo : ProductRepository) (product_id : string)
    (quantity : Z) : bool * ProductRepository :=
  match get_product repo product_id with
  | None => (false, repo)
  | Some product =>
      let '(ok, product') := reserve product quantity in
      (ok, <[product_id := product']> repo)
  end.

(** A run of reservation attempts, each a product id and a quantity. *)
Fixpoint reserve_all (repo : ProductRepository) (attempts : list (string * Z))
  : list bool * ProductRepository :=
  match attempts with
  | [] => ([], repo)
  | (pid, q) :: rest =>
      let '(ok, repo') := reserve_product repo pid q in
      let '(oks, repo'') := reserve_all repo' rest in
      (ok :: oks, repo'')
  end.

Definition stock_nonneg (repo : ProductRepository) : Prop :=
  map_Forall (fun _ p => 0 <= stock p) repo.

(** [StockStatus] of product/models.py. *)
Record StockStatus := {
  ss_product_id : string;
  ss_available : bool;
  ss_quantity : Z;
  ss_can_reserve : bool
}.

Definition check_stock (repo : ProductRepository) (product_id : string)
  : option StockStatus :=
  match get_product repo product_id with
  | None => None
  | Some product =>
      Some {| ss_product_id := id product;
              ss_available := is_available product;
              ss_quantity := stock product;
              ss_can_reserve := is_available product |}
  end.

End Repository.
Import Repository.

(** ** guardrails/validators.py: ActionValidator *)

Module Guardrails.

(** [str(n)] for an [int]. *)
Definition str_of_int (n : Z) : string := NilZero.string_of_int (Z.to_int n).

Definition validate_reservation (product_id : string) (quantity : Z)
    (stock_available : Z) : bool * string :=
  if Z.leb quantity 0 then (false, "Количество должно быть больше 0")
  else if Z.ltb stock_available quantity
  then (false,
        String.append "Недостаточно товара (доступно: "
          (String.append (str_of_int stock_available) ")"))
  else (true, "OK").

End Guardrails.

(** ** agent/tools.py: stock tools *)

Module Tools.

Definition check_stock (repo : ProductRepository) (product_id : string)
  : gmap string pyval :=
  match Repository.check_stock repo product_id with
  | None =>
      {[ "found" := PBool false; "message" := PStr "Товар не найден" ]}
  | Some status =>
      {[ "found" := PBool true;
         "available" := PBool (ss_available status);
         "quantity" := PInt (ss_quantity status);
         "can_reserve" := PBool (ss_can_reserve status) ]}
  end.

(** The repository after the call is returned next to the answer. *)
Definition reserve_product (repo : ProductRepository) (product_id : string)
    (quantity : Z) : gmap string pyval * ProductRepository :=
  let '(success, repo') := Repository.reserve_product repo product_id quantity in
  if success
  then ({[ "success" := PBool true;
           "message" :=
             PStr (String.append "Товар зарезервирован (количество: "
                     (String.append (Guardrails.str_of_int quantity) ")")) ]},
        repo')
  else ({[ "success" := PBool false;
           "message" :=
             PStr "Не удалось зарезервировать товар (недостаточно на складе)" ]},
        repo').

End Tools.

(** ** dialogue/slot_manager.py *)

Module SlotManager.

Inductive Intent :=
| PRODUCT_INFO
| STOCK_CHECK
| DELIVERY_QUESTION
| WARRANTY_QUESTION
| BARGAINING
| MEETING_PLANNING
| GENERAL_QUESTION.

(** The value of the [str] enumeration member. *)
Definition intent_value (i : Intent) : string :=
  match i with
  | PRODUCT_INFO => "product_info"
  | STOCK_CHECK => "stock_check"
  | DELIVERY_QUESTION => "delivery_question"
  | WARRANTY_QUESTION => "warranty_question"
  | BARGAINING => "bargaining"
  | MEETING_PLANNING => "meeting_planning"
  | GENERAL_QUESTION => "general_question"
  end.

(** [Slots]: every field is optional and starts as [None].  Assignment
    to a field is not validated, so a field holds whatever value the
    entity map carried. *)
Record Slots := {
  product_id : pyval;
  product_name : pyval;
  product_color : pyval;
  product_memory : pyval;
  product_variant : pyval;
  offered_price : pyval;
  agreed_price : pyval;
  meeting_location : pyval;
  meeting_date : pyval;
  meeting_time : pyval;
  delivery_service : pyval;
  delivery_address : pyval;
  city : pyval;
  user_preference : pyval
}.

Definition empty_slots : Slots :=
  Build_Slots PNone PNone PNone PNone PNone PNone PNone
              PNone PNone PNone PNone PNone PNone PNone.

Inductive slot_field :=
| F_product_id | F_product_name | F_product_color | F_product_memory
| F_product_variant | F_offered_price | F_agreed_price
| F_meeting_location | F_meeting_date | F_meeting_time
| F_delivery_service | F_delivery_address | F_city | F_user_preference.

#[global] Instance slot_field_eq_dec : EqDecision slot_field.
Proof. solve_decision. Defined.

Definition all_fields : list slot_field :=
  [F_product_id; F_product_name; F_product_color; F_product_memory;
   F_product_variant; F_offered_price; F_agreed_price;
   F_meeting_location; F_meeting_date; F_meeting_time;
   F_delivery_service; F_delivery_address; F_city; F_user_preference].

Definition get_field (f : slot_field) (s : Slots) : pyval :=
  match f with
  | F_product_id => product_id s
  | F_product_name => product_name s
  | F_product_color => product_color s
  | F_product_memory => product_memory s
  | F_product_variant => product_variant s
  | F_offered_price => offered_price s
  | F_agreed_price => agreed_price s
  | F_meeting_location => meeting_location s
  | F_meeting_date => meeting_date s
  | F_meeting_time => meeting_time s
  | F_delivery_service => delivery_service s
  | F_delivery_address => delivery_address s
  | F_city => city s
  | F_user_preference => user_preference s
  end.

(** [slots.<f> = v] *)
Definition set_field (f : slot_field) (v : pyval) (s : Slots) : Slots :=
  {| product_id := match f with F_product_id => v | _ => product_id s end;
     product_name := match f with F_product_name => v | _ => product_name s end;
     product_color := match f with F_product_color => v | _ => product_color s end;
     product_memory := match f with F_product_memory => v | _ => product_memory s end;
     product_variant := match f with F_product_variant => v | _ => product_variant s end;
     offered_price := match f with F_offered_price => v | _ => offered_price s end;
     agreed_price := match f with F_agreed_price => v | _ => agreed_price s end;
     meeting_location := match f with F_meeting_location => v | _ => meeting_location s end;
     meeting_date := match f with F_meeting_date => v | _ => meeting_date s end;
     meeting_time := match f with F_meeting_time => v | _ => meeting_time s end;
     delivery_service := match f with F_delivery_service => v | _ => delivery_service s end;
     delivery_address := match f with F_delivery_address => v | _ => delivery_address s end;
     city := match f with F_city => v | _ => city s end;
     user_preference := match f with F_user_preference => v | _ => user_preference s end |}.

Definition field_name (f : slot_field) : string :=
  match f with
  | F_product_id => "product_id"
  | F_product_name => "product_name"
  | F_product_color => "product_color"
  | F_product_memory => "product_memory"
  | F_product_variant => "product_variant"
  | F_offered_price => "offered_price"
  | F_agreed_price => "agreed_price"
  | F_meeting_location => "meeting_location"
  | F_meeting_date => "meeting_date"
  | F_meeting_time => "meeting_time"
  | F_delivery_service => "delivery_service"
  | F_delivery_address => "delivery_address"
  | F_city => "city"
  | F_user_preference => "user_preference"
  end.

(** [getattr(slots, slot_name, None)] *)
Definition getattr (slots : Slots) (slot_name : string) : pyval :=
  match find (fun f => String.eqb (field_name f) slot_name) all_fields with
  | Some f => get_field f slots
  | None => PNone
  end.

(** [SlotRequirements.REQUIREMENTS] *)
Definition REQUIREMENTS (i : Intent) : list string :=
  match i with
  | PRODUCT_INFO => []
  | STOCK_CHECK => []
  | DELIVERY_QUESTION => ["product_id"]
  | WARRANTY_QUESTION => ["product_id"]
  | BARGAINING => ["product_id"; "offered_price"]
  | MEETING_PLANNING =>
      ["product_id"; "meeting_location"; "meeting_date"; "meeting_time"]
  | GENERAL_QUESTION => []
  end.

(** One turn of the loop over [required_slots]. *)
Definition check_one (slots : Slots) (missing_slots : list string)
    (slot_name : string) : list string :=
  match getattr slots slot_name with
  | PNone =>
      if String.eqb slot_name "product_id" && truthy (product_name slots)
      then missing_slots
      else missing_slots ++ [slot_name]
  | _ => missing_slots
  end.

Definition check_slots_completeness (intent : Intent) (slots : Slots)
  : bool * list string :=
  let required_slots := REQUIREMENTS intent in
  let missing_slots := fold_left (check_one slots) required_slots [] in
  (Nat.eqb (length missing_slots) 0, missing_slots).

Definition should_ask_clarification (intent : Intent) (slots : Slots) : bool :=
  negb (check_slots_completeness intent slots).1.

(** The result of [float(v)]. *)
Inductive float_result :=
| FloatOk (q : Q)
| FloatRaises (e : pyexc).

Section Extraction.

(** [float(s)] on a string: the number it denotes, or [None] when it
    raises [ValueError]. *)
Variable str_to_float : string -> option Q.

Definition py_float (v : pyval) : float_result :=
  match v with
  | PNone => FloatRaises TypeError
  | PBool b => FloatOk (if b then 1 else 0)%Q
  | PInt z =>
      if Z.ltb (Z.abs z) (2 ^ 1024 - 2 ^ 970) then FloatOk (inject_Z z)
      else FloatRaises OverflowError
  | PFloat q => FloatOk q
  | PStr s =>
      match str_to_float s with
      | Some q => FloatOk q
      | None => FloatRaises ValueError
      end
  | PList _ => FloatRaises TypeError
  | PDict _ => FloatRaises TypeError
  end.

(** [if key in entities and entities[key]: updated_slots.<f> = entities[key]] *)
Definition assign (entities : gmap string pyval) (key : string)
    (f : slot_field) (s : Slots) : Slots :=
  match supplied entities key with
  | Some v => set_field f v s
  | None => s
  end.

(** The same with a fallback key, as for colour and memory. *)
Definition assign_either (entities : gmap string pyval) (key alt : string)
    (f : slot_field) (s : Slots) : Slots :=
  match supplied entities key with
  | Some v => set_field f v s
  | None => assign entities alt f s
  end.

(** The price step: [ValueError] and [TypeError] are swallowed, any
    other exception of [float] leaves the function. *)
Definition assign_price (entities : gmap string pyval) (s : Slots)
  : outcome Slots :=
  match supplied entities "price" with
  | Some v =>
      match py_float v with
      | FloatOk q => Ret (set_field F_offered_price (PFloat q) s)
      | FloatRaises ValueError => Ret s
      | FloatRaises TypeError => Ret s
      | FloatRaises e => Raise e
      end
  | None => Ret s
  end.

Definition extract_slots_from_entities (entities : gmap string pyval)
    (current_slots : Slots) : outcome Slots :=
  let updated_slots := current_slots in
  let updated_slots := assign entities "product_id" F_product_id updated_slots in
  let updated_slots := assign entities "product_name" F_product_name updated_slots in
  let updated_slots :=
    assign_either entities "product_color" "color" F_product_color updated_slots in
  let updated_slots :=
    assign_either entities "product_memory" "memory" F_product_memory updated_slots in
  let updated_slots := assign entities "variant" F_product_variant updated_slots in
  bind (assign_price entities updated_slots) (fun updated_slots =>
  let updated_slots := assign entities "location" F_meeting_location updated_slots in
  let updated_slots := assign entities "date" F_meeting_date updated_slots in
  let updated_slots := assign entities "time" F_meeting_time updated_slots in
  let updated_slots :=
    assign entities "delivery_service" F_delivery_service updated_slots in
  let updated_slots := assign entities "city" F_city updated_slots in
  Ret updated_slots).

End Extraction.

(** The entity keys that feed each slot field. *)
Definition entity_keys (f : slot_field) : list string :=
  match f with
  | F_product_id => ["product_id"]
  | F_product_name => ["product_name"]
  | F_product_color => ["product_color"; "color"]
  | F_product_memory => ["product_memory"; "memory"]
  | F_product_variant => ["variant"]
  | F_offered_price => ["price"]
  | F_agreed_price => []
  | F_meeting_location => ["location"]
  | F_meeting_date => ["date"]
  | F_meeting_time => ["time"]
  | F_delivery_service => ["delivery_service"]
  | F_delivery_address => []
  | F_city => ["city"]
  | F_user_preference => []
  end.

(** [s'] differs from [s] only in fields for which the entity map
    supplies a value, and such a field is not [None] afterwards. *)
Definition merged_from (entities : gmap string pyval) (s s' : Slots) : Prop :=
  forall f,
    get_field f s' = get_field f s \/
    ((exists k, In k (entity_keys f) /\ supplied entities k <> None) /\
     get_field f s' <> PNone).

(** *** generate_clarification_question *)

(** [SlotRequirements.CLARIFICATION_QUESTIONS], in the order of the
    source; strings are the UTF-8 bytes of the source text. *)
Definition CLARIFICATION_QUESTIONS : list (string * string) :=
  [("product_id", "О каком товаре вы спрашиваете?");
   ("offered_price", "Какую цену вы предлагаете?");
   ("meeting_location", "Где вам удобно встретиться?");
   ("meeting_date", "Какой день вам подходит?");
   ("meeting_time", "В какое время вам удобно?");
   ("delivery_service", "Какая служба доставки вас интересует?");
   ("delivery_address", "Куда нужно доставить товар?")].

Definition questions_get (slot : string) : option string :=
  snd <$> find (fun kv => String.eqb kv.1 slot) CLARIFICATION_QUESTIONS.

(** [CLARIFICATION_QUESTIONS.get(slot, f"Пожалуйста, уточните {slot}")] *)
Definition question_for (slot : string) : string :=
  match questions_get slot with
  | Some q => q
  | None => String.append "Пожалуйста, уточните " slot
  end.

Definition priority_order : list string :=
  ["product_id"; "offered_price"; "meeting_date"; "meeting_time";
   "meeting_location"].

Definition generate_clarification_question (missing_slots : list string)
  : string :=
  match missing_slots with
  | [] => ""
  | first_missing :: _ =>
      match find (fun slot => existsb (String.eqb slot) missing_slots)
                 priority_order with
      | Some slot => question_for slot
      | None => question_for first_missing
      end
  end.

(** The test the loop of [check_slots_completeness] applies to one
    required slot. *)
Definition counts_as_missing (slots : Slots) (slot_name : string) : bool :=
  match getattr slots slot_name with
  | PNone => negb (String.eqb slot_name "product_id" && truthy (product_name slots))
  | _ => false
  end.

(** The slots of [l] that come before [name] in [l]. *)
Fixpoint ranked_before (l : list string) (name : string) : list string :=
  match l with
  | [] => []
  | x :: rest => if String.eqb x name then [] else x :: ranked_before rest name
  end.

End SlotManager.

(** ** bargaining/negotiation_engine.py *)

Module Negotiation.

(** The decision strings ['accept'], ['counter_offer'], ['decline']. *)
Inductive Decision := accept | counter_offer | decline.

Definition decision_name (d : Decision) : string :=
  match d with
  | accept => "accept"
  | counter_offer => "counter_offer"
  | decline => "decline"
  end.


(** [evaluate_offer] returns the decision, the price that goes with it
    and an explanation; the explanation is a phrase drawn at random
    from the rules file and is left out.  The division raises when the
    list price is zero. *)
Definition evaluate_offer (product : Product) (offered_price : Q)
  : outcome (Decision * option Q) :=
  if negb (can_bargain product) then Ret (decline, None)
  else if Qgeb offered_price (price product) then Ret (accept, Some offered_price)
  else
    let discount_amount := (price product - offered_price)%Q in
    if Qeq_bool (price product) 0 then Raise ZeroDivisionError
    else
      let discount_percent := ((discount_amount / price product) * 100)%Q in
      let max_discount := max_discount_percent product in
      if Qle_bool discount_percent max_discount
      then Ret (accept, Some offered_price)
      else if Qle_bool discount_percent (max_discount * (3 # 2))
      then Ret (counter_offer, calculate_counter_offer product offered_price)
      else Ret (decline, Some (calculate_min_acceptable_price product)).


(** *** Sample products *)

Definition no_dimensions : ProductDimensions :=
  {| dim_length := 15; dim_width := 8; dim_height := 1 |}.

Definition sample_product (pid ptitle : string) (list_price floor : Q)
    (units : Z) (bargain : bool) (max_discount : Q) : Product :=
  {| id := pid; title := ptitle; category := "phones";
     price := list_price; min_price := floor; stock := units;
     weight := 1 # 5; dimensions := no_dimensions;
     description := ""; characteristics := [];
     warranty := ""; quality_notes := "";
     bargaining_allowed := bargain; max_discount_percent := max_discount;
     meeting_locations := [] |}.

(** List price 100, no bargaining. *)
Definition fixed_price_phone : Product :=
  sample_product "p1" "iphone 13" 100 90 3 false 0.

(** List price 100, up to 10 percent off, floor 50. *)
Definition negotiable_phone : Product :=
  sample_product "p2" "iphone 14" 100 50 3 true 10.


End Negotiation.

(** ** binary64 *)

Module B64.

(** The operations of IEEE 754 binary64 as [SpecFloat] specifies them
    (53 bits of precision, round to nearest even). *)
Definition b64_add : spec_float -> spec_float -> spec_float := SFadd prec emax.
Definition b64_sub : spec_float -> spec_float -> spec_float := SFsub prec emax.
Definition b64_mul : spec_float -> spec_float -> spec_float := SFmul prec emax.
Definition b64_div : spec_float -> spec_float -> spec_float := SFdiv prec emax.

(** The values of the decimal literals of the source. *)
Definition b64_zero : spec_float := S754_zero false.
Definition b64_one : spec_float := S754_finite false 4503599627370496 (-52).
Definition b64_half : spec_float := S754_finite false 4503599627370496 (-53).
Definition b64_0_3 : spec_float := S754_finite false 5404319552844595 (-54).
Definition b64_0_4 : spec_float := S754_finite false 7205759403792794 (-54).
Definition b64_0_6 : spec_float := S754_finite false 5404319552844595 (-53).
Definition b64_0_8 : spec_float := S754_finite false 7205759403792794 (-53).

(** An [int] as an operand of a true division: the quotient of two
    integers is rounded once. *)
Definition b64_of_nat (n : nat) : spec_float :=
  match n with
  | O => S754_zero false
  | Datatypes.S _ => S754_finite false (Pos.of_nat n) 0
  end.

(** [m / n] for two [int]s with [n > 0]. *)
Definition int_true_div (m n : nat) : spec_float :=
  b64_div (b64_of_nat m) (b64_of_nat n).

(** [max(a, b)] *)
Definition b64_max (a b : spec_float) : spec_float :=
  if SFltb a b then b else a.

Definition is_nan (x : spec_float) : bool :=
  match x with
  | S754_nan => true
  | _ => false
  end.

End B64.
Import B64.

(** ** rag/hybrid_retriever.py: fusion and threshold filtering *)

Module Retriever.

(** The arithmetic the retriever does on scores.  Fusion and filtering
    are written once over this interface; [Q] gives the exact model the
    order and field laws are proved in, [spec_float] gives binary64. *)
Class Score (S : Type) := {
  sc_zero : S;
  sc_three_tenths : S;
  sc_add : S -> S -> S;
  sc_sub : S -> S -> S;
  sc_mul : S -> S -> S;
  sc_div : S -> S -> outcome S;
  sc_geb : S -> S -> bool;
  sc_gtb : S -> S -> bool;
  sc_ltb : S -> S -> bool
}.

#[global] Instance Q_score : Score Q := {|
  sc_zero := 0%Q;
  sc_three_tenths := (3 # 10)%Q;
  sc_add := Qplus;
  sc_sub := Qminus;
  sc_mul := Qmult;
  sc_div := fun a b =>
    if Qeq_bool b 0 then Raise ZeroDivisionError else Ret (a / b)%Q;
  sc_geb := Qgeb;
  sc_gtb := Qgtb;
  sc_ltb := Qltb
|}.

#[global] Instance b64_score : Score spec_float := {|
  sc_zero := b64_zero;
  sc_three_tenths := b64_0_3;
  sc_add := b64_add;
  sc_sub := b64_sub;
  sc_mul := b64_mul;
  sc_div := fun a b =>
    if SFeqb b b64_zero then Raise ZeroDivisionError else Ret (b64_div a b);
  sc_geb := fun a b => SFleb b a;
  sc_gtb := fun a b => SFltb b a;
  sc_ltb := SFltb
|}.

(** A [dict] whose order of insertion matters: assigning to a key that
    is present keeps its place, a new key goes last. *)
Fixpoint dict_set {V} (k : string) (v : V) (d : list (string * V))
  : list (string * V) :=
  match d with
  | [] => [(k, v)]
  | (k', v') :: d' =>
      if String.eqb k' k then (k', v) :: d'
      else (k', v') :: dict_set k v d'
  end.

Fixpoint dict_find {V} (k : string) (d : list (string * V)) : option V :=
  match d with
  | [] => None
  | (k', v') :: d' => if String.eqb k' k then Some v' else dict_find k d'
  end.

Section Fusion.

Context {S : Type} `{Score S}.

(** [max(a, b)] *)
Definition sc_max (a b : S) : S := if sc_gtb b a then b else a.

(** A hit of the vector store. [sr_product_id] is
    [metadata.get('product_id')]. *)
Record SemanticResult := {
  sr_text : string;
  sr_metadata : gmap string pyval;
  sr_product_id : option string;
  sr_score : S
}.

(** A hit of [_keyword_search]. *)
Record KeywordResult := {
  kr_product_id : string;
  kr_score : S;
  kr_title : string;
  kr_metadata : gmap string pyval
}.

(** A value of the dictionary [combined]. *)
Record Entry := {
  e_text : string;
  e_metadata : gmap string pyval;
  e_semantic_score : S;
  e_keyword_score : S
}.

(** A merged candidate, as [retrieve] returns it. *)
Record FusedResult := {
  fr_text : string;
  fr_metadata : gmap string pyval;
  fr_score : S;
  fr_semantic_score : S;
  fr_keyword_score : S;
  fr_id : string
}.

Record HybridRetriever := {
  semantic_weight : S;
  keyword_weight : S;
  top_k : Z;
  min_score : S
}.

(** [HybridRetriever.__init__]: the weights are divided by their sum;
    [rag_top_k] and [rag_min_score] come from the settings. *)
Definition HybridRetriever_init (semantic_weight0 keyword_weight0 : S)
    (rag_top_k : Z) (rag_min_score : S) : outcome HybridRetriever :=
  let total := sc_add semantic_weight0 keyword_weight0 in
  ws ← sc_div semantic_weight0 total;
  wk ← sc_div keyword_weight0 total;
  Ret {| semantic_weight := ws; keyword_weight := wk;
         top_k := rag_top_k; min_score := rag_min_score |}.

(** [list.sort(key=score, reverse=True)]: stable, highest first. *)
Fixpoint insert_desc {A} (score : A -> S) (x : A) (l : list A) : list A :=
  match l with
  | [] => [x]
  | y :: l' =>
      if sc_ltb (score x) (score y) then y :: insert_desc score x l'
      else x :: y :: l'
  end.

Definition sort_desc {A} (score : A -> S) (l : list A) : list A :=
  fold_right (insert_desc score) [] l.

Section Combine.

Variable self : HybridRetriever.
Variable product_repo : ProductRepository.
(** [_format_product]: the text block of a product. *)
Variable _format_product : Product -> string.

(** [product_id = result['metadata'].get('product_id')], when it passes
    the test [if product_id:]. *)
Definition semantic_key (result : SemanticResult) : option string :=
  match sr_product_id result with
  | Some product_id =>
      if String.eqb product_id "" then None else Some product_id
  | None => None
  end.

(** The first loop: a semantic hit with a non-empty product id
    (re)places the entry of that id. *)
Definition add_semantic (combined : list (string * Entry))
    (result : SemanticResult) : list (string * Entry) :=
  match semantic_key result with
  | Some product_id =>
      dict_set product_id
        {| e_text := sr_text result;
           e_metadata := sr_metadata result;
           e_semantic_score := sr_score result;
           e_keyword_score := sc_zero |} combined
  | None => combined
  end.

(** The second loop: a keyword hit sets the keyword score of an entry
    that is there, or adds an entry when the repository knows the id. *)
Definition add_keyword (combined : list (string * Entry))
    (result : KeywordResult) : list (string * Entry) :=
  let product_id := kr_product_id result in
  match dict_find product_id combined with
  | Some e =>
      dict_set product_id
        {| e_text := e_text e; e_metadata := e_metadata e;
           e_semantic_score := e_semantic_score e;
           e_keyword_score := kr_score result |} combined
  | None =>
      match get_product product_repo product_id with
      | Some product =>
          dict_set product_id
            {| e_text := _format_product product;
               e_metadata := kr_metadata result;
               e_semantic_score := sc_zero;
               e_keyword_score := kr_score result |} combined
      | None => combined
      end
  end.

Definition merge_arms (semantic_results : list SemanticResult)
    (keyword_results : list KeywordResult) : list (string * Entry) :=
  fold_left add_keyword keyword_results
    (fold_left add_semantic semantic_results []).

Definition to_fused (item : string * Entry) : FusedResult :=
  let '(product_id, data) := item in
  let combined_score :=
    sc_add (sc_mul (e_semantic_score data) (semantic_weight self))
           (sc_mul (e_keyword_score data) (keyword_weight self)) in
  {| fr_text := e_text data;
     fr_metadata := e_metadata data;
     fr_score := combined_score;
     fr_semantic_score := e_semantic_score data;
     fr_keyword_score := e_keyword_score data;
     fr_id := "product_" ++ product_id |}.

Definition _combine_results (semantic_results : list SemanticResult)
    (keyword_results : list KeywordResult) : list FusedResult :=
  let combined := merge_arms semantic_results keyword_results in
  let final_results := map to_fused combined in
  sort_desc fr_score final_results.

End Combine.

(** The filtering at the end of [retrieve]: the threshold, then the
    adaptive cutoff under the top surviving score. *)
Definition threshold_filter (score_threshold : S)
    (combined_results : list FusedResult) : list FusedResult :=
  let filtered_results :=
    List.filter (fun r => sc_geb (fr_score r) score_threshold) combined_results in
  match filtered_results with
  | [] => filtered_results
  | top :: _ =>
      let top_score := fr_score top in
      let adaptive_threshold :=
        sc_max score_threshold (sc_sub top_score sc_three_tenths) in
      List.filter (fun r => sc_geb (fr_score r) adaptive_threshold) filtered_results
  end.

(** With the final [filtered_results[:k]]. *)
Definition threshold_filter_top (score_threshold : S) (k : Z)
    (combined_results : list FusedResult) : list FusedResult :=
  slice_to k (threshold_filter score_threshold combined_results).




End Fusion.

Arguments SemanticResult : clear implicits.
Arguments KeywordResult : clear implicits.
Arguments Entry : clear implicits.
Arguments FusedResult : clear implicits.
Arguments HybridRetriever : clear implicits.

(** *** _keyword_search *)

(** [x in y] on strings. *)
Fixpoint contains (x y : string) : bool :=
  String.prefix x y ||
  match y with
  | EmptyString => false
  | String _ y' => contains x y'
  end.

Section KeywordSearch.

(** [str.lower] and [str.split()], which depend on the Unicode tables. *)
Variable lower : string -> string.
Variable split : string -> list string.

(** The score from the title: 1.0 for a substring match, otherwise the
    share of the query words found in the title, times 0.8.  When
    [matches > 0] the query has at least one word. *)
Definition title_score (query_lower title_lower : string) : spec_float :=
  if contains query_lower title_lower then b64_one
  else
    let query_words := split query_lower in
    let matches :=
      length (List.filter (fun qw => contains qw title_lower) query_words) in
    if Nat.ltb 0 matches
    then b64_mul (int_true_div matches (length query_words)) b64_0_8
    else b64_zero.

Definition keyword_score (query : string) (product : Product) : spec_float :=
  let query_lower := lower query in
  let title_lower := lower (title product) in
  let category_lower := lower (category product) in
  let score := title_score query_lower title_lower in
  if contains query_lower category_lower then b64_max score b64_half
  else score.

(** The dictionary appended for a product that passes the floor. *)
Definition keyword_entry (score : spec_float) (product : Product)
  : KeywordResult spec_float :=
  {| kr_product_id := id product;
     kr_score := score;
     kr_title := title product;
     kr_metadata :=
       {[ "category" := PStr (category product);
          "price" := PFloat (price product);
          "product_id" := PStr (id product);
          "title" := PStr (title product) ]} |}.

(** [if score > 0.3] *)
Definition above_floor (score : spec_float) : bool := SFltb b64_0_3 score.

Definition keyword_hit (query : string) (product : Product)
  : option (KeywordResult spec_float) :=
  let score := keyword_score query product in
  if above_floor score then Some (keyword_entry score product) else None.

(** [all_products] is [product_repo.list_products()]. *)
Definition _keyword_search (all_products : list Product) (query : string)
    (top_k : Z) : list (KeywordResult spec_float) :=
  let results := omap (keyword_hit query) all_products in
  slice_to top_k (sort_desc kr_score results).

End KeywordSearch.

(** The ASCII part of [str.lower] and [str.split()]. *)
Definition ascii_lower_char (c : ascii) : ascii :=
  let n := nat_of_ascii c in
  if Nat.leb 65 n && Nat.leb n 90 then ascii_of_nat (n + 32) else c.

Fixpoint ascii_lower (s : string) : string :=
  match s with
  | EmptyString => EmptyString
  | String c s' => String (ascii_lower_char c) (ascii_lower s')
  end.

Definition is_space (c : ascii) : bool :=
  let n := nat_of_ascii c in
  (Nat.leb 9 n && Nat.leb n 13) || (Nat.leb 28 n && Nat.leb n 32).

Fixpoint words_from (word : string) (s : string) : list string :=
  match s with
  | EmptyString =>
      match word with EmptyString => [] | _ => [word] end
  | String c s' =>
      if is_space c then
        match word with
        | EmptyString => words_from EmptyString s'
        | _ => word :: words_from EmptyString s'
        end
      else words_from (word ++ String c EmptyString) s'
  end.

Definition ascii_split (s : string) : list string := words_from EmptyString s.

(** *** A sample catalogue *)

Definition phone (pid ptitle : string) : Product :=
  {| id := pid; title := ptitle; category := "Phones";
     price := 50000; min_price := 45000; stock := 1;
     weight := 1 # 5;
     dimensions := {| dim_length := 15; dim_width := 8; dim_height := 1 |};
     description := ""; characteristics := [];
     warranty := ""; quality_notes := "";
     bargaining_allowed := true; max_discount_percent := 10;
     meeting_locations := [] |}.


(** A title that holds three of the eight words of the query below. *)
Definition three_word_phone : Product := phone "p9" "red big phone".

Definition eight_word_query : string := "red big phone xx yy zz ww qq".

(** Highest score first, on the exact model. *)
Fixpoint sorted_desc (l : list (FusedResult Q)) : bool :=
  match l with
  | a :: (b :: _) as rest => Qle_bool (fr_score b) (fr_score a) && sorted_desc rest
  | _ => true
  end.

(** Every later element scores at most as much as every earlier one. *)
Definition ranked (l : list (FusedResult Q)) : Prop :=
  StronglySorted (fun a b => (fr_score b <= fr_score a)%Q) l.


(** *** Sample candidates *)



Definition default_retriever_binary64 : outcome (HybridRetriever spec_float) :=
  HybridRetriever_init b64_0_4 b64_0_6 3 b64_half.


End Retriever.

(** ** rag/vectorstore.py, rag/query_expander.py and [retrieve] *)

Module Retrieval.

Import Retriever.

Definition b64_two : spec_float := S754_finite false 4503599627370496 (-51).

(** [min(a, b)]: the first argument unless the second is smaller. *)
Definition b64_min (a b : spec_float) : spec_float :=
  if SFltb b a then b else a.

(** [bool(x)] for a float: anything but a zero. *)
Definition b64_truthy (x : spec_float) : bool := negb (SFeqb x b64_zero).

(** *** VectorStore.search *)

(** A document of the collection. *)
Record Document := {
  page_content : string;
  doc_metadata : gmap string pyval
}.

(** [max(0.0, min(1.0, 1.0 - (score / 2.0)))] for the distance [score]
    the collection reports. *)
Definition similarity_score (score : spec_float) : spec_float :=
  b64_max b64_zero
    (b64_min b64_one (b64_sub b64_one (b64_div score b64_two))).

(** [metadata.get('product_id')]; the store writes product ids as
    strings. *)
Definition metadata_product_id (metadata : gmap string pyval) : option string :=
  match metadata !! "product_id" with
  | Some (PStr s) => Some s
  | _ => None
  end.

(** One turn of the loop of [search]; the ['id'] entry of the result,
    which [retrieve] does not read, is left out. *)
Definition search_hit (min_score : spec_float) (hit : Document * spec_float)
  : option (SemanticResult spec_float) :=
  let '(doc, score) := hit in
  let similarity := similarity_score score in
  if SFleb min_score similarity
  then Some {| sr_text := page_content doc;
               sr_metadata := doc_metadata doc;
               sr_product_id := metadata_product_id (doc_metadata doc);
               sr_score := similarity |}
  else None.

(** [results] is what [similarity_search_with_score] answered. *)
Definition search (results : list (Document * spec_float))
    (min_score : spec_float) : list (SemanticResult spec_float) :=
  omap (search_hit min_score) results.

(** *** LLMReranker.rerank *)

(** [l[:top_k] if top_k else l] *)
Definition cut_top {A} (top_k : option Z) (l : list A) : list A :=
  match top_k with
  | Some k => if Z.eqb k 0 then l else slice_to k l
  | None => l
  end.

(** A result of [rerank]: the candidate with its score, and the
    ['llm_score'] entry when the model's score was used. *)
Record Reranked := {
  rr_result : FusedResult spec_float;
  rr_llm_score : option spec_float
}.

Definition rr_score (r : Reranked) : spec_float := fr_score (rr_result r).

Definition not_reranked (r : FusedResult spec_float) : Reranked :=
  {| rr_result := r; rr_llm_score := None |}.

(** [result_copy] with its new score. *)
Definition rescored (result : FusedResult spec_float) (llm_score : spec_float)
  : Reranked :=
  {| rr_result :=
       {| fr_text := fr_text result;
          fr_metadata := fr_metadata result;
          fr_score :=
            b64_add (b64_mul llm_score b64_half)
                    (b64_mul (fr_score result) b64_half);
          fr_semantic_score := fr_semantic_score result;
          fr_keyword_score := fr_keyword_score result;
          fr_id := fr_id result |};
     rr_llm_score := Some llm_score |}.

(** The loop over [enumerate(results)].  [llm_scores] gives, for each
    index of the list the model returned, the result of
    [float(llm_scores[i])], [None] when it raises; the loop answers
    [None] when an exception leaves it. *)
Fixpoint rerank_loop (results : list (FusedResult spec_float))
    (llm_scores : list (option spec_float)) : option (list Reranked) :=
  match results, llm_scores with
  | [], _ => Some []
  | _ :: _, [] => Some []
  | result :: results', Some llm_score :: llm_scores' =>
      match rerank_loop results' llm_scores' with
      | Some reranked =>
          if SFltb llm_score b64_0_3 then Some reranked
          else Some (rescored result llm_score :: reranked)
      | None => None
      end
  | _ :: _, None :: _ => None
  end.

(** [reply] is what the request to the model leads to: [None] when the
    request fails, when the reply holds no JSON object or when
    [len(llm_scores)] raises, and the scores otherwise.  It is only
    looked at when there are more than two results. *)
Definition rerank (reply : option (list (option spec_float)))
    (results : list (FusedResult spec_float)) (top_k : option Z)
  : list Reranked :=
  if Nat.leb (length results) 2
  then cut_top top_k (map not_reranked results)
  else
    match reply with
    | Some llm_scores =>
        match rerank_loop results llm_scores with
        | Some reranked => cut_top top_k (sort_desc rr_score reranked)
        | None => cut_top top_k (map not_reranked results)
        end
    | None => cut_top top_k (map not_reranked results)
    end.

(** *** HybridRetriever.retrieve *)

Section Retrieve.

Variable lower : string -> string.
Variable split : string -> list string.

Variable self : HybridRetriever spec_float.
Variable use_query_expansion : bool.
Variable use_llm_reranking : bool.
Variable product_repo : ProductRepository.
(** [product_repo.list_products()] *)
Variable all_products : list Product.
Variable _format_product : Product -> string.

(** [query_expander.expand] *)
Variable expand : string -> string.
(** [chroma.similarity_search_with_score(query, k)] *)
Variable similarity_search_with_score :
  string -> Z -> list (Document * spec_float).
(** The scores the reranking model gives for a query and its candidates. *)
Variable llm_reply :
  string -> list (FusedResult spec_float) -> option (list (option spec_float)).

(** [top_k or self.top_k] *)
Definition effective_top_k (top_k0 : option Z) : Z :=
  match top_k0 with
  | Some k => if Z.eqb k 0 then top_k self else k
  | None => top_k self
  end.

(** [min_score or self.min_score] *)
Definition effective_min_score (min_score0 : option spec_float) : spec_float :=
  match min_score0 with
  | Some m => if b64_truthy m then m else min_score self
  | None => min_score self
  end.

(** The candidates that reach the filter. *)
Definition candidates (query : string) (k : Z) : list (FusedResult spec_float) :=
  let search_query := if use_query_expansion then expand query else query in
  let semantic_results :=
    search (similarity_search_with_score search_query (k * 2)) b64_zero in
  let keyword_results :=
    _keyword_search lower split all_products search_query (k * 2) in
  let combined_results :=
    _combine_results self product_repo _format_product
      semantic_results keyword_results in
  if use_llm_reranking && Nat.ltb 2 (length combined_results)
  then map rr_result
         (rerank (llm_reply query combined_results) combined_results None)
  else combined_results.

(** The ['llm_score'] entry of a reranked result is not kept: nothing
    reads it. *)
Definition retrieve (query : string) (top_k0 : option Z)
    (min_score0 : option spec_float) : list (FusedResult spec_float) :=
  let k := effective_top_k top_k0 in
  let score_threshold := effective_min_score min_score0 in
  threshold_filter_top score_threshold k (candidates query k).

End Retrieve.

End Retrieval.

(** ** agent/state.py, agent/nodes.py *)

Module Nodes.

(** [AgentState] is a [TypedDict], a plain dictionary at run time: keys
    may be absent and values carry whatever the language model's JSON
    held.  A node returns a dictionary of the keys it sets. *)
Abbreviation AgentState := (gmap string pyval).

(** The graph writes every key a node returns over the state. *)
Definition apply_update (state update : AgentState) : AgentState := update ∪ state.

(** [state.get(k)] *)
Definition state_get (state : AgentState) (k : string) : pyval :=
  dict_get state k PNone.

(** [ConsoleInterface.process_message]: the state a turn starts from. *)
Definition initial_state (user_message session_id : string)
    (current_slots : gmap string pyval) (current_product_id : pyval)
  : AgentState :=
  list_to_map
    [ ("messages", PList []);
      ("user_message", PStr user_message);
      ("session_id", PStr session_id);
      ("intent", PNone);
      ("intent_confidence", PFloat 0);
      ("entities", PDict ∅);
      ("slots", PDict current_slots);
      ("slots_complete", PBool false);
      ("missing_slots", PList []);
      ("product_id", current_product_id);
      ("product_context", PNone);
      ("rag_results", PNone);
      ("relevance_score", PFloat 0);
      ("action_result", PNone);
      ("action_type", PNone);
      ("response", PStr "");
      ("needs_clarification", PBool false);
      ("clarification_question", PNone);
      ("validation_passed", PBool true);
      ("validation_issues", PList []);
      ("step_count", PInt 0);
      ("error", PNone) ].

(** *** reflection_node *)

Definition reflection_max_retries : gmap string pyval :=
  {[ "reflection_result" :=
       PDict {[ "is_valid" := PBool true; "reason" := PStr "max_retries_reached" ]};
     "response_quality_score" := PFloat 6;
     "needs_regeneration" := PBool false ]}.

Definition reflection_clarification : gmap string pyval :=
  {[ "reflection_result" :=
       PDict {[ "is_valid" := PBool true; "reason" := PStr "clarification_question" ]};
     "response_quality_score" := PFloat 8;
     "needs_regeneration" := PBool false ]}.

Definition reflection_error_fallback : gmap string pyval :=
  {[ "reflection_result" :=
       PDict {[ "is_valid" := PBool true; "reason" := PStr "error_fallback" ]};
     "response_quality_score" := PFloat 7;
     "needs_regeneration" := PBool false ]}.

(** The logging of the critique: [len(issues)] and [issues[:3]] are
    reached only when there is no critical error and [issues] is truthy. *)
Definition log_issues (critical_error issues : pyval) : outcome unit :=
  if truthy critical_error then Ret tt
  else if truthy issues then
    _ ← py_len issues; py_slice_check issues
  else Ret tt.

(** The body of the [try] block; [validation_result] is what
    [llm_client.validate_response] returned for this state. *)
Definition reflection_try (state : AgentState) (validation_result : pyval)
  : outcome (gmap string pyval) :=
  let regeneration_count := dict_get state "regeneration_count" (PInt 0) in
  limit_reached ← py_ge_num regeneration_count 2;
  if limit_reached : bool then Ret reflection_max_retries
  else if truthy (state_get state "needs_clarification")
          && truthy (state_get state "clarification_question")
  then Ret reflection_clarification
  else
    _ ← (match state !! "user_message" with
         | Some _ => Ret tt
         | None => Raise KeyError
         end);
    is_valid ← py_get validation_result "is_valid" (PBool true);
    overall_score ← py_get validation_result "overall_score" (PFloat 7);
    issues ← py_get validation_result "issues" (PList []);
    critical_error ← py_get validation_result "critical_error" PNone;
    _ ← log_issues critical_error issues;
    _ ← py_float_check overall_score;
    _ ← py_len issues;
    below ← (if truthy is_valid then Ret false
             else py_lt_num regeneration_count 2);
    let needs_regen : bool := below in
    new_count ← py_add_int regeneration_count (if needs_regen then 1 else 0);
    Ret ({[ "reflection_result" := validation_result;
            "response_quality_score" := overall_score;
            "needs_regeneration" := PBool needs_regen;
            "regeneration_count" := new_count;
            "validation_passed" := is_valid ]} : gmap string pyval).

(** [except Exception]: any failure gives the fixed fallback. *)
Definition reflection_node (state : AgentState) (validation_result : pyval)
  : gmap string pyval :=
  match reflection_try state validation_result with
  | Ret update => update
  | Raise _ => reflection_error_fallback
  end.

Definition route_after_reflection (state : AgentState) : string :=
  if truthy (dict_get state "needs_regeneration" (PBool false))
  then "regenerate" else "end".



(** The regeneration counter of a state, when it is an [int]. *)
Definition regeneration_count_of (state : AgentState) : option Z :=
  match dict_get state "regeneration_count" (PInt 0) with
  | PInt z => Some z
  | _ => None
  end.

(** *** Routing *)

Definition valid_nodes : list string :=
  ["rag_search"; "stock_check"; "delivery_check";
   "bargaining"; "meeting_planning"; "generate_response"].

(** The fallback of [route_decision]; the text of its reasoning is
    abridged. *)
Definition route_decision_fallback : gmap string pyval :=
  {[ "next_node" := PStr "rag_search";
     "confidence" := PFloat (1 # 2);
     "reasoning" := PStr "Fallback";
     "alternative_nodes" := PList [];
     "estimated_complexity" := PStr "medium" ]}.

(** [DeepSeekClient.route_decision], after the model has answered:
    [llm_reply] is the parsed JSON, or [None] when the call or the
    parsing raised. *)
Definition route_decision (llm_reply : option pyval) : pyval :=
  match llm_reply with
  | Some (PDict result) =>
      if py_in_strs (dict_get result "next_node" PNone) valid_nodes
      then PDict result
      else PDict (<["next_node" := PStr "generate_response"]> result)
  | _ => PDict route_decision_fallback
  end.

(** [llm_reply] is what the model answered to [route_decision]; the
    reasoning text of a planned step is abridged. *)
Definition intelligent_route_node (state : AgentState)
    (llm_reply : option pyval) : outcome (gmap string pyval) :=
  _ ← (match state !! "user_message" with
       | Some _ => Ret tt
       | None => Raise KeyError
       end);
  let execution_plan := state_get state "execution_plan" in
  plan ← (if truthy execution_plan then py_get execution_plan "plan" PNone
          else Ret PNone);
  from_plan ←
    (if truthy execution_plan && truthy plan then
       let current_step := dict_get state "current_step" (PInt 0) in
       let plan_steps := plan in
       n ← py_len plan_steps;
       pending ← py_lt_num current_step (inject_Z n);
       if pending : bool then
         step ← py_index plan_steps current_step;
         next_action ← py_get step "action" PNone;
         next_step ← py_add_int current_step 1;
         completed ←
           py_append (dict_get state "completed_steps" (PList [])) next_action;
         Ret (Some ({[ "routing_decision" := next_action;
                       "routing_reasoning" := PStr "plan";
                       "routing_confidence" := PFloat (9 # 10);
                       "current_step" := next_step;
                       "completed_steps" := completed ]} : gmap string pyval))
       else Ret None
     else Ret None);
  match from_plan with
  | Some update => Ret update
  | None =>
      let routing_result := route_decision llm_reply in
      next_node ← py_get routing_result "next_node" (PStr "rag_search");
      confidence ← py_get routing_result "confidence" (PFloat (1 # 2));
      _ ← py_float_check confidence;
      reasoning ← py_get routing_result "reasoning" (PStr "LLM routing decision");
      _ ← py_slice_check reasoning;
      alternatives ← py_get routing_result "alternative_nodes" (PList []);
      _ ← (if truthy alternatives then py_join_check alternatives else Ret tt);
      Ret ({[ "routing_decision" := next_node;
              "routing_reasoning" := reasoning;
              "routing_confidence" := confidence;
              "alternative_routes" := alternatives ]} : gmap string pyval)
  end.

(** [valid_routes.get(routing_decision, 'rag_search')]: the keys of
    [valid_routes] are the six node names, each mapped to itself; a
    list or a dictionary cannot be hashed. *)
Definition route_from_intelligent_router (state : AgentState) : outcome string :=
  let routing_decision := dict_get state "routing_decision" (PStr "rag_search") in
  match routing_decision with
  | PStr s => if existsb (String.eqb s) valid_nodes then Ret s else Ret "rag_search"
  | PList _ => Raise TypeError
  | PDict _ => Raise TypeError
  | _ => Ret "rag_search"
  end.

Definition route_after_action (state : AgentState) : outcome string :=
  let execution_plan := state_get state "execution_plan" in
  let current_step := dict_get state "current_step" (PInt 0) in
  plan ← (if truthy execution_plan then py_get execution_plan "plan" PNone
          else Ret PNone);
  if truthy execution_plan && truthy plan then
    n ← py_len plan;
    pending ← py_lt_num current_step (inject_Z n);
    Ret (if pending : bool then "continue_plan" else "generate_response")
  else Ret "generate_response".

Definition complex_intents : list string := ["bargaining"; "meeting_planning"].

Definition product_dependent_intents : list string :=
  ["delivery_question"; "bargaining"; "warranty_question"; "meeting_planning"].

(** [x is not None] *)
Definition is_not_none (v : pyval) : bool :=
  match v with PNone => false | _ => true end.

Definition route_by_complexity (state : AgentState) : outcome string :=
  let intent_confidence := dict_get state "intent_confidence" (PFloat (1 # 2)) in
  let slots_complete := dict_get state "slots_complete" (PBool false) in
  let intent := dict_get state "intent" (PStr "general_question") in
  let slots := dict_get state "slots" (PDict ∅) in
  is_complex ←
    (if py_in_strs intent complex_intents then Ret true
     else if py_in_strs intent product_dependent_intents then
       product_name ← py_get slots "product_name" PNone;
       let has_product_name := is_not_none product_name in
       slot_product_id ← py_get slots "product_id" PNone;
       let has_product_id :=
         truthy slot_product_id || truthy (state_get state "product_id") in
       Ret (has_product_name && negb has_product_id)
     else
       low ← py_lt_num intent_confidence (7 # 10);
       Ret (low && negb (truthy slots_complete)));
  Ret (if is_complex : bool then "planning" else "intelligent_router").

(** The classifier as the specification words it: the three rules are
    tried one after the other, and the first that matches decides. *)
Definition spec_rule1 (state : AgentState) : bool :=
  py_in_strs (dict_get state "intent" (PStr "general_question")) complex_intents.

Definition spec_rule2 (state : AgentState) : outcome bool :=
  let intent := dict_get state "intent" (PStr "general_question") in
  let slots := dict_get state "slots" (PDict ∅) in
  if py_in_strs intent product_dependent_intents then
    product_name ← py_get slots "product_name" PNone;
    slot_product_id ← py_get slots "product_id" PNone;
    Ret (is_not_none product_name
         && negb (truthy slot_product_id || truthy (state_get state "product_id")))
  else Ret false.

Definition spec_rule3 (state : AgentState) : outcome bool :=
  low ← py_lt_num (dict_get state "intent_confidence" (PFloat (1 # 2))) (7 # 10);
  Ret (low && negb (truthy (dict_get state "slots_complete" (PBool false)))).

Definition spec_classify_complexity (state : AgentState) : outcome string :=
  if spec_rule1 state then Ret "planning"
  else
    r2 ← spec_rule2 state;
    if r2 : bool then Ret "planning"
    else
      r3 ← spec_rule3 state;
      Ret (if r3 : bool then "planning" else "intelligent_router").

(** *** Sample states *)

(** A plan whose only step names an action that is not a graph node. *)
Definition state_with_foreign_plan_step : AgentState :=
  {[ "user_message" := PStr "hello";
     "execution_plan" :=
       PDict {[ "complexity" := PStr "simple";
                "plan" := PList [PDict {[ "step" := PInt 1;
                                          "action" := PStr "ask_clarification" ]}] ]};
     "current_step" := PInt 0;
     "completed_steps" := PList [] ]}.

(** [Slots().model_dump()]: every field present and [None]. *)
Definition dumped_empty_slots : gmap string pyval :=
  list_to_map
    (map (fun name => (name, PNone))
       ["product_id"; "product_name"; "product_color"; "product_memory";
        "product_variant"; "offered_price"; "agreed_price";
        "meeting_location"; "meeting_date"; "meeting_time";
        "delivery_service"; "delivery_address"; "city"; "user_preference"]).

(** A delivery question the classifier is unsure about, with no product
    named or resolved: the state after [check_slots_node]. *)
Definition unsure_delivery_state : AgentState :=
  {[ "user_message" := PStr "a dostavka?";
     "intent" := PStr "delivery_question";
     "intent_confidence" := PFloat (1 # 2);
     "entities" := PDict ∅;
     "slots" := PDict dumped_empty_slots;
     "slots_complete" := PBool false;
     "missing_slots" := PList [PStr "product_id"];
     "product_id" := PNone;
     "needs_clarification" := PBool true ]}.

End Nodes.

(** ** agent/nodes.py: routing by confidence and by intent *)

Module IntentRouting.

Import Nodes.

(** The confidence is formatted with [:.2f] for a log line before it
    is compared with the two thresholds. *)
Definition confidence_aware_routing (state : AgentState) : outcome string :=
  let confidence := dict_get state "intent_confidence" (PFloat (1 # 2)) in
  let slots_complete := dict_get state "slots_complete" (PBool false) in
  _ ← py_float_check confidence;
  low ← py_lt_num confidence (3 # 5);
  if low : bool then Ret "clarification"
  else
    medium ← py_lt_num confidence (4 # 5);
    if medium : bool then
      if negb (truthy slots_complete) then Ret "clarification"
      else Ret "execute"
    else Ret "execute".

Definition context_aware_intents : list (string * string) :=
  [("product_info", "rag_search");
   ("warranty_question", "rag_search");
   ("general_question", "rag_search");
   ("stock_check", "stock_check");
   ("meeting_planning", "meeting_planning")].

Definition routing : list (string * string) :=
  [("delivery_question", "delivery_check");
   ("bargaining", "bargaining")].

(** [table.get(key)] for a table with string keys; a list or a
    dictionary cannot be hashed. *)
Definition table_get (table : list (string * string)) (key : pyval)
  : outcome (option string) :=
  match key with
  | PStr s => Ret (snd <$> find (fun kv => String.eqb kv.1 s) table)
  | PList _ => Raise TypeError
  | PDict _ => Raise TypeError
  | _ => Ret None
  end.

Definition route_intent (state : AgentState) : outcome string :=
  let intent := dict_get state "intent" (PStr "general_question") in
  known ← table_get context_aware_intents intent;
  match known with
  | Some node => Ret node
  | None =>
      if truthy (state_get state "needs_clarification")
      then Ret "generate_response"
      else
        routed ← table_get routing intent;
        Ret (default "rag_search" routed)
  end.

(** Two states after the slot check, with complete slots. *)
Definition fairly_sure_state : AgentState :=
  {[ "intent" := PStr "stock_check";
     "intent_confidence" := PFloat (7 # 10);
     "slots_complete" := PBool true ]}.

Definition sure_state : AgentState :=
  {[ "intent" := PStr "stock_check";
     "intent_confidence" := PFloat (9 # 10);
     "slots_complete" := PBool true ]}.

End IntentRouting.

(** ** Planning and the loop through the router *)

Module Planning.

Import Nodes.

(** *** DeepSeekClient.create_plan *)

(** The plan [create_plan] answers with when the request or the
    handling of the reply raises. *)
Definition fallback_plan : gmap string pyval :=
  list_to_map
    [ ("complexity", PStr "simple");
      ("estimated_steps", PInt 2);
      ("plan",
       PList
         [ PDict (list_to_map
                    [ ("step", PInt 1);
                      ("action", PStr "rag_search");
                      ("goal", PStr "Найти информацию");
                      ("required_data", PList []);
                      ("expected_output", PStr "info") ]);
           PDict (list_to_map
                    [ ("step", PInt 2);
                      ("action", PStr "generate_response");
                      ("goal", PStr "Ответить пользователю");
                      ("required_data", PList []);
                      ("depends_on", PList [PInt 1]) ]) ]);
      ("success_criteria", PStr "Ответ сгенерирован");
      ("fallback_plan", PStr "Уточнить у пользователя");
      ("estimated_time", PStr "3-5 секунд") ].

(** [key in result] for a string [key] and a value parsed from JSON. *)
Definition json_contains (key : string) (result : pyval) : outcome bool :=
  match result with
  | PDict d => Ret (bool_decide (is_Some (d !! key)))
  | PList l =>
      Ret (existsb (fun v => match v with
                             | PStr s => String.eqb s key
                             | _ => false
                             end) l)
  | PStr s => Ret (Retriever.contains key s)
  | _ => Raise TypeError
  end.

(** [if key not in result: result[key] = v] *)
Definition json_set_default (key : string) (v : pyval) (result : pyval)
  : outcome pyval :=
  present ← json_contains key result;
  if present : bool then Ret result
  else match result with
       | PDict d => Ret (PDict (<[key := v]> d))
       | _ => Raise TypeError
       end.

(** The reporting branch, evaluated for its exceptions:
    [{...}.get(result.get("complexity", "medium"), 0.6)] and
    [len(result.get('plan', []))]. *)
Definition report_plan (result : pyval) : outcome unit :=
  complexity ← py_get result "complexity" (PStr "medium");
  _ ← (if hashable complexity then Ret tt else Raise TypeError);
  plan ← py_get result "plan" (PList []);
  _ ← py_len plan;
  Ret tt.

(** [llm_reply] is the parsed JSON of the model's answer, [None] when
    the request or the parsing raised; [reporting] is
    [langfuse_manager.is_enabled() and session_id]. *)
Definition create_plan (llm_reply : option pyval) (reporting : bool) : pyval :=
  match llm_reply with
  | None => PDict fallback_plan
  | Some result =>
      match (result ← json_set_default "complexity" (PStr "medium") result;
             result ← json_set_default "plan" (PList []) result;
             _ ← (if reporting then report_plan result else Ret tt);
             Ret result) with
      | Ret result => result
      | Raise _ => PDict fallback_plan
      end
  end.

(** *** planning_node *)

(** The answer of [planning_node] when an exception reaches its
    handler. *)
Definition planning_error_update : gmap string pyval :=
  {[ "execution_plan" :=
       PDict {[ "complexity" := PStr "simple"; "plan" := PList [] ]};
     "current_step" := PInt 0;
     "plan_complexity" := PStr "simple";
     "completed_steps" := PList [];
     "next_planned_action" := PNone ]}.

(** [plan_steps[:3]] and the logging of each of its steps:
    [step['step']], [step['action']] and [step['goal']] must exist. *)
Definition log_step (step : pyval) : outcome unit :=
  _ ← py_index step (PStr "step");
  _ ← py_index step (PStr "action");
  _ ← py_index step (PStr "goal");
  Ret tt.

Fixpoint log_steps (steps : list pyval) : outcome unit :=
  match steps with
  | [] => Ret tt
  | step :: rest => _ ← log_step step; log_steps rest
  end.

Definition log_plan_steps (plan_steps : pyval) : outcome unit :=
  match plan_steps with
  | PList l => log_steps (firstn 3 l)
  | PStr s =>
      log_steps (map (fun c => PStr (String c EmptyString))
                     (firstn 3 (list_ascii_of_string s)))
  | PDict _ => Raise TypeError
  | _ => Raise TypeError
  end.

(** The calls to the logger and to the metrics collector are left
    out: they do not raise for the string session ids the interfaces
    create. *)
Definition planning_node (state : AgentState) (llm_reply : option pyval)
    (reporting : bool) : gmap string pyval :=
  match
    (_ ← (match state !! "user_message" with
          | Some _ => Ret tt
          | None => Raise KeyError
          end);
     let plan := create_plan llm_reply reporting in
     complexity ← py_get plan "complexity" (PStr "medium");
     plan_steps ← py_get plan "plan" (PList []);
     _ ← (if truthy plan_steps then log_plan_steps plan_steps else Ret tt);
     first_action ←
       (if truthy plan_steps then
          n ← py_len plan_steps;
          if Z.ltb 0 n then
            first ← py_index plan_steps (PInt 0);
            py_get first "action" PNone
          else Ret PNone
        else Ret PNone);
     Ret ({[ "execution_plan" := plan;
             "current_step" := PInt 0;
             "plan_complexity" := complexity;
             "completed_steps" := PList [];
             "next_planned_action" := first_action ]} : gmap string pyval))
  with
  | Ret update => update
  | Raise _ => planning_error_update
  end.

(** *** The loop through the router and the action nodes *)

(** The test that [intelligent_route_node] and [route_after_action]
    both make: is a step of the plan still to be done? *)
Definition plan_pending (state : AgentState) : outcome bool :=
  let execution_plan := state_get state "execution_plan" in
  let current_step := dict_get state "current_step" (PInt 0) in
  plan ← (if truthy execution_plan then py_get execution_plan "plan" PNone
          else Ret PNone);
  if truthy execution_plan && truthy plan then
    n ← py_len plan;
    py_lt_num current_step (inject_Z n)
  else Ret false.

(** The number of steps of the plan that are still to be done, when
    the plan is a list and the step counter an integer. *)
Definition pending_steps (state : AgentState) : Z :=
  match state_get state "execution_plan" with
  | PDict execution_plan =>
      match dict_get execution_plan "plan" PNone with
      | PList plan_steps =>
          match dict_get state "current_step" (PInt 0) with
          | PInt current_step => Z.of_nat (length plan_steps) - current_step
          | PBool b => Z.of_nat (length plan_steps) - (if b then 1 else 0)
          | _ => 0
          end
      | _ => 0
      end
  | _ => 0
  end.

Definition action_nodes : list string :=
  ["rag_search"; "stock_check"; "delivery_check"; "bargaining";
   "meeting_planning"].

Section RouterLoop.

(** What the routing model answers at each pass through the router. *)
Variable llm_reply : nat -> option pyval.
(** The update a capability node returns for the state it is given,
    or the exception that leaves it. *)
Variable action_node : string -> AgentState -> outcome (gmap string pyval).

(** The part of the graph between [intelligent_router] and
    [generate_response]: the router, the edge
    [route_from_intelligent_router], the capability node and the edge
    [route_after_action], which leads back to the router while the
    plan has steps left.  The result lists the capability nodes that
    ran and gives the state that reaches [generate_response]; it is
    [None] when [fuel] passes were not enough. *)
Fixpoint router_loop (fuel : nat) (pass : nat) (state : AgentState)
  : outcome (option (list string * AgentState)) :=
  match fuel with
  | O => Ret None
  | Datatypes.S fuel' =>
      update ← intelligent_route_node state (llm_reply pass);
      let state := apply_update state update in
      node ← route_from_intelligent_router state;
      if String.eqb node "generate_response" then Ret (Some ([], state))
      else
        update ← action_node node state;
        let state := apply_update state update in
        route ← route_after_action state;
        if String.eqb route "continue_plan" then
          rest ← router_loop fuel' (Datatypes.S pass) state;
          Ret (match rest with
               | Some (nodes, final) => Some (node :: nodes, final)
               | None => None
               end)
        else Ret (Some ([node], state))
  end.

End RouterLoop.

(** The capability nodes a plan leads through, read off its steps: the
    action of each step, as the edge after the router maps it to a
    node, up to the first step that leads to [generate_response]. *)
Definition step_action (step : pyval) : pyval :=
  match step with
  | PDict d => dict_get d "action" PNone
  | _ => PNone
  end.

Definition node_for (action : pyval) : string :=
  match action with
  | PStr s => if existsb (String.eqb s) valid_nodes then s else "rag_search"
  | _ => "rag_search"
  end.

Fixpoint planned_nodes (steps : list pyval) : list string :=
  match steps with
  | [] => []
  | step :: rest =>
      let node := node_for (step_action step) in
      if String.eqb node "generate_response" then []
      else node :: planned_nodes rest
  end.

(** A step the router can follow: a dictionary whose action, if any,
    can be looked up in the table of routes. *)
Definition well_formed_step (step : pyval) : bool :=
  match step with
  | PDict d => hashable (dict_get d "action" PNone)
  | _ => false
  end.

(** A step that [planning_node] can log: a dictionary with the keys
    ['step'], ['action'] and ['goal']. *)
Definition loggable_step (step : pyval) : Prop :=
  exists d, step = PDict d /\
    is_Some (d !! "step") /\ is_Some (d !! "action") /\ is_Some (d !! "goal").

(** *** Samples *)

(** A plan of two steps, and a state that enters the router with it. *)
Definition two_steps : list pyval :=
  [ PDict {[ "step" := PInt 1; "action" := PStr "stock_check";
             "goal" := PStr "stock" ]};
    PDict {[ "step" := PInt 2; "action" := PStr "bargaining";
             "goal" := PStr "price" ]} ].

Definition two_step_plan : gmap string pyval :=
  {[ "complexity" := PStr "medium"; "plan" := PList two_steps ]}.

Definition two_step_plan_state : AgentState :=
  {[ "user_message" := PStr "hello";
     "execution_plan" := PDict two_step_plan;
     "current_step" := PInt 0;
     "completed_steps" := PList [] ]}.

(** A capability node that only reports what it did. *)
Definition reporting_action_node (node : string) (state : AgentState)
  : outcome (gmap string pyval) :=
  Ret {[ "action_result" := PStr node; "action_type" := PStr node ]}.

End Planning.

(** ** llm/deepseek_client.py: validate_response *)

Module Critic.

Import Nodes Planning.

(** The verdict [validate_response] answers with when the request or
    the handling of the reply raises. *)
Definition validation_fallback : gmap string pyval :=
  {[ "is_valid" := PBool true;
     "overall_score" := PFloat 7;
     "issues" := PList [];
     "suggestions" := PStr "";
     "critical_error" := PNone ]}.

(** [if "is_valid" not in result:
       result["is_valid"] = result.get("overall_score", 0) >= 7.0] *)
Definition default_verdict (result : pyval) : outcome pyval :=
  present ← json_contains "is_valid" result;
  if present : bool then Ret result
  else
    score ← py_get result "overall_score" (PInt 0);
    passed ← py_ge_num score 7;
    match result with
    | PDict d => Ret (PDict (<["is_valid" := PBool passed]> d))
    | _ => Raise TypeError
    end.

(** The reporting branch, evaluated for its exceptions:
    [result.get("overall_score", 7.0) / 10.0] and [result['is_valid']]. *)
Definition report_verdict (result : pyval) : outcome unit :=
  score ← py_get result "overall_score" (PFloat 7);
  _ ← py_float_check score;
  _ ← py_index result (PStr "is_valid");
  Ret tt.

(** [llm_reply] is the parsed JSON of the critic's answer, [None] when
    the request or the parsing raised; [reporting] is
    [langfuse_manager.is_enabled() and session_id]. *)
Definition validate_response (llm_reply : option pyval) (reporting : bool)
  : pyval :=
  match llm_reply with
  | None => PDict validation_fallback
  | Some result =>
      match (result ← default_verdict result;
             _ ← (if reporting then report_verdict result else Ret tt);
             Ret result) with
      | Ret result => result
      | Raise _ => PDict validation_fallback
      end
  end.

End Critic.

(** ** agent/nodes.py: check_slots_node *)

Module CheckSlots.

Import SlotManager Nodes.

(** [Intent(value)], with the fallback of the node for [ValueError]. *)
Definition all_intents : list Intent :=
  [PRODUCT_INFO; STOCK_CHECK; DELIVERY_QUESTION; WARRANTY_QUESTION;
   BARGAINING; MEETING_PLANNING; GENERAL_QUESTION].

Definition intent_of_value (v : pyval) : Intent :=
  match v with
  | PStr s =>
      default GENERAL_QUESTION
        (find (fun i => String.eqb (intent_value i) s) all_intents)
  | _ => GENERAL_QUESTION
  end.

(** [slots.model_dump()] *)
Definition model_dump (slots : Slots) : gmap string pyval :=
  list_to_map (map (fun f => (field_name f, get_field f slots)) all_fields).

(** The keys [extract_slots_from_entities] tests with [in]. *)
Definition entity_names : list string :=
  ["product_id"; "product_name"; "product_color"; "color";
   "product_memory"; "memory"; "variant"; "price"; "location"; "date";
   "time"; "delivery_service"; "city"].

Section Node.

Variable str_to_float : string -> option Q.

(** [extract_slots_from_entities] on whatever [state['entities']]
    holds.  On a list or a string the tests [key in entities] are
    membership and substring tests, and the subscript
    [entities[key]] that follows a positive test raises. *)
Definition extract_from (entities : pyval) (current_slots : Slots)
  : outcome Slots :=
  match entities with
  | PDict d => extract_slots_from_entities str_to_float d current_slots
  | PList l =>
      if existsb (fun name =>
                    existsb (fun v => match v with
                                      | PStr s => String.eqb s name
                                      | _ => false
                                      end) l) entity_names
      then Raise TypeError else Ret current_slots
  | PStr s =>
      if existsb (fun name => Retriever.contains name s) entity_names
      then Raise TypeError else Ret current_slots
  | _ => Raise TypeError
  end.

(** [current_slots] is the [Slots] object built from [state['slots']]. *)
Definition check_slots_node (state : AgentState) (current_slots : Slots)
  : outcome (gmap string pyval) :=
  intent_value ← (match state !! "intent" with
                  | Some v => Ret v
                  | None => Raise KeyError
                  end);
  _ ← (match state !! "slots" with
       | Some _ => Ret tt
       | None => Raise KeyError
       end);
  entities ← (match state !! "entities" with
              | Some v => Ret v
              | None => Raise KeyError
              end);
  updated_slots ← extract_from entities current_slots;
  let updated_slots :=
    if negb (truthy (product_id updated_slots))
       && truthy (state_get state "product_id")
    then set_field F_product_id (state_get state "product_id") updated_slots
    else updated_slots in
  let intent := intent_of_value intent_value in
  let '(is_complete, missing) := check_slots_completeness intent updated_slots in
  let clarification :=
    if is_complete then PNone
    else PStr (generate_clarification_question missing) in
  Ret ({[ "slots" := PDict (model_dump updated_slots);
          "slots_complete" := PBool is_complete;
          "missing_slots" := PList (map PStr missing);
          "needs_clarification" := PBool (negb is_complete);
          "clarification_question" := clarification ]}
       : gmap string pyval).

End Node.

(** The update of the node for a delivery question that names no
    product. *)
Definition product_question_update : gmap string pyval :=
  {[ "slots" := PDict dumped_empty_slots;
     "slots_complete" := PBool false;
     "missing_slots" := PList [PStr "product_id"];
     "needs_clarification" := PBool true;
     "clarification_question" := PStr "О каком товаре вы спрашиваете?" ]}.

End CheckSlots.

(** ** agent/nodes.py: bargaining_node *)

Module Bargaining.

Import Nodes Negotiation Retriever.

(** [a or b] *)
Definition py_or (a b : pyval) : pyval := if truthy a then a else b.

(** What a run of the node leaves behind: the update it returns, the
    value it stores in [state['slots']['agreed_price']], if any, and
    the title and price it passes to [telegram.notify_deal_agreed], if
    it calls it. *)
Record BargainingRun := {
  br_update : gmap string pyval;
  br_agreed_price : option pyval;
  br_deal_notified : option (string * pyval)
}.

Section Node.

Variable product_repo : ProductRepository.
(** The phrase [evaluate_offer] draws for its explanation. *)
Variable explanation : string.
(** [hybrid_retriever.retrieve(state['user_message'], top_k=1)] *)
Variable results : list (FusedResult spec_float).

(** [NegotiationEngine.evaluate_offer] on the value of the slot: the
    price is compared with the list price only for a product that is
    open to bargaining. *)
Definition evaluate_offer_value (product : Product) (offered_price : pyval)
  : outcome (Decision * option Q) :=
  if negb (can_bargain product) then Ret (decline, None)
  else match num_of offered_price with
       | Some q => evaluate_offer product q
       | None => Raise TypeError
       end.

(** [AgentTools.evaluate_bargaining]: [None] stands for the answer
    with ["found": False]. *)
Definition evaluate_bargaining (product_id offered_price : pyval)
  : outcome (option (Product * Decision)) :=
  match product_id with
  | PStr s =>
      match get_product product_repo s with
      | Some product =>
          r ← evaluate_offer_value product offered_price;
          Ret (Some (product, r.1))
      | None => Ret None
      end
  | PList _ => Raise TypeError
  | PDict _ => Raise TypeError
  | _ => Ret None
  end.

Definition missing_information (product_id offered_price : pyval) : string :=
  String.append "Не хватает информации: "
    (String.concat ", "
       ((if truthy product_id then [] else ["товар"])
        ++ (if truthy offered_price then [] else ["предложенная цена"]))%list).

Definition bargaining_node (state : AgentState) : outcome BargainingRun :=
  slots ← (match state !! "slots" with
           | Some v => Ret v
           | None => Raise KeyError
           end);
  slot_product_id ← py_get slots "product_id" PNone;
  offered_price ← py_get slots "offered_price" PNone;
  let product_id := py_or (state_get state "product_id") slot_product_id in
  product_id ←
    (if truthy product_id then Ret product_id
     else
       _ ← (match state !! "user_message" with
            | Some _ => Ret tt
            | None => Raise KeyError
            end);
       match results with
       | [] => Ret product_id
       | top :: _ => Ret (dict_get (fr_metadata top) "product_id" PNone)
       end);
  if negb (truthy product_id) || negb (truthy offered_price) then
    let result : gmap string pyval :=
      {[ "action_result" := PStr (missing_information product_id offered_price);
         "needs_clarification" := PBool true;
         "action_type" := PStr "bargaining" ]} in
    Ret {| br_update :=
             if truthy product_id then <["product_id" := product_id]> result
             else result;
           br_agreed_price := None;
           br_deal_notified := None |}
  else
    result ← evaluate_bargaining product_id offered_price;
    match result with
    | None =>
        Ret {| br_update :=
                 {[ "action_result" := PStr "Товар не найден";
                    "product_id" := product_id;
                    "action_type" := PStr "bargaining" ]};
               br_agreed_price := None;
               br_deal_notified := None |}
    | Some (product, decision) =>
        let accepted := match decision with accept => true | _ => false end in
        Ret {| br_update :=
                 {[ "action_result" := PStr explanation;
                    "product_id" := product_id;
                    "action_type" := PStr "bargaining" ]};
               br_agreed_price :=
                 if accepted then Some offered_price else None;
               br_deal_notified :=
                 if accepted then Some (title product, offered_price)
                 else None |}
    end.

End Node.

End Bargaining.

(** ** rag/query_expander.py: QueryExpander *)

Module QueryExpansion.

Section Expand.

(** [str.lower] and [str.strip], and the cleaning of the model's
    reply: it is stripped, its code fences and double quotes are
    removed, and it is stripped again. *)
Variable lower : string -> string.
Variable strip : string -> string.
Variable clean : string -> string.

(** [expand] reads and fills [self._cache]; the cache after the call
    is returned next to the result.  [reply] is the content of the
    model's answer, [None] when the request or its handling raises;
    it is only asked for when the cache has no entry. *)
Definition expand (cache : gmap string string) (reply : option string)
    (query : string) : string * gmap string string :=
  let cache_key := strip (lower query) in
  match cache !! cache_key with
  | Some expanded => (expanded, cache)
  | None =>
      match reply with
      | Some content =>
          let expanded := clean content in
          let expanded :=
            if negb (Retriever.contains (lower query) (lower expanded))
            then String.append query (String.append " " expanded)
            else expanded in
          (expanded, <[cache_key := expanded]> cache)
      | None => (query, cache)
      end
  end.

End Expand.

End QueryExpansion.

(** ** bargaining/negotiation_engine.py: _get_value_reasons *)

Module ValueReasons.

Section Reasons.

Variable lower : string -> string.

Definition _get_value_reasons (product : Product) : string :=
  let reasons : list string := [] in
  let reasons :=
    if (Retriever.contains "месяц" (lower (warranty product))
        || Retriever.contains "год" (lower (warranty product)))
       && Retriever.contains "официальн" (lower (warranty product))
    then (reasons ++ ["официальная гарантия"])%list else reasons in
  let reasons :=
    if existsb (fun word => Retriever.contains word (lower (quality_notes product)))
               ["новый"; "запечатан"; "идеальн"]
    then (reasons ++ ["идеальное состояние"])%list else reasons in
  let reasons :=
    if Retriever.contains "новый" (lower (quality_notes product))
    then (reasons ++ ["товар новый"])%list else reasons in
  let reasons :=
    if Qgtb (price product) 100000
    then (reasons ++ ["дорогой товар с небольшой маржой"])%list else reasons in
  match reasons with
  | [] => "товар в хорошем состоянии"
  | _ => String.concat ", " reasons
  end.

End Reasons.

End ValueReasons.

(** ** dialogue/context_manager.py *)

Module Context.

Record Message := {
  msg_role : string;
  msg_content : string;
  (** [datetime.now()] at the time of the call *)
  msg_timestamp : Z;
  msg_metadata : gmap string pyval
}.

Record ConversationContext := {
  ctx_session_id : string;
  ctx_max_history : Z;
  ctx_messages : list Message;
  ctx_metadata : gmap string pyval
}.

(** [ConversationContext(session_id, max_history)] *)
Definition new_context (session_id : string) (max_history : Z)
  : ConversationContext :=
  {| ctx_session_id := session_id; ctx_max_history := max_history;
     ctx_messages := []; ctx_metadata := ∅ |}.

(** [l[-n:]]: the last [n] elements for a positive [n]; for [n = 0]
    the start index is [-0 = 0] and the slice is the whole list; for a
    negative [n] the start index [-n] is positive. *)
Definition slice_last {A} (n : Z) (l : list A) : list A :=
  if Z.ltb 0 n then drop (Z.to_nat (Z.of_nat (length l) - n)) l
  else drop (Z.to_nat (- n)) l.

Definition set_messages (ctx : ConversationContext) (l : list Message)
  : ConversationContext :=
  {| ctx_session_id := ctx_session_id ctx;
     ctx_max_history := ctx_max_history ctx;
     ctx_messages := l;
     ctx_metadata := ctx_metadata ctx |}.

(** [add_message] mutates the context; the context after the call is
    returned.  [now] is the time of the call. *)
Definition add_message (ctx : ConversationContext) (role content : string)
    (metadata : option (gmap string pyval)) (now : Z) : ConversationContext :=
  let message :=
    {| msg_role := role; msg_content := content; msg_timestamp := now;
       msg_metadata := default ∅ metadata |} in
  let messages := (ctx_messages ctx ++ [message])%list in
  if Z.ltb (ctx_max_history ctx) (Z.of_nat (length messages))
  then set_messages ctx (slice_last (ctx_max_history ctx) messages)
  else set_messages ctx messages.

Definition get_history (ctx : ConversationContext) (last_n : option Z)
  : list Message :=
  match last_n with
  | Some n => if Z.eqb n 0 then ctx_messages ctx
              else slice_last n (ctx_messages ctx)
  | None => ctx_messages ctx
  end.

Definition get_last_user_message (ctx : ConversationContext) : option string :=
  msg_content <$>
    find (fun msg => String.eqb (msg_role msg) "user") (rev (ctx_messages ctx)).

Definition get_last_assistant_message (ctx : ConversationContext)
  : option string :=
  msg_content <$>
    find (fun msg => String.eqb (msg_role msg) "assistant")
         (rev (ctx_messages ctx)).

Definition clear_history (ctx : ConversationContext) : ConversationContext :=
  set_messages ctx [].

(** [ContextManager]: the contexts are shared with the dictionary, so
    a change to a context is a change of its entry. *)
Record ContextManager := {
  cm_max_history : Z;
  cm_contexts : gmap string ConversationContext
}.

(** The context is returned next to the manager after the call. *)
Definition get_or_create_context (self : ContextManager) (session_id : string)
  : ConversationContext * ContextManager :=
  match cm_contexts self !! session_id with
  | Some ctx => (ctx, self)
  | None =>
      let ctx := new_context session_id (cm_max_history self) in
      (ctx, {| cm_max_history := cm_max_history self;
               cm_contexts := <[session_id := ctx]> (cm_contexts self) |})
  end.

Definition get_context (self : ContextManager) (session_id : string)
  : option ConversationContext :=
  cm_contexts self !! session_id.

Definition delete_context (self : ContextManager) (session_id : string)
  : ContextManager :=
  {| cm_max_history := cm_max_history self;
     cm_contexts := delete session_id (cm_contexts self) |}.

End Context.

(** ** Sample data *)

Module Samples.

Import SlotManager Negotiation Nodes.

Definition sample_repository : ProductRepository :=
  <["p2" := negotiable_phone]> (<["p1" := fixed_price_phone]> ∅).

(** A product was named but not yet resolved to an id. *)
Definition named_product_slots : Slots :=
  set_field F_product_name (PStr "iPhone") empty_slots.

Definition price_entities : gmap string pyval :=
  {[ "price" := PStr "20000"; "city" := PStr "" ]}.

(** [float] on the strings of the sample entities. *)
Definition sample_str_to_float (s : string) : option Q :=
  if String.eqb s "20000" then Some 20000%Q else None.



End Samples.

(** ** A sample negotiation *)

Module BargainingSamples.

Import Nodes Bargaining Samples.

(** A buyer offers 95 for the phone listed at 100. *)
Definition offer_state : AgentState :=
  {[ "user_message" := PStr "95?";
     "product_id" := PStr "p2";
     "slots" := PDict {[ "product_id" := PNone;
                         "offered_price" := PFloat 95 ]} ]}.

Definition offer_run : BargainingRun :=
  {| br_update :=
       {[ "action_result" := PStr "ok";
          "product_id" := PStr "p2";
          "action_type" := PStr "bargaining" ]};
     br_agreed_price := Some (PFloat 95);
     br_deal_notified := Some ("iphone 14", PFloat 95) |}.

End BargainingSamples.

(** * Part II: properties *)

Import SlotManager Negotiation Retriever Nodes Samples.

(** ** Stock reservation *)

Lemma reserve_enough (p : Product) (q : Z) :
q <= stock p -> reserve p q = (true, set_stock p (stock p - q)).
Proof.
intros H. unfold reserve. destruct (Z.leb_spec q (stock p)); [reflexivity | lia].
Qed.

Lemma reserve_short (p : Product) (q : Z) :
stock p < q -> reserve p q = (false, p).
Proof.
intros H. unfold reserve. destruct (Z.leb_spec q (stock p)); [lia | reflexivity].
Qed.

Lemma reserve_keeps_nonneg (p : Product) (q : Z) :
0 <= stock p -> 0 <= stock (reserve p q).2.
Proof.
intros H. unfold reserve. destruct (Z.leb_spec q (stock p)); simpl; lia.
Qed.

Lemma reserve_product_keeps_nonneg repo pid q :
stock_nonneg repo -> stock_nonneg (reserve_product repo pid q).2.
Proof.
intros Hinv. unfold reserve_product, get_product.
destruct (repo !! pid) as [p|] eqn:Hp; [|exact Hinv].
pose proof (reserve_keeps_nonneg p q (Hinv _ _ Hp)) as Hq.
destruct (reserve p q) as [ok p']. simpl in *.
apply map_Forall_insert_2; assumption.
Qed.

Lemma reserve_all_keeps_nonneg attempts : forall repo,
stock_nonneg repo -> stock_nonneg (reserve_all repo attempts).2.
Proof.
induction attempts as [|[pid q] rest IH]; intros repo Hinv; [exact Hinv|].
simpl. pose proof (reserve_product_keeps_nonneg repo pid q Hinv) as H1.
destruct (reserve_product repo pid q) as [ok repo']. simpl in H1.
specialize (IH repo' H1).
destruct (reserve_all repo' rest) as [oks repo'']. exact IH.
Qed.

Lemma reserve_product_unknown repo pid q :
  repo !! pid = None -> reserve_product repo pid q = (false, repo).
Proof. intros H. unfold reserve_product, get_product. rewrite H. reflexivity. Qed.

(** C10: [reserve] answers [True] and takes [quantity] off the stock
    exactly when the stock covers it, and answers [False] without a
    change otherwise; a catalogue whose stocks are non-negative stays so
    over any run of reservation attempts; reserving an unknown product
    id answers [False] and leaves the repository as it was. *)
Theorem C10_stock_never_negative :
  (forall p q, q <= stock p ->
     reserve p q = (true, set_stock p (stock p - q)) /\
     stock (reserve p q).2 = stock p - q) /\
  (forall p q, stock p < q -> reserve p q = (false, p)) /\
  (forall p q, (reserve p q).1 = true -> q <= stock p) /\
  (forall p q, 0 <= stock p -> 0 <= stock (reserve p q).2) /\
  (forall repo attempts,
     stock_nonneg repo -> stock_nonneg (reserve_all repo attempts).2) /\
  (forall repo pid q,
     repo !! pid = None -> reserve_product repo pid q = (false, repo)).
Proof.
  repeat split.
  - apply reserve_enough; assumption.
  - rewrite reserve_enough by assumption. reflexivity.
  - intros p q H. apply reserve_short; assumption.
  - intros p q. unfold reserve.
    destruct (Z.leb_spec q (stock p)); simpl; [tauto | discriminate].
  - intros p q. apply reserve_keeps_nonneg.
  - intros repo attempts. apply reserve_all_keeps_nonneg.
  - intros repo pid q. apply reserve_product_unknown.
Qed.

(** C10 on a phone with three units in stock and a two-product repository. *)
Lemma C10_witness :
  reserve negotiable_phone 1 = (true, set_stock negotiable_phone 2) /\
  reserve negotiable_phone 5 = (false, negotiable_phone) /\
  stock_nonneg
    (reserve_all sample_repository [("p2", 2); ("p2", 2); ("zz", 1)]).2 /\
  reserve_product sample_repository "zz" 1 = (false, sample_repository).
Proof.
  destruct C10_stock_never_negative as (Hok & Hshort & _ & _ & Hall & Hunknown).
  split; [apply (Hok negotiable_phone 1); simpl; lia|].
  split; [apply (Hshort negotiable_phone 5); simpl; lia|].
  split; [|apply Hunknown; reflexivity].
  apply Hall. unfold sample_repository.
  apply map_Forall_insert_2; [simpl; lia|].
  apply map_Forall_insert_2; [simpl; lia|].
  apply map_Forall_empty.
Defined.

(** ** Slot completeness *)


Lemma check_one_keeps_product_id_out (slots : Slots) missing name :
  product_id slots = PNone ->
  truthy (product_name slots) = true ->
  ~ In "product_id" missing ->
  ~ In "product_id" (check_one slots missing name).
Proof.
  intros Hid Hname Hout. unfold check_one.
  destruct (getattr slots name); try exact Hout.
  destruct (String.eqb_spec name "product_id") as [->|Hne]; simpl.
  - rewrite Hname. exact Hout.
  - intros Hin. apply in_app_or in Hin as [Hin|[Hin|[]]]; [tauto | congruence].
Qed.

Lemma fold_check_keeps_product_id_out (slots : Slots) required :
  product_id slots = PNone ->
  truthy (product_name slots) = true ->
  forall missing,
    ~ In "product_id" missing ->
    ~ In "product_id" (fold_left (check_one slots) required missing).
Proof.
  intros Hid Hname. induction required as [|name rest IH]; intros missing Hout.
  - exact Hout.
  - simpl. apply IH. apply check_one_keeps_product_id_out; assumption.
Qed.

(** C6: when [product_id] is unset and [product_name] is non-empty,
    [check_slots_completeness] does not list ["product_id"] as missing,
    whatever the intent; for the intents that require nothing but the
    product reference the slots then count as complete. *)
Theorem C6_product_name_stands_for_product_id
    (intent : Intent) (slots : Slots) :
  product_id slots = PNone ->
  truthy (product_name slots) = true ->
  ~ In "product_id" (check_slots_completeness intent slots).2 /\
  (REQUIREMENTS intent = ["product_id"] ->
   check_slots_completeness intent slots = (true, [])).
Proof.
  intros Hid Hname. split.
  - unfold check_slots_completeness. simpl.
    apply fold_check_keeps_product_id_out; auto.
  - intros Hreq. unfold check_slots_completeness. rewrite Hreq. simpl.
    unfold check_one. change (getattr slots "product_id") with (product_id slots).
    rewrite Hid, Hname. reflexivity.
Qed.

(** C6 on slots that name an iPhone without an id, for a bargaining intent. *)
Lemma C6_witness :
  ~ In "product_id" (check_slots_completeness BARGAINING named_product_slots).2 /\
  (REQUIREMENTS BARGAINING = ["product_id"] ->
   check_slots_completeness BARGAINING named_product_slots = (true, [])).
Proof.
  exact (C6_product_name_stands_for_product_id
           BARGAINING named_product_slots eq_refl eq_refl).
Defined.

(** ** Slot extraction *)

Lemma supplied_empty k : supplied ∅ k = None.
Proof. unfold supplied. rewrite lookup_empty. reflexivity. Qed.

Lemma supplied_not_none entities k v : supplied entities k = Some v -> v <> PNone.
Proof.
  unfold supplied. destruct (entities !! k) as [w|]; [|discriminate].
  destruct (truthy w) eqn:Hw; [|discriminate].
  intros [= <-] ->. discriminate.
Qed.

Lemma get_set_field f g v s :
  get_field f (set_field g v s) = if decide (f = g) then v else get_field f s.
Proof. destruct f, g; reflexivity. Qed.

Lemma merged_from_refl entities s : merged_from entities s s.
Proof. intros f. left. reflexivity. Qed.

Lemma merged_from_trans entities s1 s2 s3 :
  merged_from entities s1 s2 -> merged_from entities s2 s3 ->
  merged_from entities s1 s3.
Proof.
  intros H12 H23 f. destruct (H23 f) as [E|U]; [|right; exact U].
  rewrite E. apply H12.
Qed.

Lemma assign_merged entities k g s :
  In k (entity_keys g) -> merged_from entities s (assign entities k g s).
Proof.
  intros Hk f. unfold assign.
  destruct (supplied entities k) as [v|] eqn:Hv; [|left; reflexivity].
  rewrite get_set_field. destruct (decide (f = g)) as [->|Hne]; [|left; reflexivity].
  right. split.
  - exists k. split; [exact Hk | congruence].
  - eapply supplied_not_none; eassumption.
Qed.

Lemma assign_either_merged entities k alt g s :
  In k (entity_keys g) -> In alt (entity_keys g) ->
  merged_from entities s (assign_either entities k alt g s).
Proof.
  intros Hk Halt f. unfold assign_either.
  destruct (supplied entities k) as [v|] eqn:Hv.
  - pose proof (assign_merged entities k g s Hk f) as H.
    unfold assign in H. rewrite Hv in H. exact H.
  - apply assign_merged; assumption.
Qed.

Lemma assign_price_merged str_to_float entities s s' :
  assign_price str_to_float entities s = Ret s' -> merged_from entities s s'.
Proof.
  unfold assign_price. intros H f.
  destruct (supplied entities "price") as [v|] eqn:Hv.
  - destruct (py_float str_to_float v) as [q|e].
    + injection H as <-. rewrite get_set_field.
      destruct (decide (f = F_offered_price)) as [->|Hne]; [|left; reflexivity].
      right. split; [|discriminate].
      exists "price". split; [left; reflexivity | congruence].
    + destruct e; try discriminate; injection H as <-; left; reflexivity.
  - injection H as <-. left. reflexivity.
Qed.

Lemma extract_merged str_to_float entities current s' :
  extract_slots_from_entities str_to_float entities current = Ret s' ->
  merged_from entities current s'.
Proof.
  unfold extract_slots_from_entities.
  set (s5 := assign entities "variant" F_product_variant _).
  destruct (assign_price str_to_float entities s5) as [s6|e] eqn:Hprice;
    simpl; [|discriminate].
  intros [= <-].
  assert (H5 : merged_from entities current s5).
  { subst s5.
    repeat (first
      [ eapply merged_from_trans; [|apply assign_merged; simpl; tauto]
      | eapply merged_from_trans; [|apply assign_either_merged; simpl; tauto] ]).
    apply merged_from_refl. }
  apply assign_price_merged in Hprice.
  repeat (eapply merged_from_trans; [|apply assign_merged; simpl; tauto]).
  eapply merged_from_trans; eassumption.
Qed.

Lemma extract_returns str_to_float entities current :
  (forall z, supplied entities "price" = Some (PInt z) ->
             Z.abs z < 2 ^ 1024 - 2 ^ 970) ->
  exists s', extract_slots_from_entities str_to_float entities current = Ret s'.
Proof.
  intros Hprice. unfold extract_slots_from_entities.
  set (s5 := assign entities "variant" F_product_variant _).
  unfold assign_price.
  destruct (supplied entities "price") as [v|] eqn:Hv; simpl; [|eauto].
  destruct v as [|b|z|q|str|l|d]; simpl; eauto.
  - specialize (Hprice z eq_refl).
    destruct (Z.ltb_spec (Z.abs z) (2 ^ 1024 - 2 ^ 970)); [simpl; eauto | lia].
  - destruct (str_to_float str); simpl; eauto.
Qed.

(** C9: slot extraction is a non-destructive merge.  With an empty
    entity map it returns the current slots unchanged.  For every entity
    map, a field for which the map supplies no present, non-empty value
    under one of its keys comes back as it was; fields that no entity
    feeds always do; and no field that was set comes back as [None].
    The call returns for every entity map whose price is not an integer
    beyond the range of [float]. *)
Theorem C9_extraction_is_a_non_destructive_merge
    (str_to_float : string -> option Q) :
  (forall current,
     extract_slots_from_entities str_to_float ∅ current = Ret current) /\
  (forall entities current s' f,
     extract_slots_from_entities str_to_float entities current = Ret s' ->
     (forall k, In k (entity_keys f) -> supplied entities k = None) ->
     get_field f s' = get_field f current) /\
  (forall entities current s' f,
     extract_slots_from_entities str_to_float entities current = Ret s' ->
     entity_keys f = [] ->
     get_field f s' = get_field f current) /\
  (forall entities current s' f,
     extract_slots_from_entities str_to_float entities current = Ret s' ->
     get_field f current <> PNone -> get_field f s' <> PNone) /\
  (forall entities current,
     (forall z, supplied entities "price" = Some (PInt z) ->
                Z.abs z < 2 ^ 1024 - 2 ^ 970) ->
     exists s', extract_slots_from_entities str_to_float entities current = Ret s').
Proof.
  split; [|split; [|split; [|split]]].
  - intros current. unfold extract_slots_from_entities, assign_either, assign,
      assign_price. rewrite !supplied_empty. reflexivity.
  - intros entities current s' f Hret Hkeys.
    destruct (extract_merged _ _ _ _ Hret f) as [E|[[k [Hin Hk]] _]]; [exact E|].
    exfalso. apply Hk. apply Hkeys. exact Hin.
  - intros entities current s' f Hret Hkeys.
    destruct (extract_merged _ _ _ _ Hret f) as [E|[[k [Hin Hk]] _]]; [exact E|].
    rewrite Hkeys in Hin. destruct Hin.
  - intros entities current s' f Hret Hset.
    destruct (extract_merged _ _ _ _ Hret f) as [E|[_ Hnn]]; [congruence | exact Hnn].
  - intros entities current. apply extract_returns.
Qed.

(** C9 on an entity map with a price and an empty city. *)
Lemma C9_witness :
  extract_slots_from_entities sample_str_to_float ∅ named_product_slots
    = Ret named_product_slots /\
  (forall s',
     extract_slots_from_entities sample_str_to_float price_entities
       named_product_slots = Ret s' ->
     get_field F_city s' = get_field F_city named_product_slots /\
     get_field F_product_name s' <> PNone).
Proof.
  destruct (C9_extraction_is_a_non_destructive_merge sample_str_to_float)
    as (Hempty & Hframe & _ & Hkeep & _).
  split; [apply Hempty|].
  intros s' Hret. split.
  - apply (Hframe price_entities named_product_slots s' F_city Hret).
    intros k [<-|[]]. reflexivity.
  - apply (Hkeep price_entities named_product_slots s' F_product_name Hret).
    discriminate.
Defined.

(** ** Reflection and the regeneration bound *)



Lemma Qgeb_inject_Z (n m : Z) : Qgeb (inject_Z n) (inject_Z m) = (m <=? n).
Proof.
  unfold Qgeb, Qle_bool, inject_Z. simpl. rewrite !Z.mul_1_r. reflexivity.
Qed.

Lemma Qltb_inject_Z (n m : Z) : Qltb (inject_Z n) (inject_Z m) = (n <? m).
Proof.
  unfold Qltb, Qle_bool, inject_Z. simpl. rewrite !Z.mul_1_r.
  rewrite Z.ltb_antisym. reflexivity.
Qed.


Lemma route_after_update (state update : AgentState) (regen : bool) :
  update !! "needs_regeneration" = Some (PBool regen) ->
  route_after_reflection (apply_update state update)
    = if regen then "regenerate" else "end".
Proof.
  intros H. unfold route_after_reflection, apply_update, dict_get.
  rewrite lookup_union, H.
  destruct (state !! "needs_regeneration"); destruct regen; reflexivity.
Qed.





Lemma initial_state_count user_message session_id slots pid :
  regeneration_count_of (initial_state user_message session_id slots pid) = Some 0.
Proof. reflexivity. Qed.



(** ** Routing after the decision node *)

Lemma in_valid_nodes_iff (a : string) :
  existsb (String.eqb a) valid_nodes = true <-> In a valid_nodes.
Proof.
  rewrite existsb_exists. split.
  - intros (x & Hx & He). apply String.eqb_eq in He. subst. exact Hx.
  - intros H. exists a. split; [exact H | apply String.eqb_refl].
Qed.

Lemma route_from_intelligent_router_range (state : AgentState) a :
  route_from_intelligent_router state = Ret a -> In a valid_nodes.
Proof.
  unfold route_from_intelligent_router.
  destruct (dict_get state "routing_decision" (PStr "rag_search")) as [|b|z|q|s|l|d];
    try (intros [= <-]; simpl; tauto); try discriminate.
  destruct (existsb (String.eqb s) valid_nodes) eqn:E.
  - intros [= <-]. apply in_valid_nodes_iff. exact E.
  - intros [= <-]. simpl. tauto.
Qed.

Lemma route_from_intelligent_router_default (state : AgentState) v :
  state !! "routing_decision" = Some v ->
  hashable v = true ->
  py_in_strs v valid_nodes = false ->
  route_from_intelligent_router state = Ret "rag_search".
Proof.
  intros Hv Hh Hout. unfold route_from_intelligent_router, dict_get. rewrite Hv. simpl.
  destruct v; try reflexivity; try discriminate.
  simpl in Hout. rewrite Hout. reflexivity.
Qed.

Lemma route_decision_coerces (result : gmap string pyval) :
  py_in_strs (dict_get result "next_node" PNone) valid_nodes = false ->
  route_decision (Some (PDict result))
    = PDict (<["next_node" := PStr "generate_response"]> result).
Proof. intros H. unfold route_decision. rewrite H. reflexivity. Qed.

Lemma route_decision_next_node (llm_reply : option pyval) :
  exists (result : gmap string pyval) (a : string),
    route_decision llm_reply = PDict result /\
    result !! "next_node" = Some (PStr a) /\ In a valid_nodes.
Proof.
  unfold route_decision.
  destruct llm_reply as [[| | | | | |result]|];
    try (exists route_decision_fallback, "rag_search";
         split; [reflexivity | split; [reflexivity | simpl; tauto]]).
  destruct (py_in_strs (dict_get result "next_node" PNone) valid_nodes) eqn:E.
  - unfold dict_get, py_in_strs in E.
    destruct (result !! "next_node") as [[| | | |a| |]|] eqn:Hn; try discriminate.
    exists result, a. split; [reflexivity|]. split; [exact Hn|].
    apply in_valid_nodes_iff. exact E.
  - exists (<["next_node" := PStr "generate_response"]> result), "generate_response".
    split; [reflexivity|]. split; [apply lookup_insert_eq | simpl; tauto].
Qed.

Lemma route_of_update (state update : AgentState) (a : string) :
  update !! "routing_decision" = Some (PStr a) ->
  In a valid_nodes ->
  route_from_intelligent_router (apply_update state update) = Ret a.
Proof.
  intros Hu Ha. unfold route_from_intelligent_router, apply_update, dict_get.
  rewrite lookup_union, Hu.
  replace (default (PStr "rag_search")
             (Some (PStr a) ∪ state !! "routing_decision")) with (PStr a)
    by (destruct (state !! "routing_decision"); reflexivity).
  apply in_valid_nodes_iff in Ha. rewrite Ha. reflexivity.
Qed.

(** Without an execution plan the decision comes from the external
    router, through [route_decision]. *)
Lemma intelligent_route_node_without_plan (state : AgentState) llm_reply update :
  truthy (state_get state "execution_plan") = false ->
  intelligent_route_node state llm_reply = Ret update ->
  exists (result : gmap string pyval) (a : string),
    route_decision llm_reply = PDict result /\
    result !! "next_node" = Some (PStr a) /\
    update !! "routing_decision" = Some (PStr a) /\
    In a valid_nodes.
Proof.
  intros Hplan. unfold intelligent_route_node. rewrite Hplan.
  destruct (state !! "user_message"); cbn [mbind outcome_bind bind andb];
    [|discriminate].
  destruct (route_decision_next_node llm_reply) as (result & a & Hr & Hn & Ha).
  rewrite Hr. unfold py_get.
  replace (dict_get result "next_node" (PStr "rag_search")) with (PStr a)
    by (unfold dict_get; rewrite Hn; reflexivity).
  cbn [mbind outcome_bind bind].
  destruct (py_float_check _); cbn [mbind outcome_bind bind]; [|discriminate].
  destruct (py_slice_check _); cbn [mbind outcome_bind bind]; [|discriminate].
  destruct (if truthy _ then _ else _); cbn [mbind outcome_bind bind];
    [|discriminate].
  intros [= <-]. exists result, a.
  split; [reflexivity|]. split; [exact Hn|]. split; [reflexivity | exact Ha].
Qed.

(** C3 (as the code has it): the route taken after the decision node
    is always one of the six capability names.  A reply of the external
    router whose [next_node] is outside the set is rewritten to
    [generate_response] by [route_decision], and without an execution
    plan that is the route taken.  A [routing_decision] in the state
    that is outside the set, as when it was read from a plan step, or
    that is absent, is routed to [rag_search]. *)
Theorem C3_route_is_in_the_capability_set :
  (forall (state : AgentState) a,
     route_from_intelligent_router state = Ret a -> In a valid_nodes) /\
  (forall (result : gmap string pyval),
     py_in_strs (dict_get result "next_node" PNone) valid_nodes = false ->
     route_decision (Some (PDict result))
       = PDict (<["next_node" := PStr "generate_response"]> result)) /\
  (forall (state : AgentState) (result : gmap string pyval) update,
     truthy (state_get state "execution_plan") = false ->
     py_in_strs (dict_get result "next_node" PNone) valid_nodes = false ->
     intelligent_route_node state (Some (PDict result)) = Ret update ->
     route_from_intelligent_router (apply_update state update)
       = Ret "generate_response") /\
  (forall (state : AgentState) v,
     state !! "routing_decision" = Some v ->
     hashable v = true ->
     py_in_strs v valid_nodes = false ->
     route_from_intelligent_router state = Ret "rag_search") /\
  (forall (state : AgentState),
     state !! "routing_decision" = None ->
     route_from_intelligent_router state = Ret "rag_search").
Proof.
  split; [|split; [|split; [|split]]].
  - apply route_from_intelligent_router_range.
  - apply route_decision_coerces.
  - intros state result update Hplan Hout Hnode.
    destruct (intelligent_route_node_without_plan _ _ _ Hplan Hnode)
      as (result' & a & Hr & Hn & Hu & Ha).
    rewrite (route_decision_coerces _ Hout) in Hr. injection Hr as <-.
    rewrite lookup_insert_eq in Hn. injection Hn as <-.
    apply route_of_update; assumption.
  - apply route_from_intelligent_router_default.
  - intros state H. unfold route_from_intelligent_router, dict_get. rewrite H.
    reflexivity.
Qed.

(** C3 on a state whose routing decision is the number 7. *)
Lemma C3_witness :
  route_from_intelligent_router {[ "routing_decision" := PInt 7 ]}
    = Ret "rag_search".
Proof.
  destruct C3_route_is_in_the_capability_set as (_ & _ & _ & Hdefault & _).
  apply (Hdefault _ (PInt 7)); reflexivity.
Defined.

(** C3, the claim as worded, fails: a routing decision outside the set
    goes to [rag_search], not to [generate_response] -- both for a bare
    state value and for an action the decision node read from a plan. *)
Lemma C3_out_of_set_goes_to_rag_search :
  route_from_intelligent_router {[ "routing_decision" := PStr "planning" ]}
    = Ret "rag_search" /\
  (intelligent_route_node state_with_foreign_plan_step None ≫= fun update =>
   Ret (update !! "routing_decision"))
    = Ret (Some (PStr "ask_clarification")) /\
  (intelligent_route_node state_with_foreign_plan_step None ≫= fun update =>
   route_from_intelligent_router (apply_update state_with_foreign_plan_step update))
    = Ret "rag_search".
Proof. repeat split; vm_compute; reflexivity. Qed.

(** ** The complexity classifier *)

Lemma route_by_complexity_rule1 (state : AgentState) :
  spec_rule1 state = true -> route_by_complexity state = Ret "planning".
Proof.
  unfold spec_rule1, route_by_complexity. intros ->. reflexivity.
Qed.

Lemma route_by_complexity_rule2 (state : AgentState) :
  spec_rule1 state = false -> spec_rule2 state = Ret true ->
  route_by_complexity state = Ret "planning".
Proof.
  unfold spec_rule1, spec_rule2, route_by_complexity. intros -> H2.
  destruct (py_in_strs _ product_dependent_intents); [|discriminate].
  destruct (py_get _ "product_name" PNone) as [pn|];
    cbn [mbind outcome_bind bind] in *; [|discriminate].
  destruct (py_get _ "product_id" PNone) as [pid|];
    cbn [mbind outcome_bind bind] in *; [|discriminate].
  injection H2 as ->. reflexivity.
Qed.

(** For an intent that does not depend on a product, the third rule
    decides, as the specification has it. *)
Lemma route_by_complexity_independent_intent (state : AgentState) :
  py_in_strs (dict_get state "intent" (PStr "general_question"))
             product_dependent_intents = false ->
  route_by_complexity state = spec_classify_complexity state.
Proof.
  intros Hdep.
  assert (H1 : spec_rule1 state = false).
  { unfold spec_rule1.
    destruct (dict_get state "intent" (PStr "general_question")); try reflexivity.
    simpl in *. rewrite !orb_false_r in *.
    destruct (String.eqb s "bargaining") eqn:E1; [rewrite orb_true_r in Hdep; discriminate|].
    destruct (String.eqb s "meeting_planning") eqn:E2; [|reflexivity].
    rewrite !orb_true_r in Hdep. discriminate. }
  unfold spec_classify_complexity, spec_rule2, spec_rule3. rewrite H1, Hdep.
  cbn [mbind outcome_bind bind].
  unfold spec_rule1 in H1. unfold route_by_complexity. rewrite H1, Hdep.
  destruct (py_lt_num _ (7 # 10)) as [low|]; cbn [mbind outcome_bind bind];
    reflexivity.
Qed.

(** For a product-dependent intent outside the always-complex ones the
    code stops at the second rule: when that rule does not match, the
    answer is the direct route, whatever the confidence and the slots. *)
Lemma route_by_complexity_dependent_intent (state : AgentState) :
  spec_rule1 state = false ->
  py_in_strs (dict_get state "intent" (PStr "general_question"))
             product_dependent_intents = true ->
  spec_rule2 state = Ret false ->
  route_by_complexity state = Ret "intelligent_router".
Proof.
  unfold spec_rule1, spec_rule2, route_by_complexity. intros -> -> H2.
  destruct (py_get _ "product_name" PNone) as [pn|];
    cbn [mbind outcome_bind bind] in *; [|discriminate].
  destruct (py_get _ "product_id" PNone) as [pid|];
    cbn [mbind outcome_bind bind] in *; [|discriminate].
  injection H2 as ->. reflexivity.
Qed.

(** C5: the first two rules route to planning as stated, and for the
    intents that do not depend on a product the third rule is tried and
    decides.  For a product-dependent intent whose second rule does not
    match, the third rule is never tried: a delivery question with
    confidence 0.5, incomplete slots and no product named is sent to
    the direct router, where the rules as stated send it to planning. *)
Theorem C5_third_rule_is_skipped_for_product_dependent_intents :
  (forall state : AgentState,
     spec_rule1 state = true -> route_by_complexity state = Ret "planning") /\
  (forall state : AgentState,
     spec_rule1 state = false -> spec_rule2 state = Ret true ->
     route_by_complexity state = Ret "planning") /\
  (forall state : AgentState,
     py_in_strs (dict_get state "intent" (PStr "general_question"))
                product_dependent_intents = false ->
     route_by_complexity state = spec_classify_complexity state) /\
  (forall state : AgentState,
     spec_rule1 state = false ->
     py_in_strs (dict_get state "intent" (PStr "general_question"))
                product_dependent_intents = true ->
     spec_rule2 state = Ret false ->
     route_by_complexity state = Ret "intelligent_router") /\
  (spec_rule1 unsure_delivery_state = false /\
   spec_rule2 unsure_delivery_state = Ret false /\
   spec_rule3 unsure_delivery_state = Ret true /\
   spec_classify_complexity unsure_delivery_state = Ret "planning" /\
   route_by_complexity unsure_delivery_state = Ret "intelligent_router").
Proof.
  split; [apply route_by_complexity_rule1|].
  split; [apply route_by_complexity_rule2|].
  split; [apply route_by_complexity_independent_intent|].
  split; [apply route_by_complexity_dependent_intent|].
  repeat split; vm_compute; reflexivity.
Qed.

(** ** Negotiation *)

Lemma Qle_bool_spec (a b : Q) : reflect (a <= b)%Q (Qle_bool a b).
Proof.
  destruct (Qle_bool a b) eqn:E; constructor.
  - apply Qle_bool_iff. exact E.
  - intros H. apply Qle_bool_iff in H. congruence.
Qed.

Ltac qcases :=
  repeat match goal with
  | H : context [Qle_bool ?a ?b] |- _ =>
      destruct (Qle_bool_spec a b); cbn [negb andb orb] in H
  | |- context [Qle_bool ?a ?b] =>
      destruct (Qle_bool_spec a b); cbn [negb andb orb]
  end.

Lemma can_bargain_max_discount (p : Product) :
  can_bargain p = true ->
  bargaining_allowed p = true /\ (0 < max_discount_percent p)%Q.
Proof.
  unfold can_bargain, Qgtb. destruct (bargaining_allowed p); [|discriminate].
  qcases; [discriminate|]. intros _. split; [reflexivity|]. lra.
Qed.

Lemma quotient_times (a b : Q) : ~ (b == 0)%Q -> ((a / b) * b == a)%Q.
Proof. intros H. field. exact H. Qed.










(** ** Threshold filtering *)






Lemma adaptive_threshold_above_threshold (threshold top_score x : Q) :
  Qgeb x (sc_max threshold (top_score - (3 # 10))%Q) = true ->
  Qgeb x threshold = true.
Proof.
  unfold sc_max, sc_gtb, sc_sub, Q_score, Qgeb, Qgtb. intros H.
  qcases; try reflexivity; try discriminate; exfalso; lra.
Qed.








(** ** Fusion of the two search arms *)








Section FusionFacts.

Context {S : Type} `{Score S}.
Variable self : HybridRetriever S.
Variable product_repo : ProductRepository.
Variable _format_product : Product -> string.







Lemma insert_desc_perm {A} (score : A -> S) x l :
  Permutation (insert_desc score x l) (x :: l).
Proof.
  induction l as [|y l IH]; simpl; [reflexivity|].
  destruct (sc_ltb (score x) (score y)); [|reflexivity].
  rewrite IH. apply perm_swap.
Qed.

Lemma sort_desc_perm {A} (score : A -> S) (l : list A) :
  Permutation (sort_desc score l) l.
Proof.
  induction l as [|x l IH]; simpl; [reflexivity|].
  rewrite insert_desc_perm. apply perm_skip. exact IH.
Qed.





End FusionFacts.



(** With the default weights the normalised weights add up to exactly
    1.0 in binary64 as well. *)
Lemma default_weights_sum_binary64 :
  match default_retriever_binary64 with
  | Ret self =>
      SFeqb (b64_add (semantic_weight self) (keyword_weight self)) b64_one
  | Raise _ => false
  end = true.
Proof. vm_compute. reflexivity. Qed.



(** ** binary64: order and NaN *)






Lemma shr_1_nonneg (mrs : shr_record) : 0 <= shr_m mrs -> 0 <= shr_m (shr_1 mrs).
Proof.
  destruct mrs as [m r s]. simpl.
  destruct m as [|[p|p|]|p]; simpl; lia.
Qed.

Lemma iter_pos_shr_1_nonneg (p : positive) : forall mrs,
  0 <= shr_m mrs -> 0 <= shr_m (SpecFloat.iter_pos shr_1 p mrs).
Proof.
  induction p as [p IH|p IH|]; intros mrs Hm; simpl.
  - apply IH, IH, shr_1_nonneg, Hm.
  - apply IH, IH, Hm.
  - apply shr_1_nonneg, Hm.
Qed.

Lemma shr_fexp_nonneg (m e : Z) (l : location) :
  0 <= m -> 0 <= shr_m (shr_fexp prec emax m e l).1.
Proof.
  intros Hm. unfold shr_fexp, shr.
  assert (H0 : 0 <= shr_m (shr_record_of_loc m l)).
  { destruct l as [|[| |]]; exact Hm. }
  destruct (fexp prec emax (Zdigits2 m + e) - e); simpl;
    [exact H0 | apply iter_pos_shr_1_nonneg; exact H0 | exact H0].
Qed.

Lemma round_nearest_even_nonneg (m : Z) (l : location) :
  0 <= m -> 0 <= round_nearest_even m l.
Proof.
  intros Hm. unfold round_nearest_even.
  destruct l as [|[| |]]; try lia. destruct (Z.even m); lia.
Qed.

(** Rounding a non-negative mantissa never gives NaN. *)
Lemma binary_round_aux_not_nan (sx : bool) (mx ex : Z) (lx : location) :
  0 <= mx -> is_nan (binary_round_aux prec emax sx mx ex lx) = false.
Proof.
  intros Hm. unfold binary_round_aux.
  pose proof (shr_fexp_nonneg mx ex lx Hm) as H1.
  destruct (shr_fexp prec emax mx ex lx) as [mrs' e']. simpl in H1.
  pose proof (shr_fexp_nonneg _ e' loc_Exact
                (round_nearest_even_nonneg _ (loc_of_shr_record mrs') H1)) as H2.
  destruct (shr_fexp prec emax
              (round_nearest_even (shr_m mrs') (loc_of_shr_record mrs')) e' loc_Exact)
    as [mrs'' e'']. simpl in H2.
  destruct (shr_m mrs'') as [|p|p]; [reflexivity | | lia].
  destruct (e'' <=? emax - prec); reflexivity.
Qed.

Lemma int_true_div_not_nan (m n : nat) :
  (0 < m)%nat -> (0 < n)%nat -> is_nan (int_true_div m n) = false.
Proof.
  intros Hm Hn. unfold int_true_div, b64_div, b64_of_nat.
  destruct m as [|m']; [lia|]. destruct n as [|n']; [lia|].
  cbn [SFdiv]. unfold SFdiv_core_binary.
  set (m1 := Pos.of_nat (Datatypes.S m')). set (m2 := Pos.of_nat (Datatypes.S n')).
  match goal with
  | |- context [Z.div_eucl ?a (Z.pos m2)] => set (num := a)
  end.
  assert (Hnum : 0 <= num).
  { subst num.
    destruct (0 - 0 - _); [lia | apply Z.shiftl_nonneg; lia | lia]. }
  pose proof (Z.div_pos num (Z.pos m2) Hnum ltac:(lia)) as Hq.
  unfold Z.div in Hq.
  destruct (Z.div_eucl num (Z.pos m2)) as [q r]. simpl in Hq.
  apply binary_round_aux_not_nan. exact Hq.
Qed.

Lemma mul_finite_not_nan (x : spec_float) (s : bool) (m : positive) (e : Z) :
  is_nan x = false -> is_nan (b64_mul x (S754_finite s m e)) = false.
Proof.
  unfold b64_mul. destruct x as [sx|sx| |sx mx ex]; simpl; try reflexivity.
  - discriminate.
  - intros _. apply binary_round_aux_not_nan. lia.
Qed.

(** ** Keyword search *)

(** The literals of the source denote these binary64 values. *)
Lemma b64_literals :
  Prim2SF 0.3%float = b64_0_3 /\ Prim2SF 0.8%float = b64_0_8 /\
  Prim2SF 0.5%float = b64_half /\ Prim2SF 1%float = b64_one /\
  Prim2SF 0%float = b64_zero /\
  Prim2SF 0.4%float = b64_0_4 /\ Prim2SF 0.6%float = b64_0_6.
Proof. repeat split; vm_compute; reflexivity. Qed.

Lemma slice_to_subset {A} (k : Z) (l : list A) x : x ∈ slice_to k l -> x ∈ l.
Proof.
  unfold slice_to.
  destruct (k <? 0); intros H; apply elem_of_take in H as (i & Hi & _);
    apply list_elem_of_lookup; eauto.
Qed.


Section KeywordFacts.

Variable lower : string -> string.
Variable split : string -> list string.

Lemma title_score_not_nan q t : is_nan (title_score split q t) = false.
Proof.
  unfold title_score. destruct (contains q t); [reflexivity|].
  set (matches := length (List.filter _ (split q))).
  destruct (Nat.ltb_spec 0 matches) as [Hpos|_]; [|reflexivity].
  apply mul_finite_not_nan. apply int_true_div_not_nan; [exact Hpos|].
  subst matches. pose proof (filter_length_le (fun qw => contains qw t) (split q)).
  lia.
Qed.

Lemma keyword_score_not_nan q p : is_nan (keyword_score lower split q p) = false.
Proof.
  unfold keyword_score, b64_max.
  destruct (contains _ (lower (category p))); [|apply title_score_not_nan].
  destruct (SFltb _ b64_half); [reflexivity | apply title_score_not_nan].
Qed.






End KeywordFacts.



(** Three of the eight query words are found in the title: the score
    is 3/8 * 0.8, which binary64 rounds to 0.30000000000000004, above
    the floor. *)
Lemma three_of_eight_words_pass_the_floor :
  keyword_score ascii_lower ascii_split eight_word_query three_word_phone
    = S754_finite false 5404319552844596 (-54) /\
  Prim2SF 0.30000000000000004%float = S754_finite false 5404319552844596 (-54) /\
  map kr_product_id
    (_keyword_search ascii_lower ascii_split [three_word_phone] eight_word_query 2)
    = ["p9"].
Proof. repeat split; vm_compute; reflexivity. Qed.


(** ** Missing slots and the clarifying question *)

Lemma fold_check_one_filter (slots : Slots) (required : list string) :
  forall acc,
    fold_left (check_one slots) required acc
    = (acc ++ List.filter (counts_as_missing slots) required)%list.
Proof.
  induction required as [|name rest IH]; intros acc; simpl.
  - rewrite app_nil_r. reflexivity.
  - rewrite IH. unfold check_one, counts_as_missing.
    destruct (getattr slots name); simpl; try reflexivity.
    destruct (String.eqb name "product_id" && truthy (product_name slots));
      simpl; [reflexivity|].
    rewrite <- app_assoc. reflexivity.
Qed.

Lemma missing_slots_filter (intent : Intent) (slots : Slots) :
  (check_slots_completeness intent slots).2
  = List.filter (counts_as_missing slots) (REQUIREMENTS intent).
Proof.
  unfold check_slots_completeness. simpl. apply fold_check_one_filter.
Qed.

Lemma counts_as_missing_spec (slots : Slots) (name : string) :
  counts_as_missing slots name = true <->
  getattr slots name = PNone /\
  ~ (name = "product_id" /\ truthy (product_name slots) = true).
Proof.
  unfold counts_as_missing.
  destruct (getattr slots name); try (split; [discriminate | intros [? _]; discriminate]).
  destruct (String.eqb_spec name "product_id") as [->|Hne]; simpl.
  - destruct (truthy (product_name slots)); simpl; split.
    + discriminate.
    + intros [_ H]. exfalso. apply H. split; reflexivity.
    + intros _. split; [reflexivity|]. intros [_ H]. discriminate.
    + reflexivity.
  - split; [intros _; split; [reflexivity | tauto] | reflexivity].
Qed.

Lemma REQUIREMENTS_NoDup (intent : Intent) : List.NoDup (REQUIREMENTS intent).
Proof.
  destruct intent; simpl;
    repeat (constructor; [simpl; intuition discriminate|]); constructor.
Qed.

(** X1: the list [check_slots_completeness] returns holds exactly the
    required slots of the intent whose value is [None], in the order
    of the requirement table and without repetition, except that
    ["product_id"] is left out when [product_name] is truthy; the
    flag is [True] exactly when that list is empty, that is when every
    required slot is filled or excused. *)
Theorem X1_missing_slots_are_the_unfilled_required_ones
    (intent : Intent) (slots : Slots) :
  (check_slots_completeness intent slots).2
    = List.filter (counts_as_missing slots) (REQUIREMENTS intent) /\
  (forall name,
     In name (check_slots_completeness intent slots).2 <->
     In name (REQUIREMENTS intent) /\
     getattr slots name = PNone /\
     ~ (name = "product_id" /\ truthy (product_name slots) = true)) /\
  List.NoDup (check_slots_completeness intent slots).2 /\
  ((check_slots_completeness intent slots).1 = true <->
   (check_slots_completeness intent slots).2 = []) /\
  ((check_slots_completeness intent slots).1 = true <->
   forall name, In name (REQUIREMENTS intent) ->
     getattr slots name <> PNone \/
     (name = "product_id" /\ truthy (product_name slots) = true)).
Proof.
  pose proof (missing_slots_filter intent slots) as Hm.
  assert (Hflag : (check_slots_completeness intent slots).1 = true <->
                  (check_slots_completeness intent slots).2 = []).
  { unfold check_slots_completeness. simpl.
    destruct (fold_left (check_one slots) (REQUIREMENTS intent) []);
      simpl; split; congruence. }
  split; [exact Hm|]. split; [|split; [|split; [exact Hflag|]]].
  - intros name. rewrite Hm, filter_In, counts_as_missing_spec. tauto.
  - rewrite Hm. apply List.NoDup_filter, REQUIREMENTS_NoDup.
  - rewrite Hflag, Hm. split.
    + intros Hnil name Hin.
      destruct (counts_as_missing slots name) eqn:Hc.
      * assert (Hf : In name (List.filter (counts_as_missing slots)
                                (REQUIREMENTS intent)))
          by (apply filter_In; split; assumption).
        rewrite Hnil in Hf. destruct Hf.
      * destruct (getattr slots name) eqn:Hg; try (left; discriminate).
        right. unfold counts_as_missing in Hc. rewrite Hg in Hc.
        apply negb_false_iff, andb_true_iff in Hc as [Hn Ht].
        apply String.eqb_eq in Hn. split; assumption.
    + intros Hall.
      destruct (List.filter (counts_as_missing slots) (REQUIREMENTS intent))
        as [|name rest] eqn:Hf; [reflexivity|].
      assert (Hin : In name (List.filter (counts_as_missing slots)
                               (REQUIREMENTS intent)))
        by (rewrite Hf; left; reflexivity).
      apply filter_In in Hin as [Hin Hc].
      apply counts_as_missing_spec in Hc as [Hg Hex].
      destruct (Hall name Hin) as [Hne|Hx]; [congruence | tauto].
Qed.

Ltac question_of name :=
  exists name; eexists;
  split; [simpl; tauto|];
  split; [reflexivity|];
  split; [vm_compute; reflexivity|];
  split; [discriminate|];
  intros other Hbefore; cbn in Hbefore;
  intros Hin; cbn in Hin;
  intuition (subst; discriminate).

Lemma question_for_incomplete_slots
    (intent : Intent) (slots : Slots) :
  (should_ask_clarification intent slots = false ->
   generate_clarification_question (check_slots_completeness intent slots).2
   = "") /\
  (should_ask_clarification intent slots = true ->
   exists name q,
     In name (check_slots_completeness intent slots).2 /\
     questions_get name = Some q /\
     generate_clarification_question (check_slots_completeness intent slots).2
     = q /\
     q <> "" /\
     forall other, In other (ranked_before priority_order name) ->
       ~ In other (check_slots_completeness intent slots).2).
Proof.
  unfold should_ask_clarification.
  assert (Hflag : (check_slots_completeness intent slots).1
                  = Nat.eqb (length (check_slots_completeness intent slots).2) 0)
    by reflexivity.
  rewrite Hflag, missing_slots_filter. clear Hflag.
  split.
  - intros H. apply negb_false_iff, Nat.eqb_eq in H.
    destruct (List.filter _ _); [reflexivity | discriminate].
  - destruct intent; cbn [REQUIREMENTS List.filter];
      repeat match goal with
             | |- context [counts_as_missing ?s ?n] =>
                 destruct (counts_as_missing s n)
             end;
      intros H; try discriminate H;
      first [ question_of "product_id"
            | question_of "offered_price"
            | question_of "meeting_date"
            | question_of "meeting_time"
            | question_of "meeting_location" ].
Qed.

(** X2: the question asked for incomplete slots.  When
    [check_slots_completeness] reports complete slots the generated
    question is the empty string.  When it reports missing slots, the
    question is the entry of [CLARIFICATION_QUESTIONS] for one of the
    missing slots, it is not empty, and no slot that precedes that one
    in the priority order is missing: the generic fallback phrase is
    never produced for the slots an intent can require. *)
Theorem X2_incomplete_slots_get_the_question_of_the_first_priority
    (intent : Intent) (slots : Slots) :
  (should_ask_clarification intent slots = false ->
   generate_clarification_question (check_slots_completeness intent slots).2
   = "") /\
  (should_ask_clarification intent slots = true ->
   exists name q,
     In name (check_slots_completeness intent slots).2 /\
     questions_get name = Some q /\
     generate_clarification_question (check_slots_completeness intent slots).2
     = q /\
     q <> "" /\
     forall other, In other (ranked_before priority_order name) ->
       ~ In other (check_slots_completeness intent slots).2).
Proof. apply question_for_incomplete_slots. Qed.

(** ** Price floor and counter offers *)

Lemma py_max_spec (a b : Q) :
  (a <= py_max a b)%Q /\ (b <= py_max a b)%Q /\
  (py_max a b = a \/ py_max a b = b).
Proof.
  unfold py_max, Qgtb. destruct (Qle_bool_spec b a); cbn [negb].
  - split; [lra|]. split; [assumption|]. left; reflexivity.
  - split; [lra|]. split; [lra|]. right; reflexivity.
Qed.

Lemma floor_at_least_min_price (p : Product) :
  (min_price p <= calculate_min_acceptable_price p)%Q.
Proof. unfold calculate_min_acceptable_price. cbv zeta. apply py_max_spec. Qed.

Lemma floor_at_least_discounted (p : Product) :
  (price p - price p * (max_discount_percent p / 100)
   <= calculate_min_acceptable_price p)%Q.
Proof. unfold calculate_min_acceptable_price. cbv zeta. apply py_max_spec. Qed.

Lemma is_price_acceptable_spec (p : Product) (o : Q) :
  is_price_acceptable p o = true <-> (calculate_min_acceptable_price p <= o)%Q.
Proof. unfold is_price_acceptable, Qgeb. apply Qle_bool_iff. Qed.

Lemma counter_offer_some (p : Product) (o c : Q) :
  calculate_counter_offer p o = Some c ->
  (o < calculate_min_acceptable_price p)%Q /\
  c = py_max ((o + price p) / 2) (calculate_min_acceptable_price p).
Proof.
  unfold calculate_counter_offer.
  destruct (is_price_acceptable p o) eqn:Hacc; [discriminate|].
  intros [= <-]. split; [|reflexivity].
  destruct (Qlt_le_dec o (calculate_min_acceptable_price p)) as [H|H];
    [exact H|].
  apply is_price_acceptable_spec in H. congruence.
Qed.

(** X3: [calculate_counter_offer] returns [None] exactly for an offer
    that is acceptable.  A counter offer it does return is itself an
    acceptable price, is strictly above the offer, is not below the
    product's [min_price], and is the larger of the minimum acceptable
    price and the midpoint of the offer and the list price. *)
Theorem X3_counter_offer_is_acceptable_and_above_the_offer
    (p : Product) (o : Q) :
  (calculate_counter_offer p o = None <-> is_price_acceptable p o = true) /\
  (forall c, calculate_counter_offer p o = Some c ->
     is_price_acceptable p c = true /\
     (o < c)%Q /\
     (min_price p <= c)%Q /\
     (calculate_min_acceptable_price p <= c)%Q /\
     ((o + price p) / 2 <= c)%Q /\
     (c = calculate_min_acceptable_price p \/ c = ((o + price p) / 2)%Q)).
Proof.
  split.
  - unfold calculate_counter_offer.
    destruct (is_price_acceptable p o); split; congruence.
  - intros c Hc. apply counter_offer_some in Hc as [Hlow ->].
    pose proof (py_max_spec ((o + price p) / 2)
                  (calculate_min_acceptable_price p)) as (H1 & H2 & H3).
    pose proof (floor_at_least_min_price p) as Hmin.
    split; [apply is_price_acceptable_spec; exact H2|].
    split; [lra|]. split; [lra|]. split; [exact H2|]. split; [exact H1|].
    destruct H3 as [->| ->]; [right | left]; reflexivity.
Qed.

Lemma counter_tier_bounds (p : Product) (o : Q) :
  (0 < max_discount_percent p)%Q -> (o < price p)%Q -> ~ (price p == 0)%Q ->
  ~ ((price p - o) / price p * 100 <= max_discount_percent p)%Q ->
  (0 < price p)%Q /\
  (o < price p - price p * (max_discount_percent p / 100))%Q.
Proof.
  intros Hm Ho Hnz Hd.
  pose proof (quotient_times (price p - o) (price p) Hnz) as Hx.
  set (x := ((price p - o) / price p)%Q) in *.
  assert (Hpos : (0 < price p)%Q).
  { destruct (Qlt_le_dec 0 (price p)) as [H|H]; [exact H|].
    exfalso. apply Hd. nra. }
  split; [exact Hpos|].
  assert (E : (price p * (max_discount_percent p / 100)
               == price p * max_discount_percent p * (1 # 100))%Q) by field.
  rewrite E. nra.
Qed.

(** X4: the price that [evaluate_offer] returns with each decision.
    An acceptance returns the offer itself.  A counter offer always
    carries a price (never [None]); that price is strictly above the
    offer, is acceptable, is not below [min_price], and does not exceed
    the list price when [min_price] does not.  A refusal carries no
    price when the product is closed to bargaining, and otherwise the
    minimum acceptable price, which the offer was strictly below. *)
Theorem X4_price_returned_with_each_decision
    (p : Product) (o : Q) (d : Decision) (pr : option Q) :
  evaluate_offer p o = Ret (d, pr) ->
  match d with
  | accept => pr = Some o
  | counter_offer =>
      exists c, pr = Some c /\ (o < c)%Q /\
        is_price_acceptable p c = true /\
        (min_price p <= c)%Q /\
        ((min_price p <= price p)%Q -> (c <= price p)%Q)
  | decline =>
      (pr = None /\ can_bargain p = false) \/
      (pr = Some (calculate_min_acceptable_price p) /\
       can_bargain p = true /\
       (o < calculate_min_acceptable_price p)%Q)
  end.
Proof.
  unfold evaluate_offer.
  destruct (can_bargain p) eqn:Hb; cbn [negb].
  2:{ intros [= <- <-]. left. split; reflexivity. }
  destruct (can_bargain_max_discount p Hb) as [_ Hm].
  unfold Qgeb. destruct (Qle_bool_spec (price p) o) as [Hge|Hlt].
  { intros [= <- <-]. reflexivity. }
  assert (Ho : (o < price p)%Q) by lra.
  destruct (Qeq_bool (price p) 0) eqn:E; [discriminate|].
  assert (Hnz : ~ (price p == 0)%Q).
  { intros Hz. apply Qeq_bool_iff in Hz. congruence. }
  destruct (Qle_bool_spec ((price p - o) / price p * 100)
              (max_discount_percent p)) as [Hd1|Hd1].
  { intros [= <- <-]. reflexivity. }
  destruct (counter_tier_bounds p o Hm Ho Hnz Hd1) as [Hpos Hbelow].
  pose proof (floor_at_least_discounted p) as Hfl.
  pose proof (floor_at_least_min_price p) as Hmin.
  destruct (Qle_bool ((price p - o) / price p * 100)
              (max_discount_percent p * (3 # 2))).
  - intros [= <- <-].
    destruct (calculate_counter_offer p o) as [c|] eqn:Hc.
    + exists c. split; [reflexivity|].
      destruct (counter_offer_some p o c Hc) as [Hlow Hceq].
      pose proof (py_max_spec ((o + price p) / 2)
                    (calculate_min_acceptable_price p)) as (H1 & H2 & H3).
      rewrite <- Hceq in H1, H2, H3.
      split; [lra|]. split; [apply is_price_acceptable_spec; exact H2|].
      split; [lra|]. intros Hmp.
      destruct H3 as [->| ->].
      * clear - Ho.
        assert (E : ((o + price p) / 2 == (o + price p) * (1 # 2))%Q) by field.
        rewrite E. lra.
      * unfold calculate_min_acceptable_price. cbv zeta.
        pose proof (py_max_spec
                      (price p - price p * (max_discount_percent p / 100))
                      (min_price p)) as (_ & _ & [->| ->]); [|exact Hmp].
        assert (E2 : (price p * (max_discount_percent p / 100)
                      == price p * max_discount_percent p * (1 # 100))%Q)
          by field.
        rewrite E2. nra.
    + exfalso. unfold calculate_counter_offer in Hc.
      destruct (is_price_acceptable p o) eqn:Hacc; [|discriminate].
      apply is_price_acceptable_spec in Hacc. lra.
  - intros [= <- <-]. right. split; [reflexivity|]. split; [reflexivity|]. lra.
Qed.

(** X4 on the phone listed at 100 with up to 10 percent off: an offer
    of 88 asks for 12 percent and is answered with a counter offer. *)
Lemma X4_witness :
  exists c, calculate_counter_offer negotiable_phone 88 = Some c /\
    (88 < c)%Q /\
    is_price_acceptable negotiable_phone c = true /\
    (min_price negotiable_phone <= c)%Q /\
    ((min_price negotiable_phone <= price negotiable_phone)%Q ->
     (c <= price negotiable_phone)%Q).
Proof.
  exact (X4_price_returned_with_each_decision negotiable_phone 88
           counter_offer (calculate_counter_offer negotiable_phone 88)
           eq_refl).
Defined.

(** ** Reservations: the guard, the stock report and the tools *)

Lemma validate_reservation_ok (pid : string) (q s : Z) :
  (Guardrails.validate_reservation pid q s).1 = true <-> 0 < q <= s.
Proof.
  unfold Guardrails.validate_reservation.
  destruct (Z.leb_spec q 0); simpl; [split; [discriminate | lia]|].
  destruct (Z.ltb_spec s q); simpl; split; try discriminate; try lia;
    reflexivity.
Qed.

(** X5: [validate_reservation] accepts exactly the quantities that
    are positive and covered by the stock, and then answers ["OK"].
    A reservation it accepts succeeds, and leaves a stock that is
    smaller and not negative.  [reserve] itself does not reject a
    quantity that is zero or negative: on a non-negative stock such a
    call answers [True] and the stock does not go down. *)
Theorem X5_reservation_guard_and_unguarded_reserve :
  (forall pid q s,
     (Guardrails.validate_reservation pid q s).1 = true <-> 0 < q <= s) /\
  (forall pid q s,
     (Guardrails.validate_reservation pid q s).1 = true ->
     (Guardrails.validate_reservation pid q s).2 = "OK") /\
  (forall pid p q,
     (Guardrails.validate_reservation pid q (stock p)).1 = true ->
     (reserve p q).1 = true /\
     0 <= stock (reserve p q).2 < stock p) /\
  (forall p q, q <= 0 -> 0 <= stock p ->
     (reserve p q).1 = true /\
     stock (reserve p q).2 = stock p - q /\
     stock p <= stock (reserve p q).2).
Proof.
  split; [apply validate_reservation_ok|]. split; [|split].
  - intros pid q s. unfold Guardrails.validate_reservation.
    destruct (Z.leb q 0); simpl; [discriminate|].
    destruct (Z.ltb s q); simpl; [discriminate | reflexivity].
  - intros pid p q H. apply validate_reservation_ok in H.
    rewrite reserve_enough by lia. simpl. split; [reflexivity | lia].
  - intros p q Hq Hs. rewrite reserve_enough by lia. simpl.
    split; [reflexivity|]. split; lia.
Qed.

Lemma check_stock_lookup (repo : ProductRepository) (pid : string) :
  Repository.check_stock repo pid
  = (fun p => {| ss_product_id := id p; ss_available := is_available p;
                 ss_quantity := stock p; ss_can_reserve := is_available p |})
    <$> repo !! pid.
Proof.
  unfold Repository.check_stock, get_product. destruct (repo !! pid); reflexivity.
Qed.

(** X6: the stock report.  [check_stock] answers [None] exactly for a
    product id the repository does not hold.  In a report,
    [available] and [can_reserve] agree, they hold exactly when the
    quantity is positive, and [can_reserve] holds exactly when
    reserving one unit succeeds.  After a successful reservation of
    [q] units the reported quantity is [q] lower, and the report of
    every other product id is unchanged, whether or not the
    reservation succeeded. *)
Theorem X6_stock_report_agrees_with_reservation :
  (forall repo pid,
     Repository.check_stock repo pid = None <-> repo !! pid = None) /\
  (forall repo pid st,
     Repository.check_stock repo pid = Some st ->
     ss_available st = ss_can_reserve st /\
     (ss_can_reserve st = true <-> 0 < ss_quantity st) /\
     (ss_can_reserve st = true <->
      (Repository.reserve_product repo pid 1).1 = true)) /\
  (forall repo pid q st,
     Repository.check_stock repo pid = Some st ->
     (Repository.reserve_product repo pid q).1 = true ->
     exists st',
       Repository.check_stock (Repository.reserve_product repo pid q).2 pid
       = Some st' /\
       ss_quantity st' = ss_quantity st - q /\
       ss_product_id st' = ss_product_id st) /\
  (forall repo pid other q,
     pid <> other ->
     Repository.check_stock (Repository.reserve_product repo pid q).2 other
     = Repository.check_stock repo other).
Proof.
  split; [|split; [|split]].
  - intros repo pid. rewrite check_stock_lookup.
    destruct (repo !! pid); simpl; split; congruence.
  - intros repo pid st. rewrite check_stock_lookup.
    unfold Repository.reserve_product, get_product.
    destruct (repo !! pid) as [p|]; simpl; [|discriminate].
    intros [= <-]. simpl. split; [reflexivity|].
    unfold is_available, reserve.
    destruct (Z.ltb_spec 0 (stock p)), (Z.leb_spec 1 (stock p)); simpl;
      repeat split; try congruence; try lia.
  - intros repo pid q st. rewrite !check_stock_lookup.
    unfold Repository.reserve_product, get_product.
    destruct (repo !! pid) as [p|] eqn:Hp; simpl; [|discriminate].
    intros [= <-]. unfold reserve.
    destruct (Z.leb q (stock p)); simpl; [|discriminate].
    intros _. rewrite lookup_insert_eq. simpl.
    eexists. split; [reflexivity|]. split; reflexivity.
  - intros repo pid other q Hne. rewrite !check_stock_lookup.
    unfold Repository.reserve_product, get_product.
    destruct (repo !! pid) as [p|]; simpl; [|reflexivity].
    destruct (reserve p q) as [ok p']. simpl.
    rewrite lookup_insert_ne by exact Hne. reflexivity.
Qed.

(** X7: the stock tools.  [check_stock] of the tools reports
    ["found"] as [False] exactly for an unknown product id; for a
    known one its ["can_reserve"] entry is [True] exactly when
    [reserve_product] for one unit reports success.  A reservation
    the tools report as failed leaves every stock as it was, and one
    they report as successful for a positive quantity lowers the
    stock of that product. *)
Theorem X7_stock_tools_report_what_the_repository_does :
  (forall repo pid,
     Tools.check_stock repo pid !! "found" = Some (PBool false) <->
     repo !! pid = None) /\
  (forall repo pid p,
     repo !! pid = Some p ->
     Tools.check_stock repo pid !! "found" = Some (PBool true) /\
     Tools.check_stock repo pid !! "quantity" = Some (PInt (stock p)) /\
     (Tools.check_stock repo pid !! "can_reserve" = Some (PBool true) <->
      (Tools.reserve_product repo pid 1).1 !! "success" = Some (PBool true))) /\
  (forall repo pid q other,
     (Tools.reserve_product repo pid q).1 !! "success" = Some (PBool false) ->
     stock <$> (Tools.reserve_product repo pid q).2 !! other
     = stock <$> repo !! other) /\
  (forall repo pid q p,
     repo !! pid = Some p ->
     (Tools.reserve_product repo pid q).1 !! "success" = Some (PBool true) ->
     stock <$> (Tools.reserve_product repo pid q).2 !! pid
     = Some (stock p - q)).
Proof.
  split; [|split; [|split]].
  - intros repo pid. unfold Tools.check_stock. rewrite check_stock_lookup.
    destruct (repo !! pid); simpl; split; intros H;
      try discriminate; try reflexivity.
  - intros repo pid p Hp.
    unfold Tools.check_stock, Tools.reserve_product.
    rewrite check_stock_lookup.
    unfold Repository.reserve_product, get_product. rewrite Hp. simpl.
    split; [reflexivity|]. split; [reflexivity|].
    unfold is_available, reserve.
    destruct (Z.ltb_spec 0 (stock p)), (Z.leb_spec 1 (stock p)); simpl;
      try lia; split; intros Hx; try reflexivity;
      vm_compute in Hx; discriminate.
  - intros repo pid q other. unfold Tools.reserve_product.
    unfold Repository.reserve_product, get_product.
    destruct (repo !! pid) as [p|] eqn:Hp; simpl; [|reflexivity].
    unfold reserve. destruct (Z.leb q (stock p)); simpl.
    + intros H. vm_compute in H. discriminate.
    + intros _. destruct (decide (pid = other)) as [<-|Hne].
      * rewrite lookup_insert_eq, Hp. reflexivity.
      * rewrite lookup_insert_ne by exact Hne. reflexivity.
  - intros repo pid q p Hp. unfold Tools.reserve_product.
    unfold Repository.reserve_product, get_product. rewrite Hp. simpl.
    unfold reserve. destruct (Z.leb q (stock p)); simpl.
    + intros _. rewrite lookup_insert_eq. reflexivity.
    + intros H. vm_compute in H. discriminate.
Qed.

(** ** The vector store's similarity and the retrieval pipeline *)

Import Retrieval.

Lemma SFltb_leb (x y : spec_float) : SFltb x y = true -> SFleb x y = true.
Proof.
  unfold SFltb, SFleb. destruct (SFcompare x y) as [[]|]; congruence.
Qed.

Lemma SFleb_zero_not_nan (x : spec_float) :
  SFleb b64_zero x = true -> is_nan x = false.
Proof. destruct x; intros H; try reflexivity. vm_compute in H. discriminate. Qed.

Lemma similarity_score_bounds (d : spec_float) :
  SFleb b64_zero (similarity_score d) = true /\
  SFleb (similarity_score d) b64_one = true.
Proof.
  unfold similarity_score, b64_max, b64_min.
  set (x := b64_sub b64_one (b64_div d b64_two)).
  destruct (SFltb x b64_one) eqn:H1.
  - destruct (SFltb b64_zero x) eqn:H0.
    + split; apply SFltb_leb; assumption.
    + split; reflexivity.
  - split; reflexivity.
Qed.

Lemma search_elem results min_score0 (r : SemanticResult spec_float) :
  r ∈ search results min_score0 ->
  exists doc d, (doc, d) ∈ results /\
    sr_text r = page_content doc /\
    sr_metadata r = doc_metadata doc /\
    sr_score r = similarity_score d /\
    SFleb min_score0 (sr_score r) = true.
Proof.
  unfold search. intros Hin. apply list_elem_of_omap in Hin as ([doc d] & Hin & Hhit).
  unfold search_hit in Hhit.
  destruct (SFleb min_score0 (similarity_score d)) eqn:Hle; [|discriminate].
  injection Hhit as <-. exists doc, d. simpl. auto.
Qed.

Lemma search_at_zero_keeps_all results :
  search results b64_zero
  = map (fun hit : Document * spec_float =>
           {| sr_text := page_content hit.1;
              sr_metadata := doc_metadata hit.1;
              sr_product_id := metadata_product_id (doc_metadata hit.1);
              sr_score := similarity_score hit.2 |}) results.
Proof.
  unfold search. induction results as [|[doc d] rest IH]; [reflexivity|].
  change (omap (search_hit b64_zero) ((doc, d) :: rest))
    with (match search_hit b64_zero (doc, d) with
          | Some y => y :: omap (search_hit b64_zero) rest
          | None => omap (search_hit b64_zero) rest
          end).
  rewrite IH. unfold search_hit.
  destruct (similarity_score_bounds d) as [-> _]. reflexivity.
Qed.

(** X8: the similarity the vector store reports is clamped.  Whatever
    distance the collection answers, an infinity or a NaN included,
    the similarity lies between 0.0 and 1.0 and is not a NaN; a NaN
    distance comes out as the similarity 1.0.  Every hit [search]
    returns carries a similarity that reaches [min_score], and with
    [min_score = 0.0], as [retrieve] calls it, no hit is dropped. *)
Theorem X8_similarity_is_clamped_to_the_unit_interval :
  (forall d,
     SFleb b64_zero (similarity_score d) = true /\
     SFleb (similarity_score d) b64_one = true /\
     is_nan (similarity_score d) = false) /\
  similarity_score S754_nan = b64_one /\
  similarity_score (S754_infinity false) = b64_zero /\
  similarity_score (S754_infinity true) = b64_one /\
  (forall results min_score0 r,
     r ∈ search results min_score0 ->
     SFleb min_score0 (sr_score r) = true /\
     SFleb b64_zero (sr_score r) = true /\
     SFleb (sr_score r) b64_one = true) /\
  (forall results,
     length (search results b64_zero) = length results /\
     map sr_text (search results b64_zero)
     = map (fun hit => page_content hit.1) results).
Proof.
  split; [|split; [|split; [|split; [|split]]]]; try reflexivity.
  - intros d. destruct (similarity_score_bounds d) as [H0 H1].
    split; [exact H0|]. split; [exact H1|].
    apply SFleb_zero_not_nan. exact H0.
  - intros results m r Hin.
    destruct (search_elem results m r Hin) as (doc & d & _ & _ & _ & Hs & Hm).
    split; [exact Hm|]. rewrite Hs. apply similarity_score_bounds.
  - intros results. rewrite search_at_zero_keeps_all.
    rewrite length_map, map_map. split; reflexivity.
Qed.

Lemma threshold_filter_elem {S : Type} `{Score S} (threshold : S)
    (l : list (FusedResult S)) (r : FusedResult S) :
  r ∈ threshold_filter threshold l ->
  r ∈ l /\ sc_geb (fr_score r) threshold = true.
Proof.
  unfold threshold_filter. cbv zeta.
  destruct (List.filter (fun r0 => sc_geb (fr_score r0) threshold) l)
    as [|top rest] eqn:Hf.
  - intros Hin. inversion Hin.
  - intros Hin. apply list_elem_of_In, filter_In in Hin as [Hin _].
    rewrite <- Hf in Hin. apply filter_In in Hin as [Hin Hge].
    split; [apply list_elem_of_In; exact Hin | exact Hge].
Qed.

Lemma slice_to_length {A} (k : Z) (l : list A) :
  0 <= k -> (length (slice_to k l) <= Z.to_nat k)%nat.
Proof.
  intros Hk. unfold slice_to. destruct (Z.ltb_spec k 0); [lia|].
  apply firstn_le_length.
Qed.

(** X9: what a caller of [retrieve] can rely on.  Every result comes
    from the candidates that reached the filter and has a score that
    reaches the threshold in force; when the number of results in
    force is not negative, no more results than that are returned.
    The threshold in force is [min_score] when that is given and not
    zero, and the configured [self.min_score] otherwise, so that
    passing [0.0] does not switch the threshold off; likewise
    [top_k = 0] stands for the configured [self.top_k]. *)
Theorem X9_retrieve_respects_threshold_and_top_k
    (lower : string -> string) (split : string -> list string)
    (self : HybridRetriever spec_float)
    (use_query_expansion use_llm_reranking : bool)
    (product_repo : ProductRepository) (all_products : list Product)
    (_format_product : Product -> string) (expand : string -> string)
    (similarity_search_with_score : string -> Z -> list (Document * spec_float))
    (llm_reply : string -> list (FusedResult spec_float) ->
                 option (list (option spec_float)))
    (query : string) (top_k0 : option Z) (min_score0 : option spec_float) :
  let run :=
    retrieve lower split self use_query_expansion use_llm_reranking
      product_repo all_products _format_product expand
      similarity_search_with_score llm_reply query in
  (forall r, r ∈ run top_k0 min_score0 ->
     SFleb (effective_min_score self min_score0) (fr_score r) = true /\
     r ∈ candidates lower split self use_query_expansion use_llm_reranking
           product_repo all_products _format_product expand
           similarity_search_with_score llm_reply query
           (effective_top_k self top_k0)) /\
  (0 <= effective_top_k self top_k0 ->
   (length (run top_k0 min_score0)
    <= Z.to_nat (effective_top_k self top_k0))%nat) /\
  run (Some 0) min_score0 = run None min_score0 /\
  run top_k0 (Some b64_zero) = run top_k0 None /\
  run top_k0 (Some (S754_zero true)) = run top_k0 None /\
  (forall k, k <> 0 -> effective_top_k self (Some k) = k) /\
  (forall m, SFeqb m b64_zero = false -> effective_min_score self (Some m) = m).
Proof.
  intros run.
  split; [|split; [|split; [|split; [|split; [|split]]]]]; try reflexivity.
  - intros r Hin. unfold run, retrieve in Hin. cbv zeta in Hin.
    unfold threshold_filter_top in Hin.
    apply slice_to_subset, threshold_filter_elem in Hin as [Hin Hge].
    split; [exact Hge | exact Hin].
  - intros Hk. unfold run, retrieve, threshold_filter_top. cbv zeta.
    apply slice_to_length. exact Hk.
  - intros k Hk. unfold effective_top_k.
    destruct (Z.eqb_spec k 0); [contradiction | reflexivity].
  - intros m Hm. unfold effective_min_score, b64_truthy. rewrite Hm. reflexivity.
Qed.

(** ** Reranking *)

Lemma cut_top_subset {A} (top_k0 : option Z) (l : list A) x :
  x ∈ cut_top top_k0 l -> x ∈ l.
Proof.
  unfold cut_top. destruct top_k0 as [k|]; [|tauto].
  destruct (Z.eqb k 0); [tauto | apply slice_to_subset].
Qed.

Lemma slice_to_length_le {A} (k : Z) (l : list A) :
  (length (slice_to k l) <= length l)%nat.
Proof.
  unfold slice_to. destruct (Z.ltb k 0); rewrite length_firstn; lia.
Qed.

Lemma cut_top_length {A} (top_k0 : option Z) (l : list A) :
  (length (cut_top top_k0 l) <= length l)%nat.
Proof.
  unfold cut_top. destruct top_k0 as [k|]; [|lia].
  destruct (Z.eqb k 0); [lia | apply slice_to_length_le].
Qed.

Lemma rerank_loop_elem results : forall llm_scores reranked r,
  rerank_loop results llm_scores = Some reranked ->
  r ∈ reranked ->
  exists i result llm_score,
    results !! i = Some result /\
    llm_scores !! i = Some (Some llm_score) /\
    SFltb llm_score b64_0_3 = false /\
    r = rescored result llm_score.
Proof.
  induction results as [|result results' IH]; intros llm_scores reranked r Hloop Hin.
  - simpl in Hloop. injection Hloop as <-. inversion Hin.
  - destruct llm_scores as [|[llm_score|] llm_scores']; simpl in Hloop.
    + injection Hloop as <-. inversion Hin.
    + destruct (rerank_loop results' llm_scores') as [rest|] eqn:Hrest;
        [|discriminate].
      destruct (SFltb llm_score b64_0_3) eqn:Hlow; injection Hloop as <-.
      * destruct (IH _ _ _ Hrest Hin) as (i & r0 & s & H1 & H2 & H3 & H4).
        exists (Datatypes.S i), r0, s. auto.
      * apply elem_of_cons in Hin as [->|Hin].
        -- exists O, result, llm_score. auto.
        -- destruct (IH _ _ _ Hrest Hin) as (i & r0 & s & H1 & H2 & H3 & H4).
           exists (Datatypes.S i), r0, s. auto.
    + discriminate.
Qed.

Lemma rerank_loop_length results : forall llm_scores reranked,
  rerank_loop results llm_scores = Some reranked ->
  (length reranked <= length results)%nat /\
  (length reranked <= length llm_scores)%nat.
Proof.
  induction results as [|result results' IH]; intros llm_scores reranked Hloop.
  - simpl in Hloop. injection Hloop as <-. simpl. lia.
  - destruct llm_scores as [|[llm_score|] llm_scores']; simpl in Hloop.
    + injection Hloop as <-. simpl. lia.
    + destruct (rerank_loop results' llm_scores') as [rest|] eqn:Hrest;
        [|discriminate].
      destruct (IH _ _ Hrest) as [H1 H2].
      destruct (SFltb llm_score b64_0_3); injection Hloop as <-; simpl; lia.
    + discriminate.
Qed.

(** X10: what reranking can do to the candidates.  With at most two
    candidates, or when the model's reply cannot be used, the
    candidates come back as they were (cut to [top_k] when one is
    given).  Otherwise every result is a candidate of the input
    carrying the new score [llm_score * 0.5 + score * 0.5], for a
    model score that is not below 0.3 and that stands at the
    candidate's own position in the model's list.  Reranking never
    returns more results than it was given, and never more than the
    model gave scores: candidates beyond the end of the model's list
    are dropped. *)
Theorem X10_reranking_only_drops_and_rescores :
  (forall reply results top_k0,
     (length results <= 2)%nat ->
     rerank reply results top_k0 = cut_top top_k0 (map not_reranked results)) /\
  (forall results top_k0,
     rerank None results top_k0 = cut_top top_k0 (map not_reranked results)) /\
  (forall llm_scores results top_k0,
     rerank_loop results llm_scores = None ->
     rerank (Some llm_scores) results top_k0
     = cut_top top_k0 (map not_reranked results)) /\
  (forall reply results top_k0 r,
     r ∈ rerank reply results top_k0 ->
     (rr_llm_score r = None /\ rr_result r ∈ results) \/
     (exists llm_scores i result llm_score,
        reply = Some llm_scores /\
        results !! i = Some result /\
        llm_scores !! i = Some (Some llm_score) /\
        SFltb llm_score b64_0_3 = false /\
        r = rescored result llm_score)) /\
  (forall reply results top_k0,
     (length (rerank reply results top_k0) <= length results)%nat) /\
  (forall llm_scores results top_k0 reranked,
     (2 < length results)%nat ->
     rerank_loop results llm_scores = Some reranked ->
     (length (rerank (Some llm_scores) results top_k0)
      <= length llm_scores)%nat).
Proof.
  assert (Hsame : forall results top_k0 r,
            r ∈ cut_top top_k0 (map not_reranked results) ->
            rr_llm_score r = None /\ rr_result r ∈ results).
  { intros results top_k0 r Hin. apply cut_top_subset in Hin.
    apply list_elem_of_fmap in Hin as (r0 & -> & Hin). simpl. auto. }
  assert (Hlen : forall results top_k0,
            (length (cut_top top_k0 (map not_reranked results))
             <= length results)%nat).
  { intros results top_k0.
    pose proof (cut_top_length top_k0 (map not_reranked results)) as Hl.
    rewrite length_map in Hl. exact Hl. }
  split; [|split; [|split; [|split; [|split]]]].
  - intros reply results top_k0 Hle. unfold rerank.
    destruct (Nat.leb_spec (length results) 2); [reflexivity | lia].
  - intros results top_k0. unfold rerank.
    destruct (Nat.leb (length results) 2); reflexivity.
  - intros llm_scores results top_k0 Hnone. unfold rerank. rewrite Hnone.
    destruct (Nat.leb (length results) 2); reflexivity.
  - intros reply results top_k0 r. unfold rerank.
    destruct (Nat.leb (length results) 2); [left; eapply Hsame; eassumption|].
    destruct reply as [llm_scores|]; [|left; eapply Hsame; eassumption].
    destruct (rerank_loop results llm_scores) as [reranked|] eqn:Hloop;
      [|left; eapply Hsame; eassumption].
    intros Hin. apply cut_top_subset in Hin.
    rewrite sort_desc_perm in Hin.
    destruct (rerank_loop_elem _ _ _ _ Hloop Hin)
      as (i & result & llm_score & H1 & H2 & H3 & H4).
    right. exists llm_scores, i, result, llm_score. auto.
  - intros reply results top_k0. unfold rerank.
    destruct (Nat.leb (length results) 2); [apply Hlen|].
    destruct reply as [llm_scores|]; [|apply Hlen].
    destruct (rerank_loop results llm_scores) as [reranked|] eqn:Hloop;
      [|apply Hlen].
    pose proof (cut_top_length top_k0 (sort_desc rr_score reranked)) as Hl.
    rewrite (Permutation_length (sort_desc_perm rr_score reranked)) in Hl.
    destruct (rerank_loop_length _ _ _ Hloop). lia.
  - intros llm_scores results top_k0 reranked Hmany Hloop. unfold rerank.
    destruct (Nat.leb_spec (length results) 2); [lia|]. rewrite Hloop.
    pose proof (cut_top_length top_k0 (sort_desc rr_score reranked)) as Hl.
    rewrite (Permutation_length (sort_desc_perm rr_score reranked)) in Hl.
    destruct (rerank_loop_length _ _ _ Hloop). lia.
Qed.

(** ** Ranking of the fused candidates *)

Lemma insert_desc_ranked (x : FusedResult Q) (l : list (FusedResult Q)) :
  ranked l -> ranked (insert_desc fr_score x l).
Proof.
  unfold ranked. induction l as [|y l IH]; intros Hs; simpl.
  - constructor; constructor.
  - apply StronglySorted_inv in Hs as [Hs Hy].
    unfold Qltb. destruct (Qle_bool_spec (fr_score y) (fr_score x)) as [Hle|Hlt];
      cbn [negb].
    + constructor; [constructor; assumption|].
      constructor; [exact Hle|].
      eapply Forall_impl; [exact Hy|]. simpl. intros b Hb. lra.
    + constructor; [apply IH; exact Hs|].
      apply (Permutation_Forall (Permutation_sym (insert_desc_perm fr_score x l))).
      constructor; [lra | exact Hy].
Qed.

Lemma sort_desc_ranked (l : list (FusedResult Q)) : ranked (sort_desc fr_score l).
Proof.
  induction l as [|x l IH]; simpl; [constructor|].
  apply insert_desc_ranked. exact IH.
Qed.

Lemma filter_ranked (f : FusedResult Q -> bool) (l : list (FusedResult Q)) :
  ranked l -> ranked (List.filter f l).
Proof.
  unfold ranked. induction l as [|x l IH]; intros Hs; simpl; [constructor|].
  apply StronglySorted_inv in Hs as [Hs Hx].
  destruct (f x); [|apply IH; exact Hs].
  constructor; [apply IH; exact Hs|].
  apply Forall_forall. intros b Hb.
  apply list_elem_of_In, filter_In in Hb as [Hb _].
  rewrite Forall_forall in Hx. apply Hx, list_elem_of_In. exact Hb.
Qed.

Lemma firstn_ranked (n : nat) : forall l : list (FusedResult Q),
  ranked l -> ranked (firstn n l).
Proof.
  unfold ranked. induction n as [|n IH]; intros l Hs; simpl; [constructor|].
  destruct l as [|x l]; [constructor|].
  apply StronglySorted_inv in Hs as [Hs Hx].
  constructor; [apply IH; exact Hs|].
  apply Forall_forall. intros b Hb.
  apply elem_of_take in Hb as (i & Hb & _).
  rewrite Forall_forall in Hx. apply Hx.
  eapply list_elem_of_lookup_2. exact Hb.
Qed.

Lemma ranked_sorted_desc (l : list (FusedResult Q)) :
  ranked l -> sorted_desc l = true.
Proof.
  unfold ranked. induction l as [|a l IH]; intros Hs; [reflexivity|].
  apply StronglySorted_inv in Hs as [Hs Ha].
  destruct l as [|b l]; [reflexivity|].
  change (Qle_bool (fr_score b) (fr_score a) && sorted_desc (b :: l) = true).
  apply andb_true_iff. split; [|apply IH; exact Hs].
  apply Qle_bool_iff. apply Forall_inv in Ha. exact Ha.
Qed.

Lemma threshold_filter_top_ranked (threshold : Q) (k : Z)
    (l : list (FusedResult Q)) :
  ranked l -> ranked (threshold_filter_top threshold k l).
Proof.
  intros Hs. unfold threshold_filter_top, slice_to.
  assert (Hf : ranked (threshold_filter threshold l)).
  { unfold threshold_filter. cbv zeta.
    pose proof (filter_ranked (fun r => sc_geb (fr_score r) threshold) l Hs)
      as H1.
    destruct (List.filter (fun r => sc_geb (fr_score r) threshold) l)
      as [|top rest]; [constructor|].
    apply filter_ranked. exact H1. }
  destruct (Z.ltb k 0); apply firstn_ranked; exact Hf.
Qed.

(** X11: on the exact model of the scores, [_combine_results] returns
    the merged candidates ranked by their combined score, highest
    first: each candidate scores at most as much as every candidate
    before it, so the first one has the highest score of all.  The
    threshold filter and the cut to [top_k] keep that order. *)
Theorem X11_fused_candidates_are_ranked_by_score
    (self : HybridRetriever Q) (product_repo : ProductRepository)
    (_format_product : Product -> string)
    (semantic_results : list (SemanticResult Q))
    (keyword_results : list (KeywordResult Q)) :
  let results :=
    _combine_results self product_repo _format_product
      semantic_results keyword_results in
  sorted_desc results = true /\
  (forall i j a b, (i <= j)%nat ->
     results !! i = Some a -> results !! j = Some b ->
     (fr_score b <= fr_score a)%Q) /\
  (forall threshold k,
     sorted_desc (threshold_filter_top threshold k results) = true /\
     forall i j a b, (i <= j)%nat ->
       threshold_filter_top threshold k results !! i = Some a ->
       threshold_filter_top threshold k results !! j = Some b ->
       (fr_score b <= fr_score a)%Q).
Proof.
  intros results.
  assert (Hpairs : forall l : list (FusedResult Q), ranked l ->
            forall i j a b, (i <= j)%nat ->
              l !! i = Some a -> l !! j = Some b ->
              (fr_score b <= fr_score a)%Q).
  { intros l Hl. unfold ranked in Hl.
    induction Hl as [|x l Hl IH Hx]; intros i j a b Hij Hi Hj.
    - rewrite lookup_nil in Hi. discriminate.
    - destruct i as [|i]; simpl in Hi.
      + injection Hi as <-. destruct j as [|j]; simpl in Hj.
        * injection Hj as <-. lra.
        * rewrite Forall_forall in Hx. apply Hx.
          eapply list_elem_of_lookup_2. exact Hj.
      + destruct j as [|j]; [lia|]. simpl in Hj.
        apply (IH i j a b); [lia | assumption | assumption]. }
  assert (Hr : ranked results) by apply sort_desc_ranked.
  split; [apply ranked_sorted_desc; exact Hr|].
  split; [apply Hpairs; exact Hr|].
  intros threshold k.
  pose proof (threshold_filter_top_ranked threshold k results Hr) as Hf.
  split; [apply ranked_sorted_desc; exact Hf | apply Hpairs; exact Hf].
Qed.

(** ** The loop through the router *)

Import Planning.

Lemma route_after_action_pending (state : AgentState) :
  route_after_action state
  = match plan_pending state with
    | Ret b => Ret (if b then "continue_plan" else "generate_response")
    | Raise e => Raise e
    end.
Proof.
  unfold route_after_action, plan_pending. cbv zeta.
  destruct (truthy (state_get state "execution_plan")); simpl; [|reflexivity].
  destruct (py_get (state_get state "execution_plan") "plan" PNone) as [plan|e];
    simpl; [|reflexivity].
  destruct (truthy plan); simpl; [|reflexivity].
  destruct (py_len plan) as [n|e]; simpl; [|reflexivity].
  destruct (py_lt_num _ _) as [b|e]; reflexivity.
Qed.

Lemma plan_pending_ext (state state' : AgentState) :
  state' !! "execution_plan" = state !! "execution_plan" ->
  state' !! "current_step" = state !! "current_step" ->
  plan_pending state' = plan_pending state /\
  pending_steps state' = pending_steps state.
Proof.
  intros H1 H2. unfold plan_pending, pending_steps, state_get, dict_get.
  rewrite H1, H2. split; reflexivity.
Qed.

Lemma apply_update_other (state update : AgentState) (k : string) :
  update !! k = None -> apply_update state update !! k = state !! k.
Proof. intros H. unfold apply_update. apply lookup_union_r. exact H. Qed.

Lemma apply_update_set (state update : AgentState) (k : string) v :
  update !! k = Some v -> apply_update state update !! k = Some v.
Proof. intros H. unfold apply_update. apply lookup_union_Some_l. exact H. Qed.

Lemma Ret_inj {A} (a b : A) : Ret a = Ret b -> a = b.
Proof. intros H. congruence. Qed.

Ltac ret_subst :=
  let H := fresh "H" in intros H; apply Ret_inj in H; subst.

Ltac step_bind :=
  match goal with
  | |- (?m ≫= _) = Ret _ -> _ =>
      let E := fresh "E" in destruct m eqn:E; simpl; [|discriminate]
  end.

Lemma router_update (state : AgentState) (reply : option pyval)
    (update : gmap string pyval) :
  intelligent_route_node state reply = Ret update ->
  update !! "execution_plan" = None /\
  ((plan_pending state = Ret false /\ update !! "current_step" = None) \/
   (plan_pending state = Ret true /\
    exists z, update !! "current_step" = Some (PInt (z + 1)) /\
              pending_steps state = pending_steps
                (<["current_step" := PInt (z + 1)]> state) + 1 /\
              (plan_pending (<["current_step" := PInt (z + 1)]> state)
               = Ret true ->
               1 <= pending_steps
                      (<["current_step" := PInt (z + 1)]> state)))).
Proof.
  unfold intelligent_route_node, plan_pending. cbv zeta.
  destruct (state !! "user_message"); simpl; [|discriminate].
  assert (Hllm : forall P : Prop,
    (py_get (route_decision reply) "next_node" (PStr "rag_search")
       ≫= λ next_node : pyval,
       py_get (route_decision reply) "confidence" (PFloat (1 # 2))
       ≫= λ confidence : pyval,
       py_float_check confidence
       ≫= λ _ : (),
       py_get (route_decision reply) "reasoning" (PStr "LLM routing decision")
       ≫= λ reasoning : pyval,
       py_slice_check reasoning
       ≫= λ _ : (),
       py_get (route_decision reply) "alternative_nodes" (PList [])
       ≫= λ alternatives : pyval,
       (if truthy alternatives then py_join_check alternatives else Ret ())
       ≫= λ _ : (),
       Ret ({["routing_decision" := next_node;
              "routing_reasoning" := reasoning;
              "routing_confidence" := confidence;
              "alternative_routes" := alternatives]} : gmap string pyval))
    = Ret update ->
    update !! "execution_plan" = None /\
    ((Ret false = Ret false :> outcome bool /\ update !! "current_step" = None) \/ P)).
  { intros P. repeat step_bind. ret_subst.
    split; [reflexivity|]. left. split; reflexivity. }
  destruct (truthy (state_get state "execution_plan")) eqn:Hep; simpl;
    [|apply Hllm].
  destruct (py_get (state_get state "execution_plan") "plan" PNone)
    as [plan|e] eqn:Hplan; simpl; [|discriminate].
  destruct (truthy plan) eqn:Htp; simpl; [|apply Hllm].
  destruct (py_len plan) as [n|e] eqn:Hn; simpl; [|discriminate].
  destruct (py_lt_num (dict_get state "current_step" (PInt 0)) (inject_Z n))
    as [[|]|e] eqn:Hlt; simpl; [| apply Hllm | discriminate].
  clear Hllm.
  destruct (py_index plan (dict_get state "current_step" (PInt 0)))
    as [step|e] eqn:Hstep; simpl; [|discriminate].
  destruct (py_get step "action" PNone) as [next_action|e] eqn:Hact;
    simpl; [|discriminate].
  destruct (py_add_int (dict_get state "current_step" (PInt 0)) 1)
    as [next_step|e] eqn:Hnext; simpl; [|discriminate].
  destruct (py_append (dict_get state "completed_steps" (PList [])) next_action)
    as [completed|e] eqn:Hdone; simpl; [|discriminate].
  ret_subst.
  split; [reflexivity|]. right. split; [reflexivity|].
  assert (Hshape : exists ep steps z,
            state_get state "execution_plan" = PDict ep /\
            dict_get ep "plan" PNone = PList steps /\
            next_step = PInt (z + 1) /\
            (dict_get state "current_step" (PInt 0) = PInt z \/
             exists b, dict_get state "current_step" (PInt 0) = PBool b /\
                       z = if b then 1 else 0)).
  { destruct (state_get state "execution_plan") as [| | | | | |ep] eqn:Hd;
      try discriminate.
    simpl in Hplan. apply Ret_inj in Hplan. subst plan.
    destruct (dict_get ep "plan" PNone) as [| | | | s |steps|d] eqn:Hp;
      try discriminate.
    - simpl in Hstep.
      destruct (dict_get state "current_step" (PInt 0)); try discriminate;
        destruct (_ || _); try discriminate;
        apply Ret_inj in Hstep; subst step; discriminate.
    - destruct (dict_get state "current_step" (PInt 0)) as [|b|z| | | |] eqn:Hc;
        try discriminate.
      + exists ep, steps, (if b then 1 else 0). simpl in Hnext.
        apply Ret_inj in Hnext. subst next_step.
        split; [reflexivity|]. split; [exact Hp|]. split; [reflexivity|].
        right. exists b. auto.
      + exists ep, steps, z. simpl in Hnext.
        apply Ret_inj in Hnext. subst next_step.
        split; [reflexivity|]. split; [exact Hp|]. split; [reflexivity|].
        left. reflexivity.
    - simpl in Hstep.
      destruct (dict_get state "current_step" (PInt 0)); discriminate. }
  destruct Hshape as (ep & steps & z & Hd & Hp & -> & Hcs).
  exists z. split; [reflexivity|].
  unfold plan_pending, pending_steps, state_get, dict_get in *.
  rewrite lookup_insert_ne by discriminate.
  rewrite lookup_insert_eq. simpl.
  destruct (state !! "execution_plan") as [v|]; simpl in Hd; [|discriminate].
  subst v. simpl. rewrite Hp.
  split; [destruct Hcs as [->|(b & -> & ->)]; lia|].
  simpl in Hep. rewrite Hep. simpl.
  simpl in Hplan. apply Ret_inj in Hplan. unfold dict_get in Hplan.
  rewrite Hp in Hplan. subst plan.
  unfold dict_get. rewrite Hp, Htp. simpl.
  unfold py_lt_num. simpl. unfold Qltb.
  destruct (Qle_bool_spec (inject_Z (Z.of_nat (length steps))) (inject_Z (z + 1)))
    as [Hle|Hgt]; simpl; [discriminate|].
  intros _. rewrite <- Zle_Qle in Hgt. lia.
Qed.

Section RouterLoopFacts.

Variable llm_reply : nat -> option pyval.
Variable action_node : string -> AgentState -> outcome (gmap string pyval).
Hypothesis action_keeps_plan : forall node state update,
  action_node node state = Ret update ->
  update !! "execution_plan" = None /\ update !! "current_step" = None.

Lemma router_loop_bounded (fuel : nat) : forall pass state,
  Z.max 1 (pending_steps state) <= Z.of_nat fuel ->
  match router_loop llm_reply action_node fuel pass state with
  | Ret None => False
  | Ret (Some (nodes, _)) =>
      Z.of_nat (length nodes) <= Z.max 1 (pending_steps state) /\
      Forall (fun node => In node action_nodes) nodes
  | Raise _ => True
  end.
Proof.
  induction fuel as [|fuel IH]; intros pass state Hfuel; [lia|].
  simpl.
  destruct (intelligent_route_node state (llm_reply pass)) as [update|e] eqn:Hr;
    simpl; [|exact I].
  destruct (route_from_intelligent_router (apply_update state update))
    as [node|e] eqn:Hn; simpl; [|exact I].
  destruct (String.eqb_spec node "generate_response") as [Hgen|Hgen].
  { simpl. split; [lia | constructor]. }
  assert (Hnode : In node action_nodes).
  { apply route_from_intelligent_router_range in Hn. simpl in Hn. simpl.
    intuition congruence. }
  destruct (action_node node (apply_update state update)) as [update2|e] eqn:Ha;
    simpl; [|exact I].
  destruct (action_keeps_plan _ _ _ Ha) as [Hk1 Hk2].
  set (state1 := apply_update state update) in *.
  set (state2 := apply_update state1 update2).
  destruct (plan_pending_ext state1 state2) as [Hpp Hps];
    [apply apply_update_other; exact Hk1 | apply apply_update_other; exact Hk2|].
  rewrite route_after_action_pending, Hpp.
  destruct (router_update _ _ _ Hr) as [Hplan [[Hfalse Hcs]|[Htrue (z & Hcs & Hsteps & Hmore)]]].
  - destruct (plan_pending_ext state state1) as [Hpp1 _];
      [apply apply_update_other; exact Hplan
      |apply apply_update_other; exact Hcs|].
    rewrite Hpp1, Hfalse. simpl.
    split; [lia | constructor; [exact Hnode | constructor]].
  - destruct (plan_pending_ext (<["current_step" := PInt (z + 1)]> state) state1)
      as [Hpp1 Hps1].
    { unfold state1. rewrite (apply_update_other _ _ _ Hplan).
      rewrite lookup_insert_ne by discriminate. reflexivity. }
    { unfold state1. rewrite (apply_update_set _ _ _ _ Hcs).
      rewrite lookup_insert_eq. reflexivity. }
    rewrite Hpp1.
    destruct (plan_pending (<["current_step" := PInt (z + 1)]> state))
      as [[|]|e] eqn:Hnext; simpl; [| | exact I].
    + specialize (Hmore eq_refl).
      assert (Hfuel2 : Z.max 1 (pending_steps state2) <= Z.of_nat fuel)
        by (rewrite Hps, Hps1; lia).
      specialize (IH (Datatypes.S pass) state2 Hfuel2).
      destruct (router_loop llm_reply action_node fuel (Datatypes.S pass) state2)
        as [[[nodes final]|]|e]; simpl; [| exact IH | exact I].
      destruct IH as [Hlen Hall]. rewrite Hps, Hps1 in Hlen.
      split; [simpl length; lia | constructor; assumption].
    + split; [lia | constructor; [exact Hnode | constructor]].
Qed.

End RouterLoopFacts.


(** X12: the loop between the router and the capability nodes ends.
    Provided the capability nodes do not write [execution_plan] or
    [current_step] (in the source only [planning_node] and the router
    do), the part of the graph between [intelligent_router] and
    [generate_response] makes at most as many passes as the plan has
    steps left, and one pass when there is no plan to follow: with
    that much fuel the loop either raises or reaches
    [generate_response], having run at most that many capability
    nodes, each one of the five capability nodes of the graph.  This
    holds whatever the routing model answers. *)
Theorem X12_router_loop_ends_within_the_plan
    (llm_reply : nat -> option pyval)
    (action_node : string -> AgentState -> outcome (gmap string pyval))
    (state : AgentState) (pass fuel : nat) :
  (forall node state update,
     action_node node state = Ret update ->
     update !! "execution_plan" = None /\ update !! "current_step" = None) ->
  Z.max 1 (pending_steps state) <= Z.of_nat fuel ->
  (exists e, router_loop llm_reply action_node fuel pass state = Raise e) \/
  (exists nodes final,
     router_loop llm_reply action_node fuel pass state
     = Ret (Some (nodes, final)) /\
     Z.of_nat (length nodes) <= Z.max 1 (pending_steps state) /\
     Forall (fun node => In node action_nodes) nodes).
Proof.
  intros Hkeep Hfuel.
  pose proof (router_loop_bounded llm_reply action_node Hkeep fuel pass state
                Hfuel) as H.
  destruct (router_loop llm_reply action_node fuel pass state)
    as [[[nodes final]|]|e].
  - right. exists nodes, final. split; [reflexivity | exact H].
  - destruct H.
  - left. exists e. reflexivity.
Qed.

(** X12 on a plan of two steps, with capability nodes that only report
    their name and a routing model that does not answer. *)
Lemma X12_witness :
  (exists e,
     router_loop (fun _ => None) reporting_action_node 2 0 two_step_plan_state
     = Raise e) \/
  (exists nodes final,
     router_loop (fun _ => None) reporting_action_node 2 0 two_step_plan_state
     = Ret (Some (nodes, final)) /\
     Z.of_nat (length nodes) <= Z.max 1 (pending_steps two_step_plan_state) /\
     Forall (fun node => In node action_nodes) nodes).
Proof.
  apply X12_router_loop_ends_within_the_plan.
  - intros node state update H. apply Ret_inj in H. subst update.
    split; reflexivity.
  - vm_compute. discriminate.
Defined.

(** ** A well-formed plan is followed step by step *)

Lemma dict_truthy_of_lookup (d : gmap string pyval) (k : string) v :
  d !! k = Some v -> truthy (PDict d) = true.
Proof.
  intros H. simpl. destruct (Nat.eqb_spec (size d) 0) as [E|E]; [|reflexivity].
  apply map_size_empty_iff in E. subst d. rewrite lookup_empty in H. discriminate.
Qed.

Lemma node_for_valid (action : pyval) : In (node_for action) valid_nodes.
Proof.
  unfold node_for. destruct action; try (simpl; tauto).
  destruct (existsb (String.eqb s) valid_nodes) eqn:E; [|simpl; tauto].
  apply in_valid_nodes_iff. exact E.
Qed.

Lemma route_of_action (state : AgentState) (action : pyval) :
  state !! "routing_decision" = Some action ->
  hashable action = true ->
  route_from_intelligent_router state = Ret (node_for action).
Proof.
  intros Hs Hh. unfold route_from_intelligent_router, dict_get. rewrite Hs. simpl.
  destruct action; try reflexivity; try discriminate.
  unfold node_for. simpl. destruct (_ || _); reflexivity.
Qed.

Lemma nth_error_lookup {A} (l : list A) : forall i, nth_error l i = l !! i.
Proof.
  induction l as [|x l IH]; intros [|i]; simpl; try reflexivity. apply IH.
Qed.

(** The router at step [i] of a plan whose step [i] is a dictionary. *)
Lemma router_follows_plan (state : AgentState) (reply : option pyval)
    (ep : gmap string pyval) (steps done : list pyval) (i : nat)
    (d : gmap string pyval) :
  is_Some (state !! "user_message") ->
  state !! "execution_plan" = Some (PDict ep) ->
  ep !! "plan" = Some (PList steps) ->
  state !! "current_step" = Some (PInt (Z.of_nat i)) ->
  state !! "completed_steps" = Some (PList done) ->
  steps !! i = Some (PDict d) ->
  intelligent_route_node state reply
  = Ret {[ "routing_decision" := dict_get d "action" PNone;
           "routing_reasoning" := PStr "plan";
           "routing_confidence" := PFloat (9 # 10);
           "current_step" := PInt (Z.of_nat (Datatypes.S i));
           "completed_steps" := PList (done ++ [dict_get d "action" PNone]) ]}.
Proof.
  intros [m Hm] Hep Hplan Hcs Hdone Hstep.
  pose proof (lookup_lt_Some _ _ _ Hstep) as Hlt.
  assert (Hte : truthy (PDict ep) = true)
    by (eapply dict_truthy_of_lookup; exact Hplan).
  assert (Htp : truthy (PList steps) = true)
    by (destruct steps; [simpl in Hlt; lia | reflexivity]).
  assert (Hidx : py_index (PList steps) (PInt (Z.of_nat i)) = Ret (PDict d)).
  { unfold py_index.
    destruct (Z.ltb_spec (Z.of_nat i) 0) as [Hneg|_]; [lia|].
    destruct (Z.ltb_spec (Z.of_nat i) 0) as [Hneg|_]; [lia|].
    destruct (Z.leb_spec (Z.of_nat (length steps)) (Z.of_nat i)) as [Hge|_];
      [lia|].
    simpl. rewrite Nat2Z.id.
    rewrite nth_error_lookup, Hstep. reflexivity. }
  assert (Hpend : py_lt_num (PInt (Z.of_nat i))
                    (inject_Z (Z.of_nat (length steps))) = Ret true).
  { unfold py_lt_num. simpl. unfold Qltb.
    destruct (Qle_bool_spec (inject_Z (Z.of_nat (length steps)))
                (inject_Z (Z.of_nat i))) as [Hle|_]; [|reflexivity].
    rewrite <- Zle_Qle in Hle. lia. }
  unfold intelligent_route_node, state_get, dict_get.
  rewrite Hm, Hep, Hcs, Hdone. cbn [default from_option]. unfold Datatypes.id.
  rewrite Hte. cbn [py_get]. unfold dict_get. rewrite Hplan.
  cbn [default from_option]. unfold Datatypes.id.
  cbn [mbind outcome_bind bind mret outcome_ret].
  rewrite Htp. cbn [andb py_len].
  cbn [mbind outcome_bind bind mret outcome_ret].
  rewrite Hpend.
  cbn [mbind outcome_bind bind mret outcome_ret].
  rewrite Hidx.
  cbn [mbind outcome_bind bind mret outcome_ret py_get py_add_int py_append].
  replace (Z.of_nat (Datatypes.S i)) with (Z.of_nat i + 1) by lia.
  reflexivity.
Qed.

Section PlanTrace.

Variable llm_reply : nat -> option pyval.
Variable action_node : string -> AgentState -> outcome (gmap string pyval).
Hypothesis action_returns : forall node state,
  exists update,
    action_node node state = Ret update /\
    update !! "execution_plan" = None /\
    update !! "current_step" = None /\
    update !! "completed_steps" = None.

Variable ep : gmap string pyval.
Variable steps : list pyval.
Hypothesis plan_of_ep : ep !! "plan" = Some (PList steps).
Hypothesis steps_well_formed : forallb well_formed_step steps = true.

Lemma router_loop_trace (fuel : nat) : forall pass state i done,
  is_Some (state !! "user_message") ->
  state !! "execution_plan" = Some (PDict ep) ->
  state !! "current_step" = Some (PInt (Z.of_nat i)) ->
  state !! "completed_steps" = Some (PList done) ->
  (i < length steps)%nat ->
  (length steps - i <= fuel)%nat ->
  exists final,
    router_loop llm_reply action_node fuel pass state
    = Ret (Some (planned_nodes (drop i steps), final)) /\
    final !! "execution_plan" = Some (PDict ep).
Proof.
  induction fuel as [|fuel IH]; intros pass state i done Hm Hep Hcs Hdone Hi Hfuel;
    [lia|].
  destruct (lookup_lt_is_Some_2 steps i Hi) as [step Hstep].
  assert (Hwf : well_formed_step step = true).
  { rewrite forallb_forall in steps_well_formed. apply steps_well_formed.
    apply list_elem_of_In. eapply list_elem_of_lookup_2. exact Hstep. }
  destruct step as [| | | | | |d]; try discriminate. simpl in Hwf.
  rewrite (drop_S _ _ _ Hstep). cbn [planned_nodes step_action].
  cbn [router_loop].
  rewrite (router_follows_plan state (llm_reply pass) ep steps done i d
             Hm Hep plan_of_ep Hcs Hdone Hstep).
  cbn [mbind outcome_bind bind mret outcome_ret].
  set (action := dict_get d "action" PNone) in *.
  set (update := ({[ "routing_decision" := action;
                     "routing_reasoning" := PStr "plan";
                     "routing_confidence" := PFloat (9 # 10);
                     "current_step" := PInt (Z.of_nat (Datatypes.S i));
                     "completed_steps" := PList (done ++ [action]) ]}
                  : gmap string pyval)).
  set (state1 := apply_update state update).
  assert (H1ep : state1 !! "execution_plan" = Some (PDict ep)).
  { unfold state1. rewrite apply_update_other by reflexivity. exact Hep. }
  rewrite (route_of_action state1 action);
    [|unfold state1; apply apply_update_set; reflexivity | exact Hwf].
  cbn [mbind outcome_bind bind mret outcome_ret].
  destruct (String.eqb (node_for action) "generate_response") eqn:Hgen.
  { exists state1. split; [reflexivity | exact H1ep]. }
  destruct (action_returns (node_for action) state1)
    as (update2 & Hact & Hk1 & Hk2 & Hk3).
  rewrite Hact. cbn [mbind outcome_bind bind mret outcome_ret].
  set (state2 := apply_update state1 update2).
  assert (H2ep : state2 !! "execution_plan" = Some (PDict ep)).
  { unfold state2. rewrite apply_update_other by exact Hk1. exact H1ep. }
  assert (H2cs : state2 !! "current_step" = Some (PInt (Z.of_nat (Datatypes.S i)))).
  { unfold state2. rewrite apply_update_other by exact Hk2.
    unfold state1. apply apply_update_set. reflexivity. }
  assert (H2done : state2 !! "completed_steps" = Some (PList (done ++ [action]))).
  { unfold state2. rewrite apply_update_other by exact Hk3.
    unfold state1. apply apply_update_set. reflexivity. }
  assert (H2m : is_Some (state2 !! "user_message")).
  { unfold state2, state1, apply_update. rewrite !lookup_union.
    destruct Hm as [m Hm]. rewrite Hm.
    destruct (update2 !! "user_message"), (update !! "user_message"); eauto. }
  assert (Hraa : route_after_action state2
                 = Ret (if Nat.ltb (Datatypes.S i) (length steps)
                        then "continue_plan" else "generate_response")).
  { unfold route_after_action, state_get, dict_get. rewrite H2ep, H2cs.
    cbn [default from_option]. unfold Datatypes.id.
    rewrite (dict_truthy_of_lookup ep "plan" _ plan_of_ep).
    cbn [py_get]. unfold dict_get. rewrite plan_of_ep.
    cbn [default from_option mbind outcome_bind bind]. unfold Datatypes.id.
    assert (Htp : truthy (PList steps) = true)
      by (destruct steps; [simpl in Hi; lia | reflexivity]).
    rewrite Htp. cbn [andb py_len mbind outcome_bind bind].
    unfold py_lt_num. cbn [num_of mbind outcome_bind bind]. unfold Qltb.
    destruct (Qle_bool_spec (inject_Z (Z.of_nat (length steps)))
                (inject_Z (Z.of_nat (Datatypes.S i)))) as [Hle|Hgt];
      [rewrite <- Zle_Qle in Hle|rewrite <- Zle_Qle in Hgt];
      destruct (Nat.ltb_spec (Datatypes.S i) (length steps)); try lia;
      reflexivity. }
  rewrite Hraa. cbn [mbind outcome_bind bind mret outcome_ret].
  destruct (Nat.ltb_spec (Datatypes.S i) (length steps)) as [Hmore|Hlast].
  - cbn [String.eqb Ascii.eqb Bool.eqb].
    destruct (IH (Datatypes.S pass) state2 (Datatypes.S i)
                (app done [action]) H2m H2ep H2cs H2done Hmore ltac:(lia)) as (final & Hloop & Hfin).
    rewrite Hloop. cbn [mbind outcome_bind bind mret outcome_ret].
    exists final. split; [reflexivity | exact Hfin].
  - cbn [String.eqb Ascii.eqb Bool.eqb].
    rewrite (drop_ge steps (Datatypes.S i)) by lia.
    exists state2. split; [reflexivity | exact H2ep].
Qed.

End PlanTrace.

(** X13: a well-formed plan is followed step by step.  When the state
    holds a plan whose steps are dictionaries with an action that can
    be looked up, a step counter that points into the plan and a list
    of completed steps, and the capability nodes return without
    writing the plan, the counter or that list, the loop through the
    router runs the capability nodes of the remaining steps in the
    order of the plan, each action mapped to its node ([rag_search]
    for a name that is not a node), and stops at the first step that
    leads to [generate_response] or at the end of the plan.  The
    routing model is not consulted, and the plan itself is left as it
    was. *)
Theorem X13_well_formed_plan_is_followed_in_order
    (llm_reply : nat -> option pyval)
    (action_node : string -> AgentState -> outcome (gmap string pyval))
    (state : AgentState) (ep : gmap string pyval) (steps done : list pyval)
    (i pass fuel : nat) :
  (forall node state,
     exists update,
       action_node node state = Ret update /\
       update !! "execution_plan" = None /\
       update !! "current_step" = None /\
       update !! "completed_steps" = None) ->
  is_Some (state !! "user_message") ->
  state !! "execution_plan" = Some (PDict ep) ->
  ep !! "plan" = Some (PList steps) ->
  forallb well_formed_step steps = true ->
  state !! "current_step" = Some (PInt (Z.of_nat i)) ->
  state !! "completed_steps" = Some (PList done) ->
  (i < length steps)%nat ->
  (length steps - i <= fuel)%nat ->
  exists final,
    router_loop llm_reply action_node fuel pass state
    = Ret (Some (planned_nodes (drop i steps), final)) /\
    final !! "execution_plan" = Some (PDict ep).
Proof.
  intros Hact Hm Hep Hplan Hwf Hcs Hdone Hi Hfuel.
  exact (router_loop_trace llm_reply action_node Hact ep steps Hplan Hwf
           fuel pass state i done Hm Hep Hcs Hdone Hi Hfuel).
Qed.

(** X13 on the plan of two steps: [stock_check] runs, then
    [bargaining]. *)
Lemma X13_witness :
  exists final,
    router_loop (fun _ => None) reporting_action_node 2 0 two_step_plan_state
    = Ret (Some (planned_nodes (drop 0 two_steps), final)) /\
    final !! "execution_plan" = Some (PDict two_step_plan).
Proof.
  apply (X13_well_formed_plan_is_followed_in_order
           (fun _ => None) reporting_action_node two_step_plan_state
           two_step_plan two_steps [] 0 0 2).
  - intros node state. eexists. repeat split; reflexivity.
  - eexists. reflexivity.
  - reflexivity.
  - reflexivity.
  - reflexivity.
  - reflexivity.
  - reflexivity.
  - simpl. lia.
  - simpl. lia.
Defined.

(** The run of the sample and the plan [create_plan] falls back to. *)
Lemma plans_followed_on_samples :
  planned_nodes two_steps = ["stock_check"; "bargaining"] /\
  (exists final,
     router_loop (fun _ => None) reporting_action_node 2 0 two_step_plan_state
     = Ret (Some (["stock_check"; "bargaining"], final)) /\
     final !! "current_step" = Some (PInt 2) /\
     final !! "completed_steps"
     = Some (PList [PStr "stock_check"; PStr "bargaining"])).
Proof.
  split; [reflexivity|]. eexists. split; [vm_compute; reflexivity|].
  split; reflexivity.
Qed.

(** ** Planning *)

Lemma json_set_default_dict (key : string) (v result : pyval)
    (d : gmap string pyval) :
  json_set_default key v result = Ret (PDict d) ->
  is_Some (d !! key) /\
  exists d0, result = PDict d0 /\
    forall k, is_Some (d0 !! k) -> is_Some (d !! k).
Proof.
  unfold json_set_default. destruct result as [| | | | s|l|d0]; simpl;
    try discriminate.
  - destruct (Retriever.contains key s); discriminate.
  - destruct (existsb _ l); discriminate.
  - destruct (bool_decide_reflect (is_Some (d0 !! key))) as [Hin|Hout].
    + intros H. apply Ret_inj in H. injection H as <-.
      split; [exact Hin|]. exists d0. split; [reflexivity | tauto].
    + intros H. apply Ret_inj in H. injection H as <-.
      split; [rewrite lookup_insert_eq; eauto|].
      exists d0. split; [reflexivity|]. intros k Hk.
      destruct (decide (key = k)) as [<-|Hne];
        [rewrite lookup_insert_eq; eauto
        |rewrite lookup_insert_ne by exact Hne; exact Hk].
Qed.

Lemma create_plan_dict (llm_reply : option pyval) (reporting : bool)
    (d : gmap string pyval) :
  create_plan llm_reply reporting = PDict d ->
  is_Some (d !! "plan") /\ is_Some (d !! "complexity").
Proof.
  assert (Hfb : is_Some (fallback_plan !! "plan") /\
                is_Some (fallback_plan !! "complexity"))
    by (split; eexists; reflexivity).
  unfold create_plan. destruct llm_reply as [result|].
  2:{ intros H. injection H as <-. exact Hfb. }
  destruct (json_set_default "complexity" (PStr "medium") result)
    as [r1|e] eqn:H1; simpl.
  2:{ intros H. injection H as <-. exact Hfb. }
  destruct (json_set_default "plan" (PList []) r1) as [r2|e] eqn:H2; simpl.
  2:{ intros H. injection H as <-. exact Hfb. }
  destruct (if reporting then report_plan r2 else Ret ()) as [[]|e]; simpl.
  2:{ intros H. injection H as <-. exact Hfb. }
  intros ->.
  destruct (json_set_default_dict _ _ _ _ H2) as (Hp & d1 & -> & Hkeep).
  destruct (json_set_default_dict _ _ _ _ H1) as (Hc & _).
  split; [exact Hp | apply Hkeep; exact Hc].
Qed.

Lemma log_step_ok (step : pyval) : log_step step = Ret tt -> loggable_step step.
Proof.
  unfold log_step, loggable_step.
  destruct step as [| | | | s|l|d]; simpl; try discriminate.
  destruct (d !! "step") eqn:E1; simpl; [|discriminate].
  destruct (d !! "action") eqn:E2; simpl; [|discriminate].
  destruct (d !! "goal") eqn:E3; simpl; [|discriminate].
  intros _. exists d. rewrite E1, E2, E3. eauto.
Qed.

Lemma log_steps_ok (steps : list pyval) :
  log_steps steps = Ret tt -> Forall loggable_step steps.
Proof.
  induction steps as [|step rest IH]; simpl; [constructor|].
  destruct (log_step step) as [[]|e] eqn:H1; simpl; [|discriminate].
  intros H. constructor; [apply log_step_ok; exact H1 | apply IH; exact H].
Qed.

Lemma planning_node_cases (state : AgentState) (llm_reply : option pyval)
    (reporting : bool) :
  planning_node state llm_reply reporting = planning_error_update \/
  (is_Some (state !! "user_message") /\
   exists d p first_action,
     create_plan llm_reply reporting = PDict d /\
     d !! "plan" = Some p /\
     planning_node state llm_reply reporting
     = {[ "execution_plan" := PDict d;
          "current_step" := PInt 0;
          "plan_complexity" := dict_get d "complexity" (PStr "medium");
          "completed_steps" := PList [];
          "next_planned_action" := first_action ]} /\
     ((truthy p = false /\ first_action = PNone) \/
      (exists steps d0,
         p = PList steps /\
         steps !! 0%nat = Some (PDict d0) /\
         Forall loggable_step (firstn 3 steps) /\
         first_action = dict_get d0 "action" PNone))).
Proof.
  unfold planning_node.
  destruct (state !! "user_message") as [m|] eqn:Hm; simpl; [|left; reflexivity].
  destruct (create_plan llm_reply reporting) as [| | | | | |d] eqn:Hcp; simpl;
    try (left; reflexivity).
  destruct (create_plan_dict _ _ _ Hcp) as [[p Hp] _].
  assert (Hget : dict_get d "plan" (PList []) = p)
    by (unfold dict_get; rewrite Hp; reflexivity).
  rewrite Hget.
  destruct (truthy p) eqn:Htp; simpl.
  2:{ right. split; [eauto|]. exists d, p, PNone.
      split; [reflexivity|]. split; [exact Hp|]. split; [reflexivity|].
      left. split; [exact Htp | reflexivity]. }
  destruct p as [| | | | s|steps|dp]; try (left; reflexivity).
  - destruct s as [|c s]; [discriminate|]. left. reflexivity.
  - simpl log_plan_steps.
    destruct (log_steps (firstn 3 steps)) as [[]|e] eqn:Hlog; simpl;
      [|left; reflexivity].
    apply log_steps_ok in Hlog.
    destruct steps as [|step0 steps']; [discriminate|].
    pose proof (Forall_inv Hlog) as (d0 & -> & _).
    right. split; [eauto|]. exists d, (PList (PDict d0 :: steps')),
      (dict_get d0 "action" PNone).
    split; [reflexivity|]. split; [exact Hp|]. split; [reflexivity|].
    right. exists (PDict d0 :: steps'), d0. auto.
Qed.

(** X14: what [planning_node] hands to the router.  Whatever the
    planning model answers, the update sets [current_step] to 0 and
    [completed_steps] to the empty list, and holds an execution plan
    that is a dictionary with a ["plan"] entry; that entry is either
    falsy or a list whose first three steps are dictionaries with the
    keys ['step'], ['action'] and ['goal'] (a plan that fails this is
    replaced by the empty plan).  Without a [user_message] the update
    is the empty plan.  When the request to the model fails, the plan
    is the two-step fallback plan and the first planned action is
    [rag_search].  And when the plan is not empty, the router that
    runs next follows it without consulting the routing model: its
    decision is the [next_planned_action] of the update, and the step
    counter becomes 1. *)
Theorem X14_planning_leaves_a_plan_the_router_can_follow
    (state : AgentState) (llm_reply : option pyval) (reporting : bool) :
  (planning_node state llm_reply reporting !! "current_step" = Some (PInt 0) /\
   planning_node state llm_reply reporting !! "completed_steps"
   = Some (PList []) /\
   exists ep plan,
     planning_node state llm_reply reporting !! "execution_plan"
     = Some (PDict ep) /\
     ep !! "plan" = Some plan /\
     (truthy plan = false \/
      exists steps, plan = PList steps /\
                    Forall loggable_step (firstn 3 steps))) /\
  (state !! "user_message" = None ->
   planning_node state llm_reply reporting = planning_error_update) /\
  (is_Some (state !! "user_message") ->
   planning_node state None reporting !! "execution_plan"
   = Some (PDict fallback_plan) /\
   planning_node state None reporting !! "next_planned_action"
   = Some (PStr "rag_search")) /\
  (forall reply ep plan,
     is_Some (state !! "user_message") ->
     planning_node state llm_reply reporting !! "execution_plan"
     = Some (PDict ep) ->
     ep !! "plan" = Some plan ->
     truthy plan = true ->
     exists update,
       intelligent_route_node
         (apply_update state (planning_node state llm_reply reporting)) reply
       = Ret update /\
       update !! "routing_decision"
       = planning_node state llm_reply reporting !! "next_planned_action" /\
       update !! "current_step" = Some (PInt 1)).
Proof.
  pose proof (planning_node_cases state llm_reply reporting) as Hcases.
  split; [|split; [|split]].
  - destruct Hcases as [->|(_ & d & p & fa & Hcp & Hp & -> & Hshape)].
    + split; [reflexivity|]. split; [reflexivity|].
      eexists _, _. split; [reflexivity|]. split; [reflexivity|].
      left. reflexivity.
    + split; [reflexivity|]. split; [reflexivity|].
      exists d, p. split; [reflexivity|]. split; [exact Hp|].
      destruct Hshape as [[Hf _]|(steps & d0 & -> & _ & Hlog & _)];
        [left; exact Hf | right; exists steps; auto].
  - intros Hm. unfold planning_node. rewrite Hm. reflexivity.
  - intros [m Hm]. unfold planning_node. rewrite Hm.
    split; vm_compute; reflexivity.
  - intros reply ep plan Hm Hep Hplan Htp.
    destruct Hcases as [Herr|(_ & d & p & fa & Hcp & Hp & Hupd & Hshape)].
    + rewrite Herr in Hep. vm_compute in Hep. injection Hep as <-.
      vm_compute in Hplan. injection Hplan as <-. discriminate.
    + rewrite Hupd in Hep |- *.
      assert (ep = d) by (vm_compute in Hep; congruence). subst ep.
      assert (plan = p) by congruence. subst plan.
      destruct Hshape as [[Hf _]|(steps & d0 & -> & H0 & _ & ->)];
        [congruence|].
      eexists. split.
      * apply (router_follows_plan _ reply d steps [] 0 d0).
        -- destruct Hm as [m Hm].
           rewrite apply_update_other by reflexivity. eauto.
        -- apply apply_update_set. reflexivity.
        -- exact Hp.
        -- apply apply_update_set. reflexivity.
        -- apply apply_update_set. reflexivity.
        -- exact H0.
      * split; reflexivity.
Qed.

(** ** The conversation history *)

Import Context.

Lemma add_message_messages (ctx : ConversationContext) (role content : string)
    (metadata : option (gmap string pyval)) (now : Z) :
  let message :=
    {| msg_role := role; msg_content := content; msg_timestamp := now;
       msg_metadata := default ∅ metadata |} in
  1 <= ctx_max_history ctx ->
  exists kept,
    ctx_messages (add_message ctx role content metadata now)
    = (kept ++ [message])%list /\
    kept = drop (length (ctx_messages ctx) + 1 - Z.to_nat (ctx_max_history ctx))
                (ctx_messages ctx).
Proof.
  intros message Hmax. unfold add_message. fold message.
  destruct (Z.ltb_spec (ctx_max_history ctx)
              (Z.of_nat (length (ctx_messages ctx ++ [message])%list)))
    as [Hover|Hfits]; simpl.
  - unfold slice_last. destruct (Z.ltb_spec 0 (ctx_max_history ctx)); [|lia].
    rewrite length_app in *. simpl in *.
    eexists. split; [|reflexivity].
    replace (Z.to_nat (Z.of_nat (length (ctx_messages ctx) + 1)
                       - ctx_max_history ctx))
      with (length (ctx_messages ctx) + 1 - Z.to_nat (ctx_max_history ctx))%nat
      by lia.
    apply drop_app_le. lia.
  - rewrite length_app in Hfits. simpl in Hfits.
    eexists. split; [|reflexivity].
    replace (length (ctx_messages ctx) + 1 - Z.to_nat (ctx_max_history ctx))%nat
      with 0%nat by lia.
    reflexivity.
Qed.

Lemma slice_last_positive {A} (n : Z) (l : list A) :
  1 <= n ->
  Z.of_nat (length (slice_last n l)) = Z.min n (Z.of_nat (length l)) /\
  exists dropped, l = (dropped ++ slice_last n l)%list.
Proof.
  intros Hn. unfold slice_last. destruct (Z.ltb_spec 0 n); [|lia].
  split; [rewrite length_drop; lia|].
  exists (take (Z.to_nat (Z.of_nat (length l) - n)) l).
  symmetry. apply take_drop.
Qed.

(** X15: the history is a window of the most recent messages.  With
    [max_history] at least 1, [add_message] leaves at most
    [max_history] messages, namely the new message preceded by the
    most recent earlier ones, in their order; the new message is the
    last one, and a message of the user is what
    [get_last_user_message] then returns.  With [max_history = 0]
    nothing is ever dropped, because the slice [messages[-0:]] is the
    whole list.  [get_history] with a positive [last_n] returns the
    last [last_n] messages (all of them when there are fewer), and
    with [last_n = 0] or none it returns the whole history. *)
Theorem X15_history_is_a_window_of_the_most_recent_messages
    (ctx : ConversationContext) (role content : string)
    (metadata : option (gmap string pyval)) (now : Z) :
  let message :=
    {| msg_role := role; msg_content := content; msg_timestamp := now;
       msg_metadata := default ∅ metadata |} in
  let ctx' := add_message ctx role content metadata now in
  (1 <= ctx_max_history ctx ->
   Z.of_nat (length (ctx_messages ctx')) <= ctx_max_history ctx /\
   Z.of_nat (length (ctx_messages ctx'))
   = Z.min (Z.of_nat (length (ctx_messages ctx)) + 1) (ctx_max_history ctx) /\
   last (ctx_messages ctx') = Some message /\
   (exists dropped,
      (ctx_messages ctx ++ [message] = dropped ++ ctx_messages ctx')%list) /\
   (role = "user" -> get_last_user_message ctx' = Some content)) /\
  (ctx_max_history ctx = 0 ->
   ctx_messages ctx' = (ctx_messages ctx ++ [message])%list) /\
  (ctx_max_history ctx' = ctx_max_history ctx /\
   ctx_session_id ctx' = ctx_session_id ctx /\
   ctx_metadata ctx' = ctx_metadata ctx) /\
  (forall n, 1 <= n ->
     Z.of_nat (length (get_history ctx (Some n)))
     = Z.min n (Z.of_nat (length (ctx_messages ctx))) /\
     exists earlier,
       ctx_messages ctx = (earlier ++ get_history ctx (Some n))%list) /\
  (get_history ctx (Some 0) = ctx_messages ctx /\
   get_history ctx None = ctx_messages ctx).
Proof.
  intros message ctx'.
  split; [|split; [|split; [|split]]].
  - intros Hmax.
    destruct (add_message_messages ctx role content metadata now Hmax)
      as (kept & Hmsgs & Hkept).
    fold message in Hmsgs. fold ctx' in Hmsgs. rewrite Hmsgs.
    assert (Hlen : length kept
                   = (length (ctx_messages ctx)
                      - (length (ctx_messages ctx) + 1
                         - Z.to_nat (ctx_max_history ctx)))%nat)
      by (rewrite Hkept; apply length_drop).
    rewrite length_app. simpl.
    split; [lia|]. split; [lia|]. split; [apply last_snoc|].
    split.
    + exists (take (length (ctx_messages ctx) + 1
                    - Z.to_nat (ctx_max_history ctx)) (ctx_messages ctx)).
      rewrite Hkept, app_assoc, take_drop. reflexivity.
    + intros ->. unfold get_last_user_message. rewrite Hmsgs, rev_unit.
      reflexivity.
  - intros Hzero. unfold ctx', add_message. fold message. rewrite Hzero.
    destruct (Z.ltb_spec 0 (Z.of_nat (length (ctx_messages ctx ++ [message])%list)));
      simpl; [|reflexivity].
    reflexivity.
  - unfold ctx', add_message.
    destruct (Z.ltb _ _); simpl; auto.
  - intros n Hn. unfold get_history.
    destruct (Z.eqb_spec n 0); [lia|].
    apply slice_last_positive. exact Hn.
  - split; reflexivity.
Qed.

(** X16: sessions are kept apart.  [get_or_create_context] returns
    the stored context of a known session and leaves the manager as it
    was, so asking twice gives the same context; for an unknown
    session it stores and returns an empty context with the manager's
    history limit.  After it, [get_context] finds what was returned.
    [delete_context] makes [get_context] answer [None], and a later
    [get_or_create_context] starts from an empty history.  Neither
    call changes what [get_context] answers for another session. *)
Theorem X16_contexts_are_kept_per_session
    (self : ContextManager) (session_id : string) :
  (forall ctx, get_context self session_id = Some ctx ->
     get_or_create_context self session_id = (ctx, self)) /\
  (get_context self session_id = None ->
   (get_or_create_context self session_id).1
   = new_context session_id (cm_max_history self)) /\
  get_context (get_or_create_context self session_id).2 session_id
  = Some (get_or_create_context self session_id).1 /\
  get_or_create_context (get_or_create_context self session_id).2 session_id
  = get_or_create_context self session_id /\
  get_context (delete_context self session_id) session_id = None /\
  (get_or_create_context (delete_context self session_id) session_id).1
  = new_context session_id (cm_max_history self) /\
  (forall other, other <> session_id ->
     get_context (get_or_create_context self session_id).2 other
     = get_context self other /\
     get_context (delete_context self session_id) other
     = get_context self other).
Proof.
  unfold get_or_create_context, get_context, delete_context.
  split; [|split; [|split; [|split; [|split; [|split]]]]].
  - intros ctx ->. reflexivity.
  - intros ->. reflexivity.
  - destruct (cm_contexts self !! session_id) as [ctx|] eqn:H; simpl;
      [exact H | apply lookup_insert_eq].
  - destruct (cm_contexts self !! session_id) as [ctx|] eqn:H; simpl.
    + rewrite H. reflexivity.
    + rewrite lookup_insert_eq. reflexivity.
  - simpl. apply lookup_delete_eq.
  - simpl. rewrite lookup_delete_eq. reflexivity.
  - intros other Hne. split.
    + destruct (cm_contexts self !! session_id) as [ctx|]; simpl;
        [reflexivity | apply lookup_insert_ne; congruence].
    + simpl. apply lookup_delete_ne. congruence.
Qed.

(** ** The critic's verdict and the reflection node *)

Import Critic.

Lemma reflection_regeneration_needs_a_verdict (state : AgentState)
    (critique : pyval) :
  exists regen : bool,
    reflection_node state critique !! "needs_regeneration"
    = Some (PBool regen) /\
    (regen = true ->
     exists d, critique = PDict d /\
               truthy (dict_get d "is_valid" (PBool true)) = false).
Proof.
  unfold reflection_node, reflection_try. cbv zeta.
  destruct (py_ge_num (dict_get state "regeneration_count" (PInt 0)) 2)
    as [[|]|e]; simpl;
    try (exists false; split; [reflexivity | discriminate]).
  destruct (truthy (state_get state "needs_clarification")
            && truthy (state_get state "clarification_question")); simpl;
    try (exists false; split; [reflexivity | discriminate]).
  destruct (state !! "user_message"); simpl;
    try (exists false; split; [reflexivity | discriminate]).
  destruct critique as [| | | | | |d]; simpl;
    try (exists false; split; [reflexivity | discriminate]).
  destruct (log_issues _ _) as [[]|e]; simpl;
    try (exists false; split; [reflexivity | discriminate]).
  destruct (py_float_check _) as [[]|e]; simpl;
    try (exists false; split; [reflexivity | discriminate]).
  destruct (py_len _) as [n|e]; simpl;
    try (exists false; split; [reflexivity | discriminate]).
  destruct (truthy (dict_get d "is_valid" (PBool true))) eqn:Hv; simpl.
  - destruct (py_add_int _ _) as [c|e]; simpl;
      exists false; (split; [reflexivity | discriminate]).
  - destruct (py_lt_num _ _) as [below|e]; simpl;
      try (exists false; split; [reflexivity | discriminate]).
    destruct (py_add_int _ _) as [c|e]; simpl.
    + exists below. split; [reflexivity|]. intros _. exists d. auto.
    + exists false. split; [reflexivity | discriminate].
Qed.

Lemma validate_response_dict (d : gmap string pyval) (reporting : bool) (q : Q) :
  d !! "is_valid" = None ->
  num_of (dict_get d "overall_score" (PInt 0)) = Some q ->
  (reporting = true ->
   py_float_check (dict_get d "overall_score" (PFloat 7)) = Ret tt) ->
  validate_response (Some (PDict d)) reporting
  = PDict (<["is_valid" := PBool (Qgeb q 7)]> d).
Proof.
  intros Hv Hq Hrep. unfold validate_response, default_verdict. simpl.
  rewrite Hv. rewrite bool_decide_false by (intros [? ?]; discriminate). simpl.
  unfold py_ge_num. rewrite Hq. simpl.
  destruct reporting; [|reflexivity].
  unfold report_verdict. simpl.
  assert (Hs : dict_get (<["is_valid" := PBool (Qgeb q 7)]> d) "overall_score"
                 (PFloat 7) = dict_get d "overall_score" (PFloat 7)).
  { unfold dict_get. rewrite lookup_insert_ne by discriminate. reflexivity. }
  rewrite Hs, (Hrep eq_refl). simpl. rewrite lookup_insert_eq. reflexivity.
Qed.

Lemma validate_response_cases (reply : pyval) (reporting : bool) :
  validate_response (Some reply) reporting = PDict validation_fallback \/
  validate_response (Some reply) reporting = reply \/
  exists d passed,
    reply = PDict d /\ d !! "is_valid" = None /\
    validate_response (Some reply) reporting
    = PDict (<["is_valid" := PBool passed]> d).
Proof.
  unfold validate_response, default_verdict.
  destruct (json_contains "is_valid" reply) as [[|]|e] eqn:Hin; simpl.
  - destruct (if reporting then report_verdict reply else Ret ()) as [[]|e];
      simpl; auto.
  - destruct (py_get reply "overall_score" (PInt 0)) as [score|e] eqn:Hs;
      simpl; [|auto].
    destruct (py_ge_num score 7) as [passed|e]; simpl; [|auto].
    destruct reply as [| | | | | |d]; simpl; auto.
    destruct (if reporting then report_verdict _ else Ret ()) as [[]|e];
      simpl; [|auto].
    right. right. exists d, passed. split; [reflexivity|].
    split; [|reflexivity].
    simpl in Hin. apply Ret_inj in Hin.
    destruct (d !! "is_valid") eqn:E; [|reflexivity].
    rewrite bool_decide_true in Hin by eauto. discriminate.
  - auto.
Qed.

(** X17: the critic's verdict and regeneration.  The reflection node
    asks for a regeneration only on a verdict that is a dictionary
    with a falsy ["is_valid"].  So when the request to the critic
    fails, or the critic answers something that is not a JSON object,
    no regeneration is asked for, in any state.  A JSON object
    without ["is_valid"] gets one from its score: [True] exactly when
    ["overall_score"] is at least 7, a missing score counting as 0. *)
Theorem X17_only_a_negative_verdict_triggers_regeneration :
  (forall state critique,
     reflection_node state critique !! "needs_regeneration"
     = Some (PBool true) ->
     exists d, critique = PDict d /\
               truthy (dict_get d "is_valid" (PBool true)) = false) /\
  (forall state reporting,
     reflection_node state (validate_response None reporting)
       !! "needs_regeneration" = Some (PBool false)) /\
  (forall state reply reporting,
     (forall d, reply <> PDict d) ->
     reflection_node state (validate_response (Some reply) reporting)
       !! "needs_regeneration" = Some (PBool false)) /\
  (forall d reporting q,
     d !! "is_valid" = None ->
     num_of (dict_get d "overall_score" (PInt 0)) = Some q ->
     (reporting = true ->
      py_float_check (dict_get d "overall_score" (PFloat 7)) = Ret tt) ->
     validate_response (Some (PDict d)) reporting
     = PDict (<["is_valid" := PBool (Qgeb q 7)]> d)) /\
  (forall d reporting,
     d !! "is_valid" = None -> d !! "overall_score" = None ->
     validate_response (Some (PDict d)) reporting
     = PDict (<["is_valid" := PBool false]> d)).
Proof.
  assert (Hneg : forall state critique,
            reflection_node state critique !! "needs_regeneration"
            = Some (PBool true) ->
            exists d, critique = PDict d /\
                      truthy (dict_get d "is_valid" (PBool true)) = false).
  { intros state critique H.
    destruct (reflection_regeneration_needs_a_verdict state critique)
      as (regen & Hr & Hd).
    rewrite Hr in H. injection H as ->. apply Hd. reflexivity. }
  assert (Hfalse : forall state critique,
            (forall d, critique = PDict d ->
                       truthy (dict_get d "is_valid" (PBool true)) = true) ->
            reflection_node state critique !! "needs_regeneration"
            = Some (PBool false)).
  { intros state critique Hok.
    destruct (reflection_regeneration_needs_a_verdict state critique)
      as ([|] & Hr & Hd); [|exact Hr].
    destruct (Hd eq_refl) as (d & -> & Hv).
    rewrite (Hok d eq_refl) in Hv. discriminate. }
  split; [exact Hneg|]. split; [|split; [|split]].
  - intros state reporting. apply Hfalse. intros d [= <-]. reflexivity.
  - intros state reply reporting Hnd. apply Hfalse. intros d Hd.
    destruct (validate_response_cases reply reporting)
      as [Hfb|[Hsame|(d' & passed & -> & _)]].
    + rewrite Hfb in Hd. injection Hd as <-. reflexivity.
    + rewrite Hsame in Hd. exfalso. apply (Hnd d). exact Hd.
    + exfalso. apply (Hnd d'). reflexivity.
  - intros d reporting q. apply validate_response_dict.
  - intros d reporting Hv Hs.
    apply (validate_response_dict d reporting 0%Q Hv).
    + unfold dict_get. rewrite Hs. reflexivity.
    + intros _. unfold dict_get. rewrite Hs. reflexivity.
Qed.

(** X18: a verdict that only carries a score.  In a state whose
    regeneration counter is below 2, with a user message and no
    clarification pending, a critic's answer without ["is_valid"],
    issues or critical error and with the score [q] makes the
    reflection node ask for a regeneration exactly when [q < 7]; the
    counter goes up by one in that case and the turn goes back to the
    generator, and otherwise the turn ends. *)
Theorem X18_a_score_below_seven_asks_for_a_regeneration
    (state : AgentState) (d : gmap string pyval) (q : Q) (n : Z) :
  regeneration_count_of state = Some n ->
  n < 2 ->
  truthy (state_get state "needs_clarification") = false ->
  is_Some (state !! "user_message") ->
  d !! "is_valid" = None ->
  d !! "overall_score" = Some (PFloat q) ->
  d !! "issues" = None ->
  d !! "critical_error" = None ->
  reflection_node state (validate_response (Some (PDict d)) false)
    !! "needs_regeneration" = Some (PBool (Qltb q 7)) /\
  reflection_node state (validate_response (Some (PDict d)) false)
    !! "validation_passed" = Some (PBool (Qgeb q 7)) /\
  reflection_node state (validate_response (Some (PDict d)) false)
    !! "regeneration_count" = Some (PInt (n + if Qltb q 7 then 1 else 0)) /\
  route_after_reflection
    (apply_update state
       (reflection_node state (validate_response (Some (PDict d)) false)))
  = (if Qltb q 7 then "regenerate" else "end").
Proof.
  intros Hn Hlt Hclar [m Hm] Hv Hs Hi Hc.
  rewrite (validate_response_dict d false q Hv);
    [| unfold dict_get; rewrite Hs; reflexivity | discriminate].
  assert (Hcount : dict_get state "regeneration_count" (PInt 0) = PInt n).
  { unfold regeneration_count_of in Hn.
    destruct (dict_get state "regeneration_count" (PInt 0)); try discriminate.
    congruence. }
  assert (Hupd : reflection_node state (PDict (<["is_valid" := PBool (Qgeb q 7)]> d))
                 = {[ "reflection_result" :=
                        PDict (<["is_valid" := PBool (Qgeb q 7)]> d);
                      "response_quality_score" := PFloat q;
                      "needs_regeneration" := PBool (Qltb q 7);
                      "regeneration_count" :=
                        PInt (n + if Qltb q 7 then 1 else 0);
                      "validation_passed" := PBool (Qgeb q 7) ]}).
  { unfold reflection_node, reflection_try. cbv zeta. rewrite Hcount.
    unfold py_ge_num. cbn [num_of].
    change (Qgeb (inject_Z n) 2) with (Qgeb (inject_Z n) (inject_Z 2)).
    rewrite Qgeb_inject_Z.
    destruct (Z.leb_spec 2 n); [lia|].
    cbn [mbind outcome_bind bind mret outcome_ret].
    rewrite Hclar. cbn [andb]. rewrite Hm.
    cbn [mbind outcome_bind bind mret outcome_ret py_get].
    unfold dict_get.
    rewrite lookup_insert_eq.
    rewrite !lookup_insert_ne by discriminate.
    rewrite Hs, Hi, Hc.
    cbn [default from_option]. unfold Datatypes.id.
    cbn [log_issues truthy py_float_check py_len length
         mbind outcome_bind bind mret outcome_ret].
    unfold py_lt_num. cbn [num_of].
    change (Qltb (inject_Z n) 2) with (Qltb (inject_Z n) (inject_Z 2)).
    rewrite Qltb_inject_Z.
    destruct (Z.ltb_spec n 2); [|lia].
    unfold Qltb, Qgeb.
    destruct (Qle_bool 7 q); cbn [negb mbind outcome_bind bind mret outcome_ret
                                  py_add_int]; reflexivity. }
  rewrite Hupd.
  split; [reflexivity|]. split; [reflexivity|]. split; [reflexivity|].
  apply route_after_update. reflexivity.
Qed.

(** X18 at the start of a turn, for a critic that only answers
    [{"overall_score": 5.0}]. *)
Lemma X18_witness :
  reflection_node (initial_state "hi" "s1" ∅ PNone)
    (validate_response (Some (PDict {[ "overall_score" := PFloat 5 ]})) false)
    !! "needs_regeneration" = Some (PBool (Qltb 5 7)) /\
  reflection_node (initial_state "hi" "s1" ∅ PNone)
    (validate_response (Some (PDict {[ "overall_score" := PFloat 5 ]})) false)
    !! "validation_passed" = Some (PBool (Qgeb 5 7)) /\
  reflection_node (initial_state "hi" "s1" ∅ PNone)
    (validate_response (Some (PDict {[ "overall_score" := PFloat 5 ]})) false)
    !! "regeneration_count" = Some (PInt (0 + if Qltb 5 7 then 1 else 0)) /\
  route_after_reflection
    (apply_update (initial_state "hi" "s1" ∅ PNone)
       (reflection_node (initial_state "hi" "s1" ∅ PNone)
          (validate_response
             (Some (PDict {[ "overall_score" := PFloat 5 ]})) false)))
  = (if Qltb 5 7 then "regenerate" else "end").
Proof.
  apply (X18_a_score_below_seven_asks_for_a_regeneration
           (initial_state "hi" "s1" ∅ PNone)
           {[ "overall_score" := PFloat 5 ]} 5 0).
  - reflexivity.
  - lia.
  - reflexivity.
  - eexists. reflexivity.
  - reflexivity.
  - reflexivity.
  - reflexivity.
  - reflexivity.
Defined.

(** ** The slot check of a turn *)

Import CheckSlots.

Lemma intent_of_unknown_value (v : pyval) :
  (forall i, v <> PStr (intent_value i)) -> intent_of_value v = GENERAL_QUESTION.
Proof.
  intros Hv. unfold intent_of_value. destruct v; try reflexivity.
  destruct (find (fun i => String.eqb (intent_value i) s) all_intents)
    as [i|] eqn:Hf; [|reflexivity].
  apply find_some in Hf as [_ Hi]. apply String.eqb_eq in Hi.
  exfalso. apply (Hv i). congruence.
Qed.

Lemma reflection_takes_the_clarification_shortcut (state : AgentState)
    (critique : pyval) (q : string) (n : Z) :
  state !! "needs_clarification" = Some (PBool true) ->
  state !! "clarification_question" = Some (PStr q) ->
  q <> "" ->
  regeneration_count_of state = Some n -> n < 2 ->
  reflection_node state critique = reflection_clarification.
Proof.
  intros Hn Hq Hne Hc Hlt.
  assert (Hcount : dict_get state "regeneration_count" (PInt 0) = PInt n).
  { unfold regeneration_count_of in Hc.
    destruct (dict_get state "regeneration_count" (PInt 0)); try discriminate.
    congruence. }
  unfold reflection_node, reflection_try. cbv zeta. rewrite Hcount.
  unfold py_ge_num. cbn [num_of].
  change (Qgeb (inject_Z n) 2) with (Qgeb (inject_Z n) (inject_Z 2)).
  rewrite Qgeb_inject_Z. destruct (Z.leb_spec 2 n); [lia|].
  cbn [mbind outcome_bind bind mret outcome_ret].
  unfold state_get, dict_get. rewrite Hn, Hq. simpl.
  destruct (String.eqb_spec q ""); [contradiction | reflexivity].
Qed.

Section CheckSlotsFacts.

Variable str_to_float : string -> option Q.

Lemma check_slots_node_result (state : AgentState) (current_slots : Slots)
    (update : gmap string pyval) :
  check_slots_node str_to_float state current_slots = Ret update ->
  exists intent_v updated,
    state !! "intent" = Some intent_v /\
    (truthy (state_get state "product_id") = true ->
     truthy (product_id updated) = true) /\
    update
    = {[ "slots" := PDict (model_dump updated);
         "slots_complete" :=
           PBool (check_slots_completeness (intent_of_value intent_v) updated).1;
         "missing_slots" :=
           PList (map PStr
                    (check_slots_completeness (intent_of_value intent_v) updated).2);
         "needs_clarification" :=
           PBool (negb (check_slots_completeness
                          (intent_of_value intent_v) updated).1);
         "clarification_question" :=
           if (check_slots_completeness (intent_of_value intent_v) updated).1
           then PNone
           else PStr (generate_clarification_question
                        (check_slots_completeness
                           (intent_of_value intent_v) updated).2) ]}.
Proof.
  unfold check_slots_node.
  destruct (state !! "intent") as [intent_v|]; simpl; [|discriminate].
  destruct (state !! "slots"); simpl; [|discriminate].
  destruct (state !! "entities") as [entities|]; simpl; [|discriminate].
  destruct (extract_from str_to_float entities current_slots)
    as [extracted|e]; simpl; [|discriminate].
  set (updated :=
         if negb (truthy (product_id extracted))
            && truthy (state_get state "product_id")
         then set_field F_product_id (state_get state "product_id") extracted
         else extracted).
  intros H. apply Ret_inj in H. subst update.
  exists intent_v, updated. split; [reflexivity|]. split.
  - intros Hp. unfold updated.
    destruct (truthy (product_id extracted)) eqn:He; simpl.
    + exact He.
    + rewrite Hp. simpl. exact Hp.
  - reflexivity.
Qed.

End CheckSlotsFacts.

(** X19: what [check_slots_node] reports.  When the node returns,
    [needs_clarification] is the negation of [slots_complete], and
    the slots are complete exactly when no slot is missing; every
    missing slot is required by the intent.  With complete slots the
    clarification question is [None]; otherwise it is a non-empty
    entry of the question table for one of the missing slots.  A
    truthy [product_id] in the state keeps ["product_id"] out of the
    missing slots.  An intent that is not one of the seven intent
    names counts as a general question, for which the slots are
    complete.  And when a question was set, the reflection node of a
    state that still carries it, with a regeneration counter below 2,
    accepts the reply without looking at the critic's verdict. *)
Theorem X19_a_question_is_asked_exactly_when_a_slot_is_missing
    (str_to_float : string -> option Q)
    (state : AgentState) (current_slots : Slots) (update : gmap string pyval) :
  check_slots_node str_to_float state current_slots = Ret update ->
  exists (complete : bool) (missing : list string) (intent_v : pyval),
    state !! "intent" = Some intent_v /\
    update !! "slots_complete" = Some (PBool complete) /\
    update !! "needs_clarification" = Some (PBool (negb complete)) /\
    update !! "missing_slots" = Some (PList (map PStr missing)) /\
    (complete = true <-> missing = []) /\
    (forall name, In name missing ->
       In name (REQUIREMENTS (intent_of_value intent_v))) /\
    (complete = true -> update !! "clarification_question" = Some PNone) /\
    (complete = false ->
     exists name q,
       In name missing /\ questions_get name = Some q /\ q <> "" /\
       update !! "clarification_question" = Some (PStr q) /\
       forall (later : AgentState) critique n,
         later !! "needs_clarification" = Some (PBool true) ->
         later !! "clarification_question" = Some (PStr q) ->
         regeneration_count_of later = Some n -> n < 2 ->
         reflection_node later critique = reflection_clarification) /\
    (truthy (state_get state "product_id") = true ->
     ~ In "product_id" missing) /\
    ((forall i, intent_v <> PStr (intent_value i)) -> complete = true).
Proof.
  intros Hnode.
  destruct (check_slots_node_result str_to_float state current_slots update Hnode)
    as (intent_v & updated & Hi & Hpid & ->).
  set (intent := intent_of_value intent_v).
  exists (check_slots_completeness intent updated).1,
         (check_slots_completeness intent updated).2, intent_v.
  assert (Hflag : (check_slots_completeness intent updated).1 = true <->
                  (check_slots_completeness intent updated).2 = []).
  { unfold check_slots_completeness. simpl.
    destruct (fold_left (check_one updated) (REQUIREMENTS intent) []);
      simpl; split; congruence. }
  split; [exact Hi|]. split; [reflexivity|]. split; [reflexivity|].
  split; [reflexivity|]. split; [exact Hflag|].
  split; [|split; [|split; [|split]]].
  - intros name. rewrite missing_slots_filter, filter_In. tauto.
  - intros ->. reflexivity.
  - intros Hc.
    destruct (question_for_incomplete_slots intent updated) as [_ Hq].
    destruct Hq as (name & q & Hin & Hget & Hgen & Hne & _).
    { unfold should_ask_clarification. rewrite Hc. reflexivity. }
    exists name, q. split; [exact Hin|]. split; [exact Hget|].
    split; [exact Hne|]. split.
    + rewrite Hc, Hgen. reflexivity.
    + intros later critique n H1 H2 H3 H4.
      apply (reflection_takes_the_clarification_shortcut later critique q n);
        assumption.
  - intros Hp Hin. rewrite missing_slots_filter in Hin.
    apply filter_In in Hin as [_ Hin].
    apply counts_as_missing_spec in Hin as [Hnone _].
    change (getattr updated "product_id") with (product_id updated) in Hnone.
    specialize (Hpid Hp). rewrite Hnone in Hpid. discriminate.
  - intros Hunknown. unfold intent.
    rewrite (intent_of_unknown_value intent_v Hunknown). reflexivity.
Qed.

(** X19 on a delivery question that names no product: the slot
    ["product_id"] is missing and the question of the table is asked. *)
Lemma X19_witness :
  exists (complete : bool) (missing : list string) (intent_v : pyval),
    unsure_delivery_state !! "intent" = Some intent_v /\
    product_question_update !! "slots_complete" = Some (PBool complete) /\
    product_question_update !! "missing_slots"
    = Some (PList (map PStr missing)) /\
    (complete = true <-> missing = []).
Proof.
  destruct (X19_a_question_is_asked_exactly_when_a_slot_is_missing
              sample_str_to_float unsure_delivery_state empty_slots
              product_question_update)
    as (complete & missing & intent_v & H1 & H2 & _ & H4 & H5 & _).
  - vm_compute. reflexivity.
  - exists complete, missing, intent_v. auto.
Defined.

(** ** Routing by confidence and by intent *)

Import IntentRouting.

Lemma confidence_route (state : AgentState) (q : Q) :
  num_of (dict_get state "intent_confidence" (PFloat (1 # 2))) = Some q ->
  py_float_check (dict_get state "intent_confidence" (PFloat (1 # 2))) = Ret tt ->
  confidence_aware_routing state
  = Ret (if Qltb q (3 # 5) then "clarification"
         else if Qltb q (4 # 5)
              then if truthy (dict_get state "slots_complete" (PBool false))
                   then "execute" else "clarification"
              else "execute").
Proof.
  intros Hq Hf. unfold confidence_aware_routing. cbv zeta. rewrite Hf.
  unfold py_lt_num. rewrite Hq. simpl.
  destruct (Qltb q (3 # 5)); simpl; [reflexivity|].
  destruct (Qltb q (4 # 5)); simpl; [|reflexivity].
  destruct (truthy _); reflexivity.
Qed.

(** X20: routing by confidence.  For a numeric confidence the route
    is [clarification] below 0.6 whatever the slots, [execute] from
    0.8 on whatever the slots, and in between [execute] exactly when
    the slots are complete.  So for two states that agree on
    [slots_complete], a higher confidence never turns [execute] into
    [clarification]; and at equal confidence, complete slots never
    turn [execute] into [clarification]. *)
Theorem X20_confidence_routing_is_monotone
    (state1 state2 : AgentState) (q1 q2 : Q) :
  num_of (dict_get state1 "intent_confidence" (PFloat (1 # 2))) = Some q1 ->
  num_of (dict_get state2 "intent_confidence" (PFloat (1 # 2))) = Some q2 ->
  py_float_check (dict_get state1 "intent_confidence" (PFloat (1 # 2))) = Ret tt ->
  py_float_check (dict_get state2 "intent_confidence" (PFloat (1 # 2))) = Ret tt ->
  ((q1 < 3 # 5)%Q -> confidence_aware_routing state1 = Ret "clarification") /\
  ((4 # 5 <= q1)%Q -> confidence_aware_routing state1 = Ret "execute") /\
  ((3 # 5 <= q1)%Q -> (q1 < 4 # 5)%Q ->
   confidence_aware_routing state1
   = Ret (if truthy (dict_get state1 "slots_complete" (PBool false))
          then "execute" else "clarification")) /\
  ((q1 <= q2)%Q ->
   (truthy (dict_get state1 "slots_complete" (PBool false)) = true ->
    truthy (dict_get state2 "slots_complete" (PBool false)) = true) ->
   confidence_aware_routing state1 = Ret "execute" ->
   confidence_aware_routing state2 = Ret "execute").
Proof.
  intros Hq1 Hq2 Hf1 Hf2.
  rewrite (confidence_route state1 q1 Hq1 Hf1).
  rewrite (confidence_route state2 q2 Hq2 Hf2).
  unfold Qltb.
  split; [|split; [|split]].
  - intros H. qcases; try reflexivity; lra.
  - intros H. qcases; try reflexivity; lra.
  - intros H1 H2. qcases; try reflexivity; lra.
  - intros Hle Hslots.
    destruct (truthy (dict_get state1 "slots_complete" (PBool false))) eqn:E1;
      [rewrite (Hslots eq_refl)|];
      qcases; try reflexivity; try discriminate; try lra;
      destruct (truthy (dict_get state2 "slots_complete" (PBool false)));
      try reflexivity; try discriminate.
Qed.

(** X20 on a confidence of 0.7 and one of 0.9, both with complete
    slots. *)
Lemma X20_witness :
  ((7 # 10 < 3 # 5)%Q ->
   confidence_aware_routing fairly_sure_state = Ret "clarification") /\
  ((4 # 5 <= 7 # 10)%Q ->
   confidence_aware_routing fairly_sure_state = Ret "execute") /\
  ((3 # 5 <= 7 # 10)%Q -> (7 # 10 < 4 # 5)%Q ->
   confidence_aware_routing fairly_sure_state
   = Ret (if truthy (dict_get fairly_sure_state "slots_complete" (PBool false))
          then "execute" else "clarification")) /\
  ((7 # 10 <= 9 # 10)%Q ->
   (truthy (dict_get fairly_sure_state "slots_complete" (PBool false)) = true ->
    truthy (dict_get sure_state "slots_complete" (PBool false)) = true) ->
   confidence_aware_routing fairly_sure_state = Ret "execute" ->
   confidence_aware_routing sure_state = Ret "execute").
Proof.
  apply (X20_confidence_routing_is_monotone fairly_sure_state sure_state
           (7 # 10) (9 # 10)); reflexivity.
Defined.

Lemma table_get_range (table : list (string * string)) (key : pyval) node :
  table_get table key = Ret (Some node) -> In node (map snd table).
Proof.
  unfold table_get. destruct key; try discriminate.
  destruct (find (fun kv => String.eqb kv.1 s) table) as [[k v]|] eqn:Hf;
    simpl; [|discriminate].
  intros H. apply Ret_inj in H. injection H as <-.
  apply find_some in Hf as [Hin _]. apply (in_map snd) in Hin. exact Hin.
Qed.

Lemma table_get_absent (table : list (string * string)) (s : string) :
  ~ In s (map fst table) -> table_get table (PStr s) = Ret None.
Proof.
  intros Hout. unfold table_get.
  destruct (find (fun kv => String.eqb kv.1 s) table) as [[k v]|] eqn:Hf;
    [|reflexivity].
  apply find_some in Hf as [Hin Hk]. apply String.eqb_eq in Hk. simpl in Hk.
  subst k. exfalso. apply Hout. apply (in_map fst) in Hin. exact Hin.
Qed.

(** X21: routing by intent.  Whenever [route_intent] returns, it
    names one of the six nodes the router can lead to.  The intents
    [product_info], [warranty_question], [general_question],
    [stock_check] and [meeting_planning] are routed without looking at
    [needs_clarification]; for every other intent a truthy
    [needs_clarification] leads to [generate_response]; and without
    it an intent that is a string other than [delivery_question] and
    [bargaining] leads to [rag_search]. *)
Theorem X21_route_intent_names_a_node_of_the_graph (state : AgentState) :
  (forall node, route_intent state = Ret node -> In node valid_nodes) /\
  (forall s node,
     dict_get state "intent" (PStr "general_question") = PStr s ->
     In (s, node) context_aware_intents ->
     route_intent state = Ret node) /\
  (forall s,
     dict_get state "intent" (PStr "general_question") = PStr s ->
     ~ In s (map fst context_aware_intents) ->
     truthy (state_get state "needs_clarification") = true ->
     route_intent state = Ret "generate_response") /\
  (forall s,
     dict_get state "intent" (PStr "general_question") = PStr s ->
     ~ In s (map fst context_aware_intents) ->
     ~ In s (map fst routing) ->
     truthy (state_get state "needs_clarification") = false ->
     route_intent state = Ret "rag_search").
Proof.
  split; [|split; [|split]].
  - intros node. unfold route_intent. cbv zeta.
    destruct (table_get context_aware_intents _) as [[known|]|e] eqn:Hk;
      simpl; [| |discriminate].
    + intros H. apply Ret_inj in H. subst known.
      apply table_get_range in Hk. simpl in Hk. simpl. tauto.
    + destruct (truthy (state_get state "needs_clarification")).
      * intros H. apply Ret_inj in H. subst node. simpl. tauto.
      * destruct (table_get routing _) as [[routed|]|e] eqn:Hr; simpl;
          [| |discriminate].
        -- intros H. apply Ret_inj in H. subst routed.
           apply table_get_range in Hr. simpl in Hr. simpl. tauto.
        -- intros H. apply Ret_inj in H. subst node. simpl. tauto.
  - intros s node Hs Hin. unfold route_intent. cbv zeta. rewrite Hs.
    simpl in Hin.
    destruct Hin as [H|[H|[H|[H|[H|[]]]]]]; injection H as <- <-; reflexivity.
  - intros s Hs Hout Hclar. unfold route_intent. cbv zeta. rewrite Hs, Hclar.
    rewrite (table_get_absent _ _ Hout). reflexivity.
  - intros s Hs Hout Hout2 Hclar. unfold route_intent. cbv zeta.
    rewrite Hs, Hclar. rewrite (table_get_absent _ _ Hout).
    cbn [mbind outcome_bind bind mret outcome_ret].
    rewrite (table_get_absent _ _ Hout2). reflexivity.
Qed.

(** ** The bargaining node *)

Import Bargaining.

Lemma accepted_offer_is_within_the_discount (p : Product) (q : Q) pr :
  evaluate_offer p q = Ret (accept, pr) ->
  can_bargain p = true /\ pr = Some q /\
  ((0 < price p)%Q ->
   (price p - price p * (max_discount_percent p / 100) <= q)%Q).
Proof.
  unfold evaluate_offer.
  destruct (can_bargain p) eqn:Hb; cbn [negb]; [|discriminate].
  destruct (can_bargain_max_discount p Hb) as [_ Hm].
  assert (E : (price p * (max_discount_percent p / 100)
               == price p * max_discount_percent p * (1 # 100))%Q) by field.
  unfold Qgeb. destruct (Qle_bool_spec (price p) q) as [Hge|Hlt].
  { intros H. apply Ret_inj in H. injection H as <-.
    split; [reflexivity|]. split; [reflexivity|]. intros Hpos.
    rewrite E. nra. }
  destruct (Qeq_bool (price p) 0) eqn:Ez; [discriminate|].
  assert (Hnz : ~ (price p == 0)%Q).
  { intros Hz. apply Qeq_bool_iff in Hz. congruence. }
  pose proof (quotient_times (price p - q) (price p) Hnz) as Hx.
  destruct (Qle_bool_spec ((price p - q) / price p * 100)
              (max_discount_percent p)) as [Hd|Hd].
  { intros H. apply Ret_inj in H. injection H as <-.
    split; [reflexivity|]. split; [reflexivity|]. intros Hpos.
    rewrite E. set (x := ((price p - q) / price p)%Q) in *. nra. }
  destruct (Qle_bool _ _); intros H; apply Ret_inj in H; discriminate.
Qed.

Section BargainingFacts.

Variable product_repo : ProductRepository.
Variable explanation : string.
Variable results : list (FusedResult spec_float).

Lemma bargaining_node_cases (state : AgentState) (run : BargainingRun) :
  bargaining_node product_repo explanation results state = Ret run ->
  exists slots product_id,
    state !! "slots" = Some (PDict slots) /\
    ((negb (truthy product_id)
      || negb (truthy (dict_get slots "offered_price" PNone)) = true /\
      br_update run !! "needs_clarification" = Some (PBool true) /\
      br_update run !! "action_result"
      = Some (PStr (missing_information product_id
                      (dict_get slots "offered_price" PNone))) /\
      br_agreed_price run = None /\ br_deal_notified run = None) \/
     (truthy product_id = true /\
      truthy (dict_get slots "offered_price" PNone) = true /\
      br_update run !! "needs_clarification" = None /\
      br_update run !! "product_id" = Some product_id /\
      ((evaluate_bargaining product_repo product_id
          (dict_get slots "offered_price" PNone) = Ret None /\
        br_update run !! "action_result" = Some (PStr "Товар не найден") /\
        br_agreed_price run = None /\ br_deal_notified run = None) \/
       (exists product decision,
          evaluate_bargaining product_repo product_id
            (dict_get slots "offered_price" PNone)
          = Ret (Some (product, decision)) /\
          br_update run !! "action_result" = Some (PStr explanation) /\
          br_agreed_price run
          = match decision with
            | accept => Some (dict_get slots "offered_price" PNone)
            | _ => None
            end /\
          br_deal_notified run
          = match decision with
            | accept => Some (title product,
                              dict_get slots "offered_price" PNone)
            | _ => None
            end)))).
Proof.
  unfold bargaining_node.
  destruct (state !! "slots") as [[| | | | | |slots]|]; simpl; try discriminate.
  set (offered := dict_get slots "offered_price" PNone).
  set (pid0 := py_or (state_get state "product_id")
                 (dict_get slots "product_id" PNone)).
  destruct (if truthy pid0 then Ret pid0 else _) as [product_id|e]; simpl;
    [|discriminate].
  intros H. exists slots, product_id. split; [reflexivity|].
  destruct (negb (truthy product_id) || negb (truthy offered)) eqn:Hmiss.
  - apply Ret_inj in H. subst run. left. simpl.
    split; [exact Hmiss|].
    destruct (truthy product_id); repeat split; reflexivity.
  - apply orb_false_iff in Hmiss as [Hp Ho].
    apply negb_false_iff in Hp, Ho. right.
    split; [exact Hp|]. split; [exact Ho|].
    destruct (evaluate_bargaining product_repo product_id offered)
      as [[[product decision]|]|e] eqn:Heval; simpl in H; [| |discriminate].
    + apply Ret_inj in H. subst run. simpl.
      split; [reflexivity|]. split; [reflexivity|]. right.
      exists product, decision. split; [exact Heval|]. split; [reflexivity|].
      destruct decision; split; reflexivity.
    + apply Ret_inj in H. subst run. simpl.
      split; [reflexivity|]. split; [reflexivity|]. left.
      split; [exact Heval|]. repeat split; reflexivity.
Qed.

End BargainingFacts.

Lemma evaluate_bargaining_accept (product_repo : ProductRepository)
    (product_id offered_price : pyval) (product : Product) :
  evaluate_bargaining product_repo product_id offered_price
  = Ret (Some (product, accept)) ->
  exists pid q,
    product_id = PStr pid /\ product_repo !! pid = Some product /\
    num_of offered_price = Some q /\
    evaluate_offer product q = Ret (accept, Some q) /\
    can_bargain product = true /\
    ((0 < price product)%Q ->
     (price product - price product * (max_discount_percent product / 100)
      <= q)%Q).
Proof.
  unfold evaluate_bargaining, get_product.
  destruct product_id as [| | | |pid| |]; try discriminate.
  destruct (product_repo !! pid) as [p|] eqn:Hp; [|discriminate].
  unfold evaluate_offer_value.
  destruct (can_bargain p) eqn:Hb; cbn [negb]; simpl; [|discriminate].
  destruct (num_of offered_price) as [q|]; simpl; [|discriminate].
  destruct (evaluate_offer p q) as [[d pr]|e] eqn:He; simpl; [|discriminate].
  intros H. apply Ret_inj in H. injection H as -> ->.
  destruct (accepted_offer_is_within_the_discount _ _ _ He) as (Hc & -> & Hfloor).
  exists pid, q. auto 10.
Qed.

(** X22: the bargaining node and the deal it reports.  The node
    calls [notify_deal_agreed] and stores an agreed price only
    together, and only when the product is in the repository, is open
    to bargaining, and the engine accepts the offer; the price
    reported is the offered price of the slots, and for a positive
    list price it is not below the list price less the maximum
    discount.  When the product or the offered price is missing, an
    offered price of zero included, the node asks for clarification
    and neither evaluates the offer nor reports a deal. *)
Theorem X22_a_deal_is_reported_only_for_an_accepted_offer
    (product_repo : ProductRepository) (explanation : string)
    (results : list (FusedResult spec_float))
    (state : AgentState) (run : BargainingRun) :
  bargaining_node product_repo explanation results state = Ret run ->
  (forall t v,
     br_deal_notified run = Some (t, v) ->
     br_agreed_price run = Some v /\
     truthy v = true /\
     exists slots pid product q,
       state !! "slots" = Some (PDict slots) /\
       v = dict_get slots "offered_price" PNone /\
       br_update run !! "product_id" = Some (PStr pid) /\
       product_repo !! pid = Some product /\
       t = title product /\
       num_of v = Some q /\
       evaluate_offer product q = Ret (accept, Some q) /\
       can_bargain product = true /\
       ((0 < price product)%Q ->
        (price product - price product * (max_discount_percent product / 100)
         <= q)%Q)) /\
  (forall v, br_agreed_price run = Some v ->
     exists t, br_deal_notified run = Some (t, v)) /\
  (br_update run !! "needs_clarification" = Some (PBool true) ->
   br_deal_notified run = None /\ br_agreed_price run = None) /\
  (forall slots,
     state !! "slots" = Some (PDict slots) ->
     truthy (dict_get slots "offered_price" PNone) = false ->
     br_update run !! "needs_clarification" = Some (PBool true) /\
     br_deal_notified run = None).
Proof.
  intros Hrun.
  destruct (bargaining_node_cases product_repo explanation results state run Hrun)
    as (slots & product_id & Hslots & Hcases).
  destruct Hcases as
    [(Hmiss & Hclar & _ & Hag & Hno)
    |(Hp & Ho & Hnc & Hpid &
      [(_ & _ & Hag & Hno)|(product & decision & Heval & _ & Hag & Hno)])].
  - split; [intros t v H; congruence|]. split; [intros v H; congruence|].
    split; [auto|]. intros slots' Hs' _. auto.
  - split; [intros t v H; congruence|]. split; [intros v H; congruence|].
    split; [intros H; congruence|].
    intros slots' Hs' Hf. rewrite Hslots in Hs'. injection Hs' as <-. congruence.
  - split; [|split; [|split]].
    + intros t v Hn. rewrite Hno in Hn.
      destruct decision; try discriminate. injection Hn as <- <-.
      split; [exact Hag|]. split; [exact Ho|].
      destruct (evaluate_bargaining_accept _ _ _ _ Heval)
        as (pid & q & -> & Hrepo & Hq & He & Hb & Hfloor).
      exists slots, pid, product, q. auto 12.
    + intros v Ha. rewrite Hag in Ha. rewrite Hno.
      destruct decision; try discriminate. injection Ha as <-. eauto.
    + intros H. congruence.
    + intros slots' Hs' Hf. rewrite Hslots in Hs'. injection Hs' as <-.
      congruence.
Qed.

(** X22 on an offer of 95 for the phone listed at 100 with up to 10
    percent off: the deal is reported at 95. *)
Lemma X22_witness :
  (forall t v,
     br_deal_notified BargainingSamples.offer_run = Some (t, v) ->
     br_agreed_price BargainingSamples.offer_run = Some v /\
     truthy v = true /\
     exists slots pid product q,
       BargainingSamples.offer_state !! "slots" = Some (PDict slots) /\
       v = dict_get slots "offered_price" PNone /\
       br_update BargainingSamples.offer_run !! "product_id"
       = Some (PStr pid) /\
       sample_repository !! pid = Some product /\
       t = title product /\
       num_of v = Some q /\
       evaluate_offer product q = Ret (accept, Some q) /\
       can_bargain product = true /\
       ((0 < price product)%Q ->
        (price product - price product * (max_discount_percent product / 100)
         <= q)%Q)) /\
  (forall v, br_agreed_price BargainingSamples.offer_run = Some v ->
     exists t, br_deal_notified BargainingSamples.offer_run = Some (t, v)) /\
  (br_update BargainingSamples.offer_run !! "needs_clarification"
   = Some (PBool true) ->
   br_deal_notified BargainingSamples.offer_run = None /\
   br_agreed_price BargainingSamples.offer_run = None) /\
  (forall slots,
     BargainingSamples.offer_state !! "slots" = Some (PDict slots) ->
     truthy (dict_get slots "offered_price" PNone) = false ->
     br_update BargainingSamples.offer_run !! "needs_clarification"
     = Some (PBool true) /\
     br_deal_notified BargainingSamples.offer_run = None).
Proof.
  apply (X22_a_deal_is_reported_only_for_an_accepted_offer
           sample_repository "ok" [] BargainingSamples.offer_state
           BargainingSamples.offer_run).
  vm_compute. reflexivity.
Defined.
